(** * A shallow embedding of the media bot (bot.py)

    The development follows the source file top to bottom:
    - Python values and string primitives used by the bot;
    - [sanitize_filename] and [is_supported_url] (pure utilities);
    - the world the bot runs in (conversation map, temporary directory,
      clock, trace of calls to the transport and to the engine);
    - [download_media], [handle_download_process], [show_main_menu],
      [process_music_search] and [cleanup_old_files].

    Conventions of the model:
    - a Python [str] is a [string] whose characters are code points below
      256; [None] and absent dictionary keys are explicit ([pyval],
      [field]);
    - an exception is a value of [exn]; a block that can raise returns a
      [result], and stateful code runs in the monad [M] over [World];
    - the chat transport and the engine are outside the bot: what they
      answer is given by an environment [Env], call by call, and every
      call is recorded in the trace of the world;
    - the clock counts milliseconds; the token of an attempt is the
      whole number of seconds of the reading; the retention sweep works
      on binary64 numbers as the source does: a reading of the clock or
      of a creation time is the binary64 number nearest to the seconds,
      and the age of a file is computed and compared in binary64;
    - one handler runs at a time, and [os.unlink] of a regular file of
      the directory succeeds. *)

From Stdlib Require Import ZArith NArith QArith Qround Bool List Ascii String Lia.
From Stdlib Require Import PrimFloat SpecFloat FloatOps.
From stdpp Require Import base option list gmap strings fin_maps pretty.

Import ListNotations.
Local Open Scope string_scope.
Local Open Scope bool_scope.

(** ** Python values *)

(** The values that reach the utilities as a "string or nothing" argument. *)
Inductive pyval : Type :=
  | PyNone
  | PyStr (s : string).

(** A dictionary field read with [d.get(key, default)]: the key may be
    absent, present with [None], or present with a value. *)
Inductive field (A : Type) : Type :=
  | Missing
  | Null
  | Val (a : A).
Arguments Missing {A}.
Arguments Null {A}.
Arguments Val {A} a.

(** [d.get(key, default)] *)
Definition dict_get {A} (f : field A) (default : option A) : option A :=
  match f with
  | Missing => default
  | Null => None
  | Val a => Some a
  end.

(** Exceptions: the engine's [yt_dlp.DownloadError] and every other
    [Exception]; both carry the text that [str(e)] returns. *)
Inductive exn : Type :=
  | DownloadError (msg : string)
  | PyException (msg : string).

Definition str_of_exn (e : exn) : string :=
  match e with
  | DownloadError m => m
  | PyException m => m
  end.

Inductive result (A : Type) : Type :=
  | Ok (a : A)
  | Raise (e : exn).
Arguments Ok {A} a.
Arguments Raise {A} e.

(** ** String primitives *)

Definition code (c : ascii) : N := N_of_ascii c.

(** [str.isspace] on one character, which is also what [\s] matches in a
    [str] pattern. *)
Definition is_space (c : ascii) : bool :=
  let n := code c in
  ((9 <=? n) && (n <=? 13) || (28 <=? n) && (n <=? 32)
   || (n =? 133) || (n =? 160))%N.

Definition py_lower_char (c : ascii) : ascii :=
  let n := code c in
  if ((65 <=? n) && (n <=? 90)
      || (192 <=? n) && (n <=? 222) && negb (n =? 215))%N
  then ascii_of_N (n + 32) else c.

(** [s.lower()] *)
Fixpoint py_lower (s : string) : string :=
  match s with
  | EmptyString => EmptyString
  | String c r => String (py_lower_char c) (py_lower r)
  end.

(** [s.lstrip()] *)
Fixpoint lstrip (s : string) : string :=
  match s with
  | EmptyString => EmptyString
  | String c r => if is_space c then lstrip r else s
  end.

(** [s.rstrip()] *)
Fixpoint rstrip (s : string) : string :=
  match s with
  | EmptyString => EmptyString
  | String c r =>
      match rstrip r with
      | EmptyString => if is_space c then EmptyString else String c EmptyString
      | r' => String c r'
      end
  end.

(** [s.strip()] *)
Definition strip (s : string) : string := rstrip (lstrip s).

(** [needle in hay] on strings *)
Fixpoint contains (needle hay : string) : bool :=
  String.prefix needle hay
  || match hay with
     | EmptyString => false
     | String _ r => contains needle r
     end.

(** [c in s] for one character *)
Fixpoint has_char (c : ascii) (s : string) : bool :=
  match s with
  | EmptyString => false
  | String d r => Ascii.eqb c d || has_char c r
  end.

(** [s[:n]] *)
Fixpoint str_take (n : nat) (s : string) : string :=
  match n, s with
  | S n', String c r => String c (str_take n' r)
  | _, _ => EmptyString
  end.

(** [s[n:]] *)
Fixpoint str_drop (n : nat) (s : string) : string :=
  match n, s with
  | S n', String _ r => str_drop n' r
  | _, _ => s
  end.

(** Keep the characters that satisfy [p]. *)
Fixpoint filter_chars (p : ascii -> bool) (s : string) : string :=
  match s with
  | EmptyString => EmptyString
  | String c r => if p c then String c (filter_chars p r) else filter_chars p r
  end.

(** The longest prefix whose characters all satisfy [p]. *)
Fixpoint take_while (p : ascii -> bool) (s : string) : string :=
  match s with
  | EmptyString => EmptyString
  | String c r => if p c then String c (take_while p r) else EmptyString
  end.

Fixpoint all_chars (p : ascii -> bool) (s : string) : bool :=
  match s with
  | EmptyString => true
  | String c r => p c && all_chars p r
  end.

(** ** sanitize_filename *)

(** The characters removed by the first [re.sub]: less-than,
    greater-than, colon, double quote (code 34), slash, backslash,
    vertical bar, question mark and star. *)
Definition is_forbidden (c : ascii) : bool :=
  existsb (Ascii.eqb c)
    ["<"; ">"; ":"; "034"; "/"; "092"; "|"; "?"; "*"]%char.

(** [re.sub(r'\s+', ' ', s)]: every maximal run of whitespace becomes one
    space; [in_run] tells that the previous character was whitespace. *)
Fixpoint collapse_ws (in_run : bool) (s : string) : string :=
  match s with
  | EmptyString => EmptyString
  | String c r =>
      if is_space c
      then (if in_run then collapse_ws true r
            else String " " (collapse_ws true r))
      else String c (collapse_ws false r)
  end.

Definition media_file : string := "media_file".

Definition sanitize_filename (filename : pyval) : string :=
  match filename with
  | PyNone => media_file
  | PyStr EmptyString => media_file
  | PyStr filename =>
      let filename := filter_chars (fun c => negb (is_forbidden c)) filename in
      let filename := strip (collapse_ws false filename) in
      let filename :=
        if (100 <? String.length filename)%nat then str_take 100 filename
        else filename in
      match filename with
      | EmptyString => media_file
      | _ => filename
      end
  end.

(** The first character of [s] is a whitespace character. *)
Definition starts_with_space (s : string) : bool :=
  match s with
  | EmptyString => false
  | String c _ => is_space c
  end.

(** Two adjacent whitespace characters somewhere in [s]. *)
Fixpoint has_ws_run (s : string) : bool :=
  match s with
  | String c ((String d _) as r) => is_space c && is_space d || has_ws_run r
  | _ => false
  end.

(** The input holds nothing that survives the cleaning: it is [None],
    or a string made only of forbidden characters and whitespace (the
    empty string included). *)
Definition only_junk (filename : pyval) : bool :=
  match filename with
  | PyNone => true
  | PyStr s => all_chars (fun c => is_forbidden c || is_space c) s
  end.

(** ** is_supported_url *)

(** [urllib.parse.urlparse] belongs to the Python standard library, not to
    the bot.  Its [netloc] is modelled after the [urlsplit] of CPython
    3.11, in the version that validates a netloc with brackets by
    [_check_bracketed_netloc].  Two of its validations depend on tables
    that are outside this development and are taken as parameters:
    [_check_bracketed_host] (the host must be an IPv6 or IPvFuture
    literal) and the NFKC check that [_checknetloc] performs on a netloc
    with a non-ASCII character.  Each returns [false] where the library
    raises [ValueError]. *)
Record UrlLib : Type := {
  check_bracketed_host : string -> bool;
  checknetloc_nfkc : string -> bool
}.

Definition is_ascii_char (c : ascii) : bool := (code c <? 128)%N.

Definition is_ascii_alpha (c : ascii) : bool :=
  let n := code c in
  ((65 <=? n) && (n <=? 90) || (97 <=? n) && (n <=? 122))%N.

Definition is_digit (c : ascii) : bool :=
  let n := code c in ((48 <=? n) && (n <=? 57))%N.

(** [scheme_chars]: letters, digits, plus, minus and dot. *)
Definition is_scheme_char (c : ascii) : bool :=
  is_ascii_alpha c || is_digit c
  || existsb (Ascii.eqb c) ["+"; "-"; "."]%char.

(** [_WHATWG_C0_CONTROL_OR_SPACE] *)
Definition is_c0_or_space (c : ascii) : bool := (code c <=? 32)%N.

Fixpoint lstrip_c0 (s : string) : string :=
  match s with
  | EmptyString => EmptyString
  | String c r => if is_c0_or_space c then lstrip_c0 r else s
  end.

(** [_UNSAFE_URL_BYTES_TO_REMOVE]: tab, carriage return, line feed. *)
Definition is_unsafe_url_char (c : ascii) : bool :=
  existsb (Ascii.eqb c) ["009"; "013"; "010"]%char.

(** [s.find(c)]: the index of the first occurrence. *)
Fixpoint find_char (c : ascii) (s : string) : option nat :=
  match s with
  | EmptyString => None
  | String d r =>
      if Ascii.eqb c d then Some O else option_map S (find_char c r)
  end.

(** The scheme split of [urlsplit]: what remains of the url after a
    leading [scheme:] has been taken off. *)
Definition split_scheme (url : string) : string :=
  match find_char ":" url, url with
  | Some (S i), String c0 _ =>
      if is_ascii_char c0 && is_ascii_alpha c0
         && all_chars is_scheme_char (str_take (S i) url)
      then str_drop (S (S i)) url
      else url
  | _, _ => url
  end.

Definition is_netloc_delim (c : ascii) : bool :=
  existsb (Ascii.eqb c) ["/"; "?"; "#"]%char.

(** [s.rpartition(c)[2]]: what follows the last [c], or all of [s]. *)
Fixpoint after_last (c : ascii) (s : string) : string :=
  match s with
  | EmptyString => EmptyString
  | String d r =>
      if has_char c r then after_last c r
      else if Ascii.eqb d c then r else s
  end.

(** [s.partition(c)[0]]: what precedes the first [c], or all of [s]. *)
Definition before_first (c : ascii) (s : string) : string :=
  take_while (fun d => negb (Ascii.eqb d c)) s.

(** [s.partition(c)[2]]: what follows the first [c], or nothing. *)
Fixpoint after_first (c : ascii) (s : string) : string :=
  match s with
  | EmptyString => EmptyString
  | String d r => if Ascii.eqb d c then r else after_first c r
  end.

(** [_check_bracketed_netloc]: nothing may stand before the opening
    bracket, and after the closing bracket only a port; the host is then
    handed to [_check_bracketed_host]. *)
Definition check_bracketed_netloc (lib : UrlLib) (netloc : string) : bool :=
  let hostname_and_port := after_last "@" netloc in
  if has_char "[" hostname_and_port then
    match before_first "[" hostname_and_port with
    | String _ _ => false
    | EmptyString =>
        let bracketed := after_first "[" hostname_and_port in
        let hostname := before_first "]" bracketed in
        match after_first "]" bracketed with
        | EmptyString => check_bracketed_host lib hostname
        | String c _ =>
            if Ascii.eqb c ":" then check_bracketed_host lib hostname
            else false
        end
    end
  else check_bracketed_host lib (before_first ":" hostname_and_port).

(** [urlparse(url).netloc]; [None] stands for [ValueError]. *)
Definition urlparse_netloc (lib : UrlLib) (url : string) : option string :=
  let url := lstrip_c0 url in
  let url := filter_chars (fun c => negb (is_unsafe_url_char c)) url in
  let url := split_scheme url in
  let netloc :=
    if String.prefix "//" url
    then take_while (fun c => negb (is_netloc_delim c)) (str_drop 2 url)
    else EmptyString in
  let lb := has_char "[" netloc in
  let rb := has_char "]" netloc in
  if xorb lb rb then None
  else if lb && rb && negb (check_bracketed_netloc lib netloc)
  then None
  else if negb (all_chars is_ascii_char netloc)
          && negb (checknetloc_nfkc lib netloc)
  then None
  else Some netloc.

Definition supported_domains : list string :=
  [ "youtube.com"; "youtu.be"; "music.youtube.com";
    "instagram.com"; "www.instagram.com";
    "facebook.com"; "fb.watch"; "www.facebook.com";
    "tiktok.com"; "vm.tiktok.com"; "www.tiktok.com";
    "twitter.com"; "x.com"; "www.twitter.com";
    "soundcloud.com"; "www.soundcloud.com";
    "vimeo.com"; "www.vimeo.com";
    "dailymotion.com"; "www.dailymotion.com" ].

(** [url.startswith(('http://', 'https://'))] *)
Definition has_http_scheme (url : string) : bool :=
  String.prefix "http://" url || String.prefix "https://" url.

(** The url as it is handed to [urlparse]. *)
Definition with_scheme (url : string) : string :=
  if has_http_scheme url then url else "https://" ++ url.

(** [any(supported in domain for supported in supported_domains)] *)
Definition domain_supported (domain : string) : bool :=
  existsb (fun supported => contains supported domain) supported_domains.

(** The body of the [try] block of [is_supported_url]. *)
Definition is_supported_url_body (lib : UrlLib) (url : pyval) : result bool :=
  match url with
  | PyNone =>
      Raise (PyException "'NoneType' object has no attribute 'strip'")
  | PyStr url =>
      let url := strip url in
      match url with
      | EmptyString => Ok false
      | _ =>
          let url := with_scheme url in
          match urlparse_netloc lib url with
          | None => Raise (PyException "Invalid IPv6 URL")
          | Some netloc => Ok (domain_supported (py_lower netloc))
          end
      end
  end.

(** [is_supported_url]: the [except Exception] branch logs and returns
    [False]. *)
Definition is_supported_url (lib : UrlLib) (url : pyval) : bool :=
  match is_supported_url_body lib url with
  | Ok b => b
  | Raise _ => false
  end.

(** [urlparse(url).hostname], from the netloc: the user information
    and the port are taken off, and the host is lowercased up to a zone
    identifier.  [is_supported_url] does not use it. *)
Definition urlparse_hostname (netloc : string) : option string :=
  let hostinfo := after_last "@" netloc in
  let hostname :=
    if has_char "[" hostinfo
    then before_first "]" (after_first "[" hostinfo)
    else before_first ":" hostinfo in
  match hostname with
  | EmptyString => None
  | _ =>
      Some (py_lower (before_first "%" hostname)
            ++ (if has_char "%" hostname
                then String "%" (after_first "%" hostname)
                else EmptyString))
  end.

(** A text that can stand between the scheme and the path: without the
    characters that end the network location (slash, question mark,
    hash) and without the characters that [urlsplit] removes (tab,
    carriage return, line feed). *)
Definition clean_authority (authority : string) : bool :=
  all_chars
    (fun c => negb (is_netloc_delim c) && negb (is_unsafe_url_char c))
    authority.

(** A network location as it is usually written: clean, ASCII and
    without brackets. *)
Definition plain_authority (authority : string) : bool :=
  clean_authority authority
  && all_chars is_ascii_char authority
  && negb (has_char "[" authority) && negb (has_char "]" authority).

(** The text [url] is [authority] followed by [rest], behind [https://],
    behind [http://], or behind neither of the two. *)
Definition reads_as (url authority rest : string) : Prop :=
  url = "https://" ++ authority ++ rest
  \/ url = "http://" ++ authority ++ rest
  \/ (url = authority ++ rest /\ has_http_scheme url = false).

(** What follows the network location: nothing, or a path, a query or a
    fragment. *)
Definition starts_path (rest : string) : bool :=
  match rest with
  | EmptyString => true
  | String c _ => is_netloc_delim c
  end.

(** A library whose parameterised checks accept everything. *)
Definition lenient_lib : UrlLib :=
  {| check_bracketed_host := fun _ => true;
     checknetloc_nfkc := fun _ => true |}.

(** ** The world the bot runs in *)

(** An entry of [TEMP_DIR]: size in bytes, creation and modification
    times in milliseconds since the epoch, and whether [os.path.isfile]
    holds (the other entries are directories). *)
Record File : Type := {
  f_size : Z;
  f_ctime : N;
  f_mtime : N;
  f_isfile : bool
}.

(** Metadata returned by the engine's [extract_info]. *)
Record Info : Type := {
  info_title : field string;
  info_duration : field Z;
  info_uploader : field string
}.

(** One entry of a flat search result. *)
Record Entry : Type := {
  en_title : field string;
  en_duration : field Z;
  en_url : field string
}.

(** The texts the bot sends with [bot.send_message], one constructor per
    template of the source, named after the words of the template; the
    arguments are the values the template interpolates.  In particular
    [MsgVideoUnavailable] is "Video unavailable - The video may be
    private, deleted, or restricted.", [MsgAccessBlocked] is "Access
    blocked - The server is blocking requests. ...", [MsgNoResultsFound]
    is "No results found", [MsgNoValidResultsFound] is "No valid results
    found", and [MsgMainMenu] is the welcome text sent with the
    keyboard. *)
Inductive Msg : Type :=
  | MsgStartingDownloadProcess
  | MsgRetryAttempt (n max : nat)
  | MsgDownloading (title : string) (duration : field Z)
  | MsgUnsupportedURL
  | MsgVerifyingURL
  | MsgDownloadedFileNotFound
  | MsgFileEmptyOrTooSmall
  | MsgUploading
  | MsgUploadSuccessful
  | MsgUploadRetrying (attempt : nat)
  | MsgUploadCompletedAsDocument
  | MsgUploadFailed (err : string)
  | MsgVideoUnavailable
  | MsgAccessBlocked
  | MsgNoContentReceived
  | MsgDownloadErrorText (err : string)
  | MsgMainMenu
  | MsgStartingVerifiedDownload
  | MsgEnterAtLeast2Characters
  | MsgSearchingFor (query : string)
  | MsgNoResultsFound
  | MsgNoValidResultsFound
  | MsgTopResults (results : list (field string * field Z))
  | MsgSearchError (err : string).

Inductive MediaKind : Type := SendAudio | SendVideo | SendDocument.

(** The trace of calls to the chat transport, to the engine and to
    [time.sleep].  A transport call records whether it returned ([true])
    or raised ([false]).  An upload records the file and the [title]
    argument of the call, which only [send_audio] receives; the caption
    is not recorded. *)
Inductive Event : Type :=
  | EvSendMessage (chat_id : Z) (m : Msg) (ok : bool)
  | EvChatAction (chat_id : Z) (action : string) (ok : bool)
  | EvSendMedia (chat_id : Z) (k : MediaKind) (file_path : string)
      (title : option string) (ok : bool)
  | EvProbe (url : pyval) (format : string) (timestamp : Z)
  | EvFetch (url : pyval) (format : string) (timestamp : Z)
  | EvSearch (search_url : string)
  | EvSleep (seconds : N).

(** The arguments of the thread that [process_url_input] starts. *)
Record Task : Type := {
  task_chat_id : Z;
  task_url : pyval;
  task_download_type : string;
  task_quality : string
}.

(** The world: the conversation map [user_states], the entries of
    [TEMP_DIR], the clock in milliseconds since the epoch, the trace of
    calls, and the threads started so far. *)
Record World : Type := {
  user_states : gmap Z string;
  temp_dir : gmap string File;
  clock : N;
  trace : list Event;
  spawned : list Task
}.

(** What the collaborators answer.  Every answer says how long the call
    took, in milliseconds. *)
Record TransportResp : Type := {
  tr_elapsed : N;
  tr_error : option string
}.

Inductive ProbeOutcome : Type :=
  | ProbeError (e : exn)
  | ProbeFalsy
  | ProbeInfo (i : Info).

Record ProbeResp : Type := {
  pr_elapsed : N;
  pr_outcome : ProbeOutcome
}.

(** A fetch writes regular files whose names follow the output template
    (the token prefix, then [fr_files]' first components), calls the
    progress hook, and returns or raises.  [fr_hook_actions] counts the
    hook calls that reach [bot.send_chat_action]. *)
Record FetchResp : Type := {
  fr_elapsed : N;
  fr_files : list (string * Z);
  fr_hook_actions : nat;
  fr_error : option exn
}.

Inductive SearchOutcome : Type :=
  | SearchError (e : exn)
  | SearchFalsy
  | SearchInfo (entries : field (list (option Entry))).

Record SearchResp : Type := {
  sr_elapsed : N;
  sr_outcome : SearchOutcome
}.

(** The environment: the library parameters, [FFMPEG_AVAILABLE], and the
    answer to the n-th call of each kind. *)
Record Env : Type := {
  url_lib : UrlLib;
  FFMPEG_AVAILABLE : bool;
  transport : nat -> TransportResp;
  probe : nat -> ProbeResp;
  fetch : nat -> FetchResp;
  search : nat -> SearchResp
}.

(** *** A state and exception monad *)

Definition M (A : Type) : Type := World -> result A * World.

Definition ret {A} (a : A) : M A := fun w => (Ok a, w).
Definition raise {A} (e : exn) : M A := fun w => (Raise e, w).
Definition bind {A B} (m : M A) (k : A -> M B) : M B :=
  fun w =>
    match m w with
    | (Ok a, w') => k a w'
    | (Raise e, w') => (Raise e, w')
    end.

Declare Scope bot_scope.
Delimit Scope bot_scope with bot.
Notation "x <- m ;; k" := (bind m (fun x => k))
  (at level 100, m at next level, right associativity) : bot_scope.
Notation "m ;;; k" := (bind m (fun _ => k))
  (at level 100, right associativity) : bot_scope.
Local Open Scope bot_scope.

(** [try: m except Exception as e: h e] *)
Definition try_except {A} (m : M A) (h : exn -> M A) : M A :=
  fun w =>
    match m w with
    | (Ok a, w') => (Ok a, w')
    | (Raise e, w') => h e w'
    end.

(** [try: m except: pass] *)
Definition try_pass (m : M unit) : M unit := try_except m (fun _ => ret tt).

(** [try: m finally: f]: [f] runs whatever the outcome of [m], which is
    kept unless [f] itself raises. *)
Definition try_finally {A} (m : M A) (f : M unit) : M A :=
  fun w =>
    match m w with
    | (r, w') =>
        match f w' with
        | (Ok _, w'') => (r, w'')
        | (Raise e, w'') => (Raise e, w'')
        end
    end.

Definition get_world : M World := fun w => (Ok w, w).

Definition set_user_states (f : gmap Z string -> gmap Z string) : M unit :=
  fun w => (Ok tt, {| user_states := f (user_states w);
                      temp_dir := temp_dir w;
                      clock := clock w;
                      trace := trace w;
                      spawned := spawned w |}).

Definition set_temp_dir (f : gmap string File -> gmap string File) : M unit :=
  fun w => (Ok tt, {| user_states := user_states w;
                      temp_dir := f (temp_dir w);
                      clock := clock w;
                      trace := trace w;
                      spawned := spawned w |}).

(** [threading.Thread(target=..., args=...).start()] *)
Definition thread_start (t : Task) : M unit :=
  fun w => (Ok tt, {| user_states := user_states w;
                      temp_dir := temp_dir w;
                      clock := clock w;
                      trace := trace w;
                      spawned := spawned w ++ [t] |}).

(** Time passes and a call is recorded. *)
Definition tick (elapsed : N) (e : list Event) : M unit :=
  fun w => (Ok tt, {| user_states := user_states w;
                      temp_dir := temp_dir w;
                      clock := (clock w + elapsed)%N;
                      trace := trace w ++ e;
                      spawned := spawned w |}).

Definition is_transport_call (e : Event) : bool :=
  match e with
  | EvSendMessage _ _ _ | EvChatAction _ _ _ | EvSendMedia _ _ _ _ _ => true
  | _ => false
  end.

Definition is_probe (e : Event) : bool :=
  match e with EvProbe _ _ _ => true | _ => false end.

Definition is_fetch (e : Event) : bool :=
  match e with EvFetch _ _ _ => true | _ => false end.

Definition is_search (e : Event) : bool :=
  match e with EvSearch _ => true | _ => false end.

Definition count_calls (p : Event -> bool) (t : list Event) : nat :=
  length (List.filter p t).

(** A call to the transport: the environment decides whether it returns
    or raises. *)
Definition transport_call (env : Env) (ev : bool -> Event) : M unit :=
  w <- get_world ;;
  let resp := transport env (count_calls is_transport_call (trace w)) in
  match tr_error resp with
  | None => tick (tr_elapsed resp) [ev true]
  | Some err => tick (tr_elapsed resp) [ev false] ;;; raise (PyException err)
  end.

Definition bot_send_message (env : Env) (chat_id : Z) (m : Msg) : M unit :=
  transport_call env (EvSendMessage chat_id m).

Definition bot_send_chat_action (env : Env) (chat_id : Z) (action : string)
  : M unit :=
  transport_call env (EvChatAction chat_id action).

(** [time.time()], in seconds: the exact value of the reading. *)
Definition time_time (w : World) : Q := Z.of_N (clock w) # 1000.

(** [int(time.time())] *)
Definition int_time (w : World) : Z := Qfloor (time_time w).

(** [time.sleep(seconds)] *)
Definition time_sleep (seconds : N) : M unit :=
  tick (1000 * seconds) [EvSleep seconds].

(** *** The temporary directory *)

(** [os.listdir(TEMP_DIR)] *)
Definition listdir (fs : gmap string File) : list string :=
  (map_to_list fs).*1.

(** [os.unlink(name)]: a regular file is removed; for a directory or a
    missing entry the call raises ([None]) and nothing changes.
    [unlink_quiet] is the call inside [try: ... except: pass]. *)
Definition unlink (name : string) (fs : gmap string File)
  : option (gmap string File) :=
  match fs !! name with
  | Some f => if f_isfile f then Some (delete name fs) else None
  | None => None
  end.

Definition unlink_quiet (name : string) (fs : gmap string File)
  : gmap string File :=
  match unlink name fs with
  | Some fs' => fs'
  | None => fs
  end.

(** The file name prefix [download_{timestamp}_]. *)
Definition token_prefix (timestamp : Z) : string :=
  "download_" ++ pretty timestamp ++ "_".

(** [glob.glob(os.path.join(TEMP_DIR, f"download_{timestamp}_*"))] *)
Definition glob_token (timestamp : Z) (fs : gmap string File) : list string :=
  List.filter (String.prefix (token_prefix timestamp)) (listdir fs).

(** [glob.glob(os.path.join(TEMP_DIR, "*"))]: hidden entries do not
    match. *)
Definition glob_all (fs : gmap string File) : list string :=
  List.filter (fun name => negb (String.prefix "." name)) (listdir fs).

(** ** get_ydl_options *)

(** The [format] entry of the options: the only one that depends on the
    requested profile. *)
Definition ydl_format (env : Env) (download_type quality : string) : string :=
  if String.eqb download_type "audio" then
    if FFMPEG_AVAILABLE env then "bestaudio/best"
    else "bestaudio[ext=m4a]/bestaudio/best"
  else if String.eqb quality "fast" then
    "best[height<=480]/best[height<=360]/worst"
  else if String.eqb quality "hd" then
    "best[height<=1080]/best[height<=720]/best"
  else "best[height<=720]/best[height<=480]/best".

(** ** download_media *)

Definition max_retries : nat := 3.

(** [info.get(key, default)] for a text field, as a Python value. *)
Definition get_str (f : field string) (default : string) : pyval :=
  match f with
  | Missing => PyStr default
  | Null => PyNone
  | Val s => PyStr s
  end.

(** [ydl.extract_info(url, download=False)] *)
Definition engine_probe (env : Env) (url : pyval) (format : string)
    (timestamp : Z) : M ProbeOutcome :=
  w <- get_world ;;
  let resp := probe env (count_calls is_probe (trace w)) in
  tick (pr_elapsed resp) [EvProbe url format timestamp] ;;;
  ret (pr_outcome resp).

(** The pre-flight block: any failure is raised again as a plain
    [Exception] whose text starts with "Cannot access video: ". *)
Definition probe_step (env : Env) (chat_id : Z) (url : pyval)
    (format : string) (timestamp : Z) : M Info :=
  try_except
    (o <- engine_probe env url format timestamp ;;
     match o with
     | ProbeError e => raise e
     | ProbeFalsy => raise (PyException "Could not extract video information")
     | ProbeInfo info =>
         let title := sanitize_filename (get_str (info_title info) "Unknown") in
         bot_send_message env chat_id (MsgDownloading title (info_duration info)) ;;;
         ret info
     end)
    (fun e => raise (PyException ("Cannot access video: " ++ str_of_exn e))).

Fixpoint repeat_m (n : nat) (m : M unit) : M unit :=
  match n with
  | O => ret tt
  | S k => m ;;; repeat_m k m
  end.

(** The files a fetch leaves in [TEMP_DIR]. *)
Definition write_files (timestamp : Z) (files : list (string * Z)) : M unit :=
  w <- get_world ;;
  set_temp_dir (fun fs =>
    fold_left
      (fun fs '(suffix, size) =>
         <[ token_prefix timestamp ++ suffix :=
            {| f_size := size; f_ctime := clock w; f_mtime := clock w;
               f_isfile := true |} ]> fs)
      files fs).

(** [progress_hook]: a chat action whose failure is swallowed. *)
Definition progress_hook (env : Env) (chat_id : Z) (download_type : string)
  : M unit :=
  try_pass
    (bot_send_chat_action env chat_id
       (if String.eqb download_type "audio" then "upload_audio"
        else "upload_video")).

(** [ydl.download([url])] with the progress hook installed. *)
Definition engine_fetch (env : Env) (chat_id : Z) (url : pyval)
    (download_type format : string) (timestamp : Z) : M unit :=
  w <- get_world ;;
  let resp := fetch env (count_calls is_fetch (trace w)) in
  tick (fr_elapsed resp) [EvFetch url format timestamp] ;;;
  write_files timestamp (fr_files resp) ;;;
  repeat_m (fr_hook_actions resp) (progress_hook env chat_id download_type) ;;;
  match fr_error resp with
  | Some e => raise e
  | None => ret tt
  end.

Definition mtime_of (fs : gmap string File) (name : string) : N :=
  match fs !! name with
  | Some f => f_mtime f
  | None => 0%N
  end.

(** [all_files.sort(key=os.path.getmtime, reverse=True); all_files[0]]:
    the first entry, in listing order, with the greatest modification
    time. *)
Fixpoint newest_from (fs : gmap string File) (best : string)
    (names : list string) : string :=
  match names with
  | [] => best
  | name :: rest =>
      if (mtime_of fs best <? mtime_of fs name)%N
      then newest_from fs name rest
      else newest_from fs best rest
  end.

(** Discovery: the entries carrying the token, else the newest entry. *)
Definition discover (timestamp : Z) (fs : gmap string File) : list string :=
  match glob_token timestamp fs with
  | [] =>
      match glob_all fs with
      | [] => []
      | name :: rest => [newest_from fs name rest]
      end
  | files => files
  end.

(** Verification: the loop over the discovered files.  It stops at the
    first entry larger than 1024 bytes; an entry that is not larger is
    unlinked; an entry whose size cannot be read is skipped. *)
Fixpoint verify_files (files : list string) (fs : gmap string File)
  : option string * gmap string File :=
  match files with
  | [] => (None, fs)
  | file_path :: rest =>
      match fs !! file_path with
      | None => verify_files rest fs
      | Some f =>
          if (1024 <? f_size f)%Z then (Some file_path, fs)
          else verify_files rest (unlink_quiet file_path fs)
      end
  end.

(** The effect of the verification loop on the entries it scanned and
    rejected, and on the others: a scanned entry is at most 1024 bytes
    and, when it is a regular file, it is gone; every other entry is
    untouched. *)
Definition rejected_all (scanned : list string) (fs fs' : gmap string File)
  : Prop :=
  (forall q g, In q scanned -> fs !! q = Some g ->
     (f_size g <= 1024)%Z /\ (f_isfile g = true -> fs' !! q = None))
  /\ (forall q, ~ In q scanned -> fs' !! q = fs !! q).

(** The cleanup block of both handlers.  [timestamp] is the local
    variable of that name: it is unbound until the first attempt has
    assigned it, and the block's bare [except] swallows the error; the
    loop over the glob stops at the first [os.unlink] that raises. *)
Fixpoint unlink_all (names : list string) (fs : gmap string File)
  : gmap string File :=
  match names with
  | [] => fs
  | name :: rest =>
      match unlink name fs with
      | Some fs' => unlink_all rest fs'
      | None => fs
      end
  end.

Definition purge_partial (timestamp : option Z) : M unit :=
  match timestamp with
  | None => ret tt
  | Some ts => set_temp_dir (fun fs => unlink_all (glob_token ts fs) fs)
  end.

(** How one pass through the body of the [for] loop ends. *)
Inductive Flow (A : Type) : Type :=
  | FReturn (a : A)
  | FContinue
  | FRaise (e : exn).
Arguments FReturn {A} a.
Arguments FContinue {A}.
Arguments FRaise {A} e.

(** The first statement of the [try] block: the progress message. *)
Definition notify_attempt (env : Env) (chat_id : Z) (attempt : nat) : M unit :=
  if (0 <? attempt)%nat
  then bot_send_message env chat_id (MsgRetryAttempt (attempt + 1) max_retries)
  else bot_send_message env chat_id MsgStartingDownloadProcess.

(** The rest of the [try] block, from the assignment of [timestamp]
    on. *)
Definition attempt_body (env : Env) (chat_id : Z) (url : pyval)
    (download_type quality : string) (timestamp : Z) : M (Info * string) :=
  let format := ydl_format env download_type quality in
  info <- probe_step env chat_id url format timestamp ;;
  engine_fetch env chat_id url download_type format timestamp ;;;
  time_sleep 2 ;;;
  w <- get_world ;;
  let files := discover timestamp (temp_dir w) in
  let '(downloaded_file_path, fs) := verify_files files (temp_dir w) in
  set_temp_dir (fun _ => fs) ;;;
  match downloaded_file_path with
  | Some file_path => ret (info, file_path)
  | None => raise (PyException "Download completed but no valid file found")
  end.

(** [except yt_dlp.DownloadError as e] *)
Definition on_download_error {A} (attempt : nat) (timestamp : option Z)
    (error_msg : string) : M (Flow A) :=
  purge_partial timestamp ;;;
  if contains "HTTP Error 403" error_msg || contains "Forbidden" error_msg then
    if (attempt <? max_retries - 1)%nat then ret FContinue
    else ret (FRaise (PyException
           "Server blocked the request. Please try a different video or try again later."))
  else if contains "Video unavailable" error_msg
          || contains "Private video" error_msg then
    ret (FRaise (PyException "Video is unavailable, private, or restricted."))
  else if (attempt <? max_retries - 1)%nat then
    time_sleep 3 ;;; ret FContinue
  else ret (FRaise (PyException ("Download failed: " ++ str_take 100 error_msg))).

(** [except Exception as e] *)
Definition on_exception {A} (attempt : nat) (timestamp : option Z) (e : exn)
  : M (Flow A) :=
  purge_partial timestamp ;;;
  if (attempt <? max_retries - 1)%nat then
    time_sleep 3 ;;; ret FContinue
  else ret (FRaise e).

Definition on_error {A} (attempt : nat) (timestamp : option Z) (e : exn)
  : M (Flow A) :=
  match e with
  | DownloadError error_msg => on_download_error attempt timestamp error_msg
  | PyException _ => on_exception attempt timestamp e
  end.

(** One pass through the loop body.  It yields how the pass ends and the
    value of the local [timestamp] afterwards. *)
Definition iteration (env : Env) (chat_id : Z) (url : pyval)
    (download_type quality : string) (attempt : nat) (timestamp : option Z)
  : World -> (Flow (Info * string) * option Z) * World :=
  fun w =>
    match notify_attempt env chat_id attempt w with
    | (Raise e, w1) =>
        match on_error attempt timestamp e w1 with
        | (Ok fl, w2) => ((fl, timestamp), w2)
        | (Raise e', w2) => ((FRaise e', timestamp), w2)
        end
    | (Ok _, w1) =>
        let ts := int_time w1 in
        match attempt_body env chat_id url download_type quality ts w1 with
        | (Ok r, w2) => ((FReturn r, Some ts), w2)
        | (Raise e, w2) =>
            match on_error attempt (Some ts) e w2 with
            | (Ok fl, w3) => ((fl, Some ts), w3)
            | (Raise e', w3) => ((FRaise e', Some ts), w3)
            end
        end
    end.

(** The [for attempt in range(max_retries)] loop. *)
Fixpoint attempts (env : Env) (chat_id : Z) (url : pyval)
    (download_type quality : string) (todo : list nat) (timestamp : option Z)
  : M (Info * string) :=
  match todo with
  | [] => raise (PyException "All download attempts failed - no content received")
  | attempt :: rest =>
      fun w =>
        match iteration env chat_id url download_type quality attempt
                timestamp w with
        | ((FReturn r, _), w') => (Ok r, w')
        | ((FContinue, timestamp'), w') =>
            attempts env chat_id url download_type quality rest timestamp' w'
        | ((FRaise e, _), w') => (Raise e, w')
        end
  end.

Definition download_media (env : Env) (chat_id : Z) (url : pyval)
    (download_type quality : string) : M (Info * string) :=
  attempts env chat_id url download_type quality (seq 0 max_retries) None.

(** ** show_main_menu *)

(** The keyboard is built, the menu is sent, and then the state is set;
    an exception anywhere in the block is logged and swallowed. *)
Definition show_main_menu (env : Env) (chat_id : Z) : M unit :=
  try_except
    (bot_send_message env chat_id MsgMainMenu ;;;
     set_user_states (fun st => <[chat_id := "main"]> st))
    (fun _ => ret tt).

(** ** handle_download_process *)

(** [with open(file_path, 'rb') as file: send(file)] *)
Definition send_file (env : Env) (chat_id : Z) (k : MediaKind)
    (file_path : string) (title : option string) : M unit :=
  w <- get_world ;;
  match temp_dir w !! file_path with
  | None => raise (PyException "No such file or directory")
  | Some f =>
      if f_isfile f
      then transport_call env (EvSendMedia chat_id k file_path title)
      else raise (PyException "Is a directory")
  end.

Definition max_upload_attempts : nat := 2.

(** The [for upload_attempt in range(max_upload_attempts)] loop:
    [send_audio] is given [title[:64]], [send_video] and [send_document]
    are given no title. *)
Fixpoint upload_loop (env : Env) (chat_id : Z) (download_type : string)
    (file_path title : string) (todo : list nat) : M unit :=
  match todo with
  | [] => ret tt
  | upload_attempt :: rest =>
      r <- try_except
             ((if String.eqb download_type "audio"
               then send_file env chat_id SendAudio file_path
                      (Some (str_take 64 title))
               else send_file env chat_id SendVideo file_path None) ;;;
              bot_send_message env chat_id MsgUploadSuccessful ;;;
              ret true)
             (fun upload_error =>
                if (upload_attempt <? max_upload_attempts - 1)%nat then
                  bot_send_message env chat_id
                    (MsgUploadRetrying (upload_attempt + 2)) ;;;
                  time_sleep 2 ;;;
                  ret false
                else
                  try_except
                    (send_file env chat_id SendDocument file_path None ;;;
                     bot_send_message env chat_id MsgUploadCompletedAsDocument)
                    (fun doc_error =>
                       bot_send_message env chat_id
                         (MsgUploadFailed (str_take 100 (str_of_exn upload_error)))) ;;;
                  ret false) ;;
      if r : bool then ret tt
      else upload_loop env chat_id download_type file_path title rest
  end.

(** The cleanup block after the upload loop. *)
Definition cleanup_payload (file_path : string) : M unit :=
  set_temp_dir (unlink_quiet file_path).

(** The body of the outer [try] block.  The test [not info or not
    file_path] that follows the download never holds, since
    [download_media] returns a non-empty dictionary and a path that the
    glob produced; it is left out. *)
Definition handle_download_body (env : Env) (chat_id : Z) (url : pyval)
    (download_type quality : string) : M unit :=
  if negb (is_supported_url (url_lib env) url) then
    bot_send_message env chat_id MsgUnsupportedURL ;;;
    show_main_menu env chat_id
  else
    bot_send_message env chat_id MsgVerifyingURL ;;;
    r <- download_media env chat_id url download_type quality ;;
    let '(info, file_path) := r in
    w <- get_world ;;
    match temp_dir w !! file_path with
    | None =>
        bot_send_message env chat_id MsgDownloadedFileNotFound ;;;
        show_main_menu env chat_id
    | Some f =>
        if (f_size f <? 1024)%Z then
          bot_send_message env chat_id MsgFileEmptyOrTooSmall ;;;
          set_temp_dir (unlink_quiet file_path) ;;;
          show_main_menu env chat_id
        else
          let title :=
            sanitize_filename (get_str (info_title info) "Unknown") in
          bot_send_message env chat_id MsgUploading ;;;
          bot_send_chat_action env chat_id "upload_document" ;;;
          upload_loop env chat_id download_type file_path title
            (seq 0 max_upload_attempts) ;;;
          cleanup_payload file_path
    end.

(** The [except Exception as e] block: the user-facing message is chosen
    from the text of the exception. *)
Definition report_error (env : Env) (chat_id : Z) (e : exn) : M unit :=
  let error_msg := str_of_exn e in
  let lowered := py_lower error_msg in
  if contains "unavailable" lowered || contains "private" lowered then
    bot_send_message env chat_id MsgVideoUnavailable
  else if contains "blocked" lowered || contains "403" error_msg then
    bot_send_message env chat_id MsgAccessBlocked
  else if contains "No content" error_msg || contains "empty" lowered then
    bot_send_message env chat_id MsgNoContentReceived
  else
    bot_send_message env chat_id (MsgDownloadErrorText (str_take 150 error_msg)).

Definition handle_download_process (env : Env) (chat_id : Z) (url : pyval)
    (download_type quality : string) : M unit :=
  try_finally
    (try_except
       (handle_download_body env chat_id url download_type quality)
       (report_error env chat_id))
    (show_main_menu env chat_id).

(** ** process_url_input *)

(** [s.split('_')] *)
Fixpoint split_underscore (cur : string) (s : string) : list string :=
  match s with
  | EmptyString => [cur]
  | String c r =>
      if Ascii.eqb c "_" then cur :: split_underscore EmptyString r
      else split_underscore (cur ++ String c EmptyString) r
  end.

(** The handler of a text message while the requester's state starts
    with [waiting_url_]: it marks the requester as processing, starts
    the thread and then tells the requester. *)
Definition process_url_input (env : Env) (chat_id : Z) (text : string)
  : M unit :=
  w <- get_world ;;
  let url := strip text in
  let current_state := default EmptyString (user_states w !! chat_id) in
  if negb (String.prefix "waiting_url_" current_state) then ret tt
  else
    match split_underscore EmptyString current_state with
    | _ :: _ :: download_type :: quality :: _ =>
        set_user_states (fun st => <[chat_id := "processing"]> st) ;;;
        thread_start {| task_chat_id := chat_id; task_url := PyStr url;
                        task_download_type := download_type;
                        task_quality := quality |} ;;;
        bot_send_message env chat_id MsgStartingVerifiedDownload
    | _ => raise (PyException "list index out of range")
    end.

(** The body of a started thread. *)
Definition run_task (env : Env) (t : Task) : M unit :=
  handle_download_process env (task_chat_id t) (task_url t)
    (task_download_type t) (task_quality t).

(** ** process_music_search *)

(** [ydl.extract_info(f"ytsearch3:{query}", download=False)] *)
Definition engine_search (env : Env) (search_url : string) : M SearchOutcome :=
  w <- get_world ;;
  let resp := search env (count_calls is_search (trace w)) in
  tick (sr_elapsed resp) [EvSearch search_url] ;;;
  ret (sr_outcome resp).

(** [[e for e in entries if e and e.get('duration', 0) < 1800]]: a
    falsy entry is dropped; a missing duration counts as 0; a duration
    that is [None] makes the comparison raise [TypeError]. *)
Fixpoint keep_short (entries : list (option Entry)) : result (list Entry) :=
  match entries with
  | [] => Ok []
  | None :: rest => keep_short rest
  | Some e :: rest =>
      match dict_get (en_duration e) (Some 0%Z) with
      | None =>
          Raise (PyException
            "'<' not supported between instances of 'NoneType' and 'int'")
      | Some duration =>
          match keep_short rest with
          | Raise x => Raise x
          | Ok kept => Ok (if (duration <? 1800)%Z then e :: kept else kept)
          end
      end
  end.

(** The comprehension followed by the slice [[:3]]. *)
Definition select_entries (entries : list (option Entry))
  : result (list Entry) :=
  match keep_short entries with
  | Ok kept => Ok (firstn 3 kept)
  | Raise x => Raise x
  end.

Definition lift_result {A} (r : result A) : M A := fun w => (r, w).

(** The download of the first candidate, as audio at the default
    quality; [first_result['url']] raises [KeyError] when the key is
    absent. *)
Definition dispatch_first (env : Env) (chat_id : Z) (first_result : Entry)
  : M unit :=
  match en_url first_result with
  | Missing => raise (PyException "'url'")
  | Null => handle_download_process env chat_id PyNone "audio" "best"
  | Val u => handle_download_process env chat_id (PyStr u) "audio" "best"
  end.

(** The body of the [try] block of [process_music_search]. *)
Definition search_body (env : Env) (chat_id : Z) (query : string) : M unit :=
  bot_send_message env chat_id (MsgSearchingFor query) ;;;
  let search_url := "ytsearch3:" ++ query in
  o <- engine_search env search_url ;;
  match o with
  | SearchError e => raise e
  | SearchFalsy | SearchInfo Missing | SearchInfo Null | SearchInfo (Val []) =>
      bot_send_message env chat_id MsgNoResultsFound ;;;
      show_main_menu env chat_id
  | SearchInfo (Val all_entries) =>
      entries <- lift_result (select_entries all_entries) ;;
      match entries with
      | [] =>
          bot_send_message env chat_id MsgNoValidResultsFound ;;;
          show_main_menu env chat_id
      | first_result :: _ =>
          bot_send_message env chat_id
            (MsgTopResults
               (List.map (fun e => (en_title e, en_duration e)) entries)) ;;;
          dispatch_first env chat_id first_result
      end
  end.

(** The [except Exception as e] block of [process_music_search]. *)
Definition search_failed (env : Env) (chat_id : Z) (e : exn) : M unit :=
  bot_send_message env chat_id (MsgSearchError (str_take 100 (str_of_exn e))) ;;;
  show_main_menu env chat_id.

Definition process_music_search (env : Env) (chat_id : Z) (text : string)
  : M unit :=
  let query := strip text in
  if (String.length query <? 2)%nat then
    bot_send_message env chat_id MsgEnterAtLeast2Characters ;;;
    show_main_menu env chat_id
  else
    try_except (search_body env chat_id query) (search_failed env chat_id).

(** ** CleanupManager.cleanup_old_files *)

(** Python numbers: an [int] or a [float] (binary64). *)
Inductive pynumber : Type :=
  | PyInt (n : Z)
  | PyFloat (x : float).

(** [float(n)]: the binary64 number nearest to the integer [n]. *)
Definition float_of_Z (n : Z) : float :=
  SF2Prim (binary_normalize prec emax n 0 false).

(** A time of the model, in milliseconds, as the program reads it: the
    binary64 number nearest to the number of seconds. *)
Definition seconds_of_ms (ms : N) : float :=
  PrimFloat.div (float_of_Z (Z.of_N ms)) (float_of_Z 1000).

(** [x > n] for a float and an int: Python compares the two values
    exactly. *)
Definition float_gt_int (x : float) (n : Z) : bool :=
  match Prim2SF x with
  | S754_nan => false
  | S754_infinity s => negb s
  | S754_zero _ => (n <? 0)%Z
  | S754_finite s m e =>
      let v := if s then Z.neg m else Z.pos m in
      if (0 <=? e)%Z then (n <? v * 2 ^ e)%Z else (n * 2 ^ (- e) <? v)%Z
  end.

(** [x > y] for a float [x]. *)
Definition float_gt (x : float) (y : pynumber) : bool :=
  match y with
  | PyInt n => float_gt_int x n
  | PyFloat y => PrimFloat.ltb y x
  end.

(** [(current_time - os.path.getctime(file_path)) / 60], in binary64. *)
Definition file_age (current_time : float) (f : File) : float :=
  PrimFloat.div
    (PrimFloat.sub current_time (seconds_of_ms (f_ctime f)))
    (float_of_Z 60).

(** [file_age > max_age_minutes] *)
Definition older_than (max_age_minutes : pynumber) (current_time : float)
    (f : File) : bool :=
  float_gt (file_age current_time f) max_age_minutes.

(** The loop over [os.listdir(TEMP_DIR)]; [deleted_files] is the
    counter. *)
Fixpoint sweep (max_age_minutes : pynumber) (current_time : float)
    (names : list string)
    (fs : gmap string File) (deleted_files : nat)
  : gmap string File * nat :=
  match names with
  | [] => (fs, deleted_files)
  | filename :: rest =>
      match fs !! filename with
      | Some f =>
          if f_isfile f && older_than max_age_minutes current_time f
          then sweep max_age_minutes current_time rest
                 (delete filename fs) (S deleted_files)
          else sweep max_age_minutes current_time rest fs deleted_files
      | None => sweep max_age_minutes current_time rest fs deleted_files
      end
  end.

(** [cleanup_old_files]; the value is the final [deleted_files], which
    the source writes to the log. *)
Definition cleanup_old_files (max_age_minutes : pynumber) : M nat :=
  w <- get_world ;;
  let current_time := seconds_of_ms (clock w) in
  let '(fs, deleted_files) :=
    sweep max_age_minutes current_time (listdir (temp_dir w)) (temp_dir w) 0 in
  set_temp_dir (fun _ => fs) ;;;
  ret deleted_files.


(** ** Vocabulary of the statements *)

(** Every run of [m], from any world, ends in a world related to the
    initial one by [R]. *)
Definition run_rel (R : World -> World -> Prop) {A} (m : World -> A * World)
  : Prop :=
  forall w, R w (m w).2.

(** The trace only grows, and by events that satisfy [P]. *)
Definition extends_trace (P : Event -> Prop) (w w' : World) : Prop :=
  exists evs, trace w' = (trace w ++ evs)%list /\ Forall P evs.

(** A relation between worlds that is reflexive and transitive, that
    accepts the recording of events satisfying [P], any change of the
    conversation map, and the changes of the directory allowed by [Tok],
    which allows at least the creation of a regular file and the removal
    of an entry. *)
Record Footprint (R : World -> World -> Prop) (P : Event -> Prop)
    (Tok : gmap string File -> gmap string File -> Prop) : Prop := {
  fpr_refl : forall w, R w w;
  fpr_trans : forall a b c, R a b -> R b c -> R a c;
  fpr_tick : forall el evs w, Forall P evs -> R w (tick el evs w).2;
  fpr_fs :
    forall f w, Tok (temp_dir w) (f (temp_dir w)) -> R w (set_temp_dir f w).2;
  fpr_us : forall f w, R w (set_user_states f w).2;
  fpt_refl : forall fs, Tok fs fs;
  fpt_trans : forall a b c, Tok a b -> Tok b c -> Tok a c;
  fpt_insert :
    forall fs name f, f_isfile f = true -> Tok fs (<[name := f]> fs);
  fpt_delete : forall fs name, Tok fs (delete name fs);
  fpp_transport : forall e, is_transport_call e = true -> P e;
  fpp_sleep : forall n, P (EvSleep n)
}.

(** Every entry whose name carries the token is a regular file. *)
Definition token_regular (timestamp : Z) (fs : gmap string File) : Prop :=
  forall name f,
    fs !! name = Some f ->
    String.prefix (token_prefix timestamp) name = true ->
    f_isfile f = true.

(** No entry carries the token. *)
Definition token_free (timestamp : Z) (fs : gmap string File) : Prop :=
  forall name,
    String.prefix (token_prefix timestamp) name = true -> fs !! name = None.

(** A probe or a fetch recorded in the trace was issued under the token
    [timestamp]. *)
Definition carries_token (timestamp : Z) (e : Event) : Prop :=
  match e with
  | EvProbe _ _ ts | EvFetch _ _ ts => ts = timestamp
  | _ => True
  end.

(** A probe or a fetch recorded in the trace asked for [format]. *)
Definition asks_format (format : string) (e : Event) : Prop :=
  match e with
  | EvProbe _ f _ | EvFetch _ f _ => f = format
  | _ => True
  end.

(** The candidate list in the words of the amended statement: the
    entries that are not falsy and whose duration, taken as 0 when the
    key is absent, is below 1800 seconds; at most the first three. *)
Definition is_candidate (e : Entry) : bool :=
  match en_duration e with
  | Missing => true
  | Null => false
  | Val duration => (duration <? 1800)%Z
  end.

Definition candidates (entries : list (option Entry)) : list Entry :=
  firstn 3 (List.filter is_candidate (omap id entries)).

(** No entry has a duration that is present and [None]. *)
Definition no_null_duration (entries : list (option Entry)) : Prop :=
  Forall (fun e => match e with
                   | Some e => en_duration e <> Null
                   | None => True
                   end) entries.

(** The transport answers every call. *)
Definition transport_ok (env : Env) : Prop :=
  forall n, tr_error (transport env n) = None.

(** ** Reading a trace *)

(** The tokens under which the probes of a trace were issued. *)
Definition probe_tokens (t : list Event) : list Z :=
  omap (fun e => match e with EvProbe _ _ ts => Some ts | _ => None end) t.

(** The format directives of the fetches of a trace. *)
Definition fetch_formats (t : list Event) : list string :=
  omap (fun e => match e with EvFetch _ f _ => Some f | _ => None end) t.

(** The messages that reached the requester. *)
Definition delivered (chat_id : Z) (t : list Event) : list Msg :=
  omap (fun e =>
          match e with
          | EvSendMessage c m true =>
              if Z.eqb c chat_id then Some m else None
          | _ => None
          end) t.

(** ** Concrete worlds and environments used in the examples *)

Module Scenario.

Definition regular (size : Z) (time : N) : File :=
  {| f_size := size; f_ctime := time; f_mtime := time; f_isfile := true |}.

(** Three entries that carry the token 5: two videos and a
    thumbnail of ten bytes. *)
Definition three_files : gmap string File :=
  <[ "download_5_clip.mp4" := regular 2000 0 ]>
    (<[ "download_5_clip.jpg" := regular 10 0 ]>
       (<[ "download_5_clip.webm" := regular 3000 0 ]> ∅)).

Definition one_file (size : Z) : gmap string File :=
  <[ "download_5_clip.mp4" := regular size 0 ]> ∅.

Definition chat : Z := 7.

(** The requester has chosen "Audio Only" and the bot waits for the
    url. *)
Definition waiting : World :=
  {| user_states := {[ chat := "waiting_url_audio_best" ]};
     temp_dir := ∅;
     clock := 1700000000000;
     trace := [];
     spawned := [] |}.

(** The requester has chosen "Search Music" and the bot waits for the
    query. *)
Definition searching : World :=
  {| user_states := {[ chat := "waiting_music_query" ]};
     temp_dir := ∅;
     clock := 1700000000000;
     trace := [];
     spawned := [] |}.

(** The requester's download thread has been started. *)
Definition processing : World :=
  {| user_states := {[ chat := "processing" ]};
     temp_dir := ∅;
     clock := 1700000000000;
     trace := [];
     spawned := [] |}.

Definition answers : TransportResp :=
  {| tr_elapsed := 10; tr_error := None |}.

Definition fails : TransportResp :=
  {| tr_elapsed := 10; tr_error := Some "Connection reset by peer" |}.

Definition song : Info :=
  {| info_title := Val "My <Song>";
     info_duration := Val 200%Z;
     info_uploader := Val "Someone" |}.

(** Everything works: the probe returns the metadata and every fetch
    writes one file of 5000 bytes. *)
Definition env_ok : Env :=
  {| url_lib := lenient_lib;
     FFMPEG_AVAILABLE := true;
     transport := fun _ => answers;
     probe := fun _ =>
       {| pr_elapsed := 100; pr_outcome := ProbeInfo song |};
     fetch := fun _ =>
       {| fr_elapsed := 5000; fr_files := [("My Song.mp3", 5000%Z)];
          fr_hook_actions := 1; fr_error := None |};
     search := fun _ =>
       {| sr_elapsed := 100; sr_outcome := SearchFalsy |} |}.

Definition with_transport (env : Env) (t : nat -> TransportResp) : Env :=
  {| url_lib := url_lib env;
     FFMPEG_AVAILABLE := FFMPEG_AVAILABLE env;
     transport := t;
     probe := probe env;
     fetch := fetch env;
     search := search env |}.

(** As [env_ok], but the transport raises on its calls number [lo] to
    [hi]. *)
Definition env_outage (lo hi : nat) : Env :=
  with_transport env_ok
    (fun n => if ((lo <=? n) && (n <=? hi))%nat then fails else answers).

(** The probe raises the engine's error for a private video. *)
Definition env_private : Env :=
  {| url_lib := lenient_lib;
     FFMPEG_AVAILABLE := true;
     transport := fun _ => answers;
     probe := fun _ =>
       {| pr_elapsed := 100;
          pr_outcome :=
            ProbeError (DownloadError
              "ERROR: [youtube] abc: Private video. Sign in if you've been granted access to this video") |};
     fetch := fetch env_ok;
     search := search env_ok |}.

(** Every fetch is refused with HTTP 403. *)
Definition env_forbidden : Env :=
  {| url_lib := lenient_lib;
     FFMPEG_AVAILABLE := true;
     transport := fun _ => answers;
     probe := probe env_ok;
     fetch := fun _ =>
       {| fr_elapsed := 400; fr_files := [("My Song.webm.part", 300%Z)];
          fr_hook_actions := 0;
          fr_error :=
            Some (DownloadError
              "ERROR: unable to download video data: HTTP Error 403: Forbidden") |};
     search := search env_ok |}.

(** The first fetch fails with a timeout, the second one succeeds. *)
Definition env_transient : Env :=
  {| url_lib := lenient_lib;
     FFMPEG_AVAILABLE := true;
     transport := fun _ => answers;
     probe := probe env_ok;
     fetch := fun n =>
       match n with
       | O => {| fr_elapsed := 60000;
                 fr_files := [("My Song.webm.part", 300%Z)];
                 fr_hook_actions := 0;
                 fr_error := Some (DownloadError "ERROR: Read timed out.") |}
       | _ => fetch env_ok n
       end;
     search := search env_ok |}.

(** A search result without a [duration] key. *)
Definition untimed : Entry :=
  {| en_title := Val "A song";
     en_duration := Missing;
     en_url := Val "https://www.youtube.com/watch?v=abc" |}.

Definition env_untimed : Env :=
  {| url_lib := lenient_lib;
     FFMPEG_AVAILABLE := true;
     transport := fun _ => answers;
     probe := probe env_ok;
     fetch := fetch env_ok;
     search := fun _ =>
       {| sr_elapsed := 100;
          sr_outcome := SearchInfo (Val [Some untimed]) |} |}.

Definition url : pyval := PyStr "https://youtu.be/abc".

Definition task : Task :=
  {| task_chat_id := chat; task_url := url;
     task_download_type := "audio"; task_quality := "best" |}.

Definition payload : string := "download_1700000000_My Song.mp3".

End Scenario.

(** ** Further vocabulary *)

(** The last character of [s] is a whitespace character. *)
Fixpoint ends_with_space (s : string) : bool :=
  match s with
  | EmptyString => false
  | String c EmptyString => is_space c
  | String _ r => ends_with_space r
  end.

(** A character that is not whitespace, or the plain space. *)
Definition plain_space_or_other (c : ascii) : bool :=
  negb (is_space c) || Ascii.eqb c " ".

(** ** format_duration *)

(** [f"{n:02d}"]: the decimal form, with a zero in front when it is a
    single character. *)
Definition pad2 (n : Z) : string :=
  let s := pretty n in
  if (String.length s <? 2)%nat then "0" ++ s else s.

(** What reaches [format_duration]: [None], a number or a text. *)
Inductive duration_value : Type :=
  | DurNone
  | DurNumber (n : pynumber)
  | DurText (s : string).

(** [int(x)] for a float: the integer part, towards zero; [None] stands
    for the [ValueError] of a NaN and the [OverflowError] of an
    infinity. *)
Definition float_trunc (x : float) : option Z :=
  match Prim2SF x with
  | S754_zero _ => Some 0%Z
  | S754_infinity _ | S754_nan => None
  | S754_finite s m e =>
      let v :=
        if (0 <=? e)%Z then (Z.pos m * 2 ^ e)%Z
        else (Z.pos m / 2 ^ (- e))%Z in
      Some (if s then (- v)%Z else v)
  end.

(** [int(seconds)]; [None] stands for the exception.  The reading of a
    text as an integer belongs to the Python runtime and is the
    parameter [int_of_text]. *)
Definition py_int (int_of_text : string -> option Z) (seconds : duration_value)
  : option Z :=
  match seconds with
  | DurNone => None
  | DurNumber (PyInt n) => Some n
  | DurNumber (PyFloat x) => float_trunc x
  | DurText s => int_of_text s
  end.

(** [format_duration]: the integer division and the remainder are
    Python's (rounding down), and the bare [except] turns every exception
    of [int(seconds)] into "Unknown". *)
Definition format_duration (int_of_text : string -> option Z)
    (seconds : duration_value) : string :=
  match py_int int_of_text seconds with
  | None => "Unknown"
  | Some seconds =>
      let hours := (seconds / 3600)%Z in
      let minutes := ((seconds mod 3600) / 60)%Z in
      let seconds := (seconds mod 60)%Z in
      if (0 <? hours)%Z
      then pretty hours ++ ":" ++ pad2 minutes ++ ":" ++ pad2 seconds
      else pretty minutes ++ ":" ++ pad2 seconds
  end.

(** The number that two decimal digits stand for. *)
Definition two_digits_value (s : string) : option Z :=
  match s with
  | String d1 (String d2 EmptyString) =>
      if is_digit d1 && is_digit d2
      then Some (10 * (Z.of_N (code d1) - 48) + (Z.of_N (code d2) - 48))%Z
      else None
  | _ => None
  end.

(** ** Frames of the handlers *)

(** The calls a handler working for [chat_id] may record: transport
    calls addressed to [chat_id], probes and fetches of the engine, and
    pauses. *)
Definition addressed_to (chat_id : Z) (e : Event) : Prop :=
  match e with
  | EvSendMessage c _ _ | EvChatAction c _ _ | EvSendMedia c _ _ _ _ =>
      c = chat_id
  | EvProbe _ _ _ | EvFetch _ _ _ | EvSleep _ => True
  | EvSearch _ => False
  end.

(** The same, with the searches of the engine. *)
Definition addressed_or_search (chat_id : Z) (e : Event) : Prop :=
  match e with
  | EvSearch _ => True
  | _ => addressed_to chat_id e
  end.

(** From [w] to [w']: the trace grows by events satisfying [P], the
    conversation map is the same or differs by the assignment
    [user_states[chat_id] = 'main'], and no thread has been started. *)
Definition confined (chat_id : Z) (P : Event -> Prop) (w w' : World) : Prop :=
  extends_trace P w w'
  /\ (user_states w' = user_states w
      \/ user_states w' = <[chat_id := "main"]> (user_states w))
  /\ spawned w' = spawned w.

(** A relation between worlds that is reflexive and transitive, that
    accepts the recording of events satisfying [P], any change of the
    directory and the assignment [user_states[chat_id] = 'main'], where
    [P] holds of the transport calls addressed to [chat_id] and of the
    pauses. *)
Record Frame (chat_id : Z) (R : World -> World -> Prop) (P : Event -> Prop)
  : Prop := {
  frr_refl : forall w, R w w;
  frr_trans : forall a b c, R a b -> R b c -> R a c;
  frr_tick : forall el evs w, Forall P evs -> R w (tick el evs w).2;
  frr_fs : forall f w, R w (set_temp_dir f w).2;
  frr_main :
    forall w, R w (set_user_states (fun st => <[chat_id := "main"]> st) w).2;
  frp_message : forall m ok, P (EvSendMessage chat_id m ok);
  frp_action : forall a ok, P (EvChatAction chat_id a ok);
  frp_media : forall k p t ok, P (EvSendMedia chat_id k p t ok);
  frp_sleep : forall n, P (EvSleep n)
}.

(** An event that is no call to the engine. *)
Definition no_engine_call (e : Event) : Prop :=
  is_probe e = false /\ is_fetch e = false /\ is_search e = false.

(** From [w] to [w'] the trace grows, by at most so many probes, fetches
    and searches. *)
Definition new_calls (probes fetches searches : nat) (w w' : World) : Prop :=
  exists evs,
    trace w' = (trace w ++ evs)%list
    /\ (count_calls is_probe evs <= probes)%nat
    /\ (count_calls is_fetch evs <= fetches)%nat
    /\ (count_calls is_search evs <= searches)%nat.

(** ** handle_download_selection: the state it leaves *)

(** The [type] and [quality] of the three entries of [configs]. *)
Definition configs : list (string * string) :=
  [("video", "best"); ("video", "fast"); ("audio", "best")].

(** [f'waiting_url_{config["type"]}_{config["quality"]}'] *)
Definition waiting_state (download_type quality : string) : string :=
  "waiting_url_" ++ download_type ++ "_" ++ quality.

(** Every probe and fetch carries this url and this format directive. *)
Definition asks (url : pyval) (format : string) (e : Event) : Prop :=
  match e with
  | EvProbe u f _ | EvFetch u f _ => u = url /\ f = format
  | _ => True
  end.

(** The action of the progress hook. *)
Definition hook_action (download_type : string) : string :=
  if String.eqb download_type "audio" then "upload_audio" else "upload_video".

(** The media type under which the upload is first tried. *)
Definition media_kind (download_type : string) : MediaKind :=
  if String.eqb download_type "audio" then SendAudio else SendVideo.

(** The [title] argument of that upload: [title[:64]] for [send_audio],
    none for [send_video]. *)
Definition media_title (download_type title : string) : option string :=
  if String.eqb download_type "audio" then Some (str_take 64 title)
  else None.

(** ** Further environments used in the examples *)

Module Cases.

(** The fetch raises the engine's error for a removed video. *)
Definition env_unavailable : Env :=
  {| url_lib := lenient_lib;
     FFMPEG_AVAILABLE := true;
     transport := fun _ => Scenario.answers;
     probe := probe Scenario.env_ok;
     fetch := fun _ =>
       {| fr_elapsed := 400; fr_files := [];
          fr_hook_actions := 0;
          fr_error :=
            Some (DownloadError
              "ERROR: [youtube] abc: Video unavailable. This video has been removed by the uploader") |};
     search := search Scenario.env_ok |}.

(** A search result whose duration is [None], as the engine gives for a
    live stream. *)
Definition live : Entry :=
  {| en_title := Val "A live stream";
     en_duration := Null;
     en_url := Val "https://www.youtube.com/watch?v=live" |}.

Definition env_live : Env :=
  {| url_lib := lenient_lib;
     FFMPEG_AVAILABLE := true;
     transport := fun _ => Scenario.answers;
     probe := probe Scenario.env_ok;
     fetch := fetch Scenario.env_ok;
     search := fun _ =>
       {| sr_elapsed := 100;
          sr_outcome := SearchInfo (Val [Some Scenario.untimed; Some live]) |} |}.

End Cases.

(** ** Counting the uploads *)

(** A transmission of the file: [send_audio], [send_video] or
    [send_document]. *)
Definition is_upload (e : Event) : bool :=
  match e with EvSendMedia _ _ _ _ _ => true | _ => false end.

(** A transmission through [send_audio] or [send_video]. *)
Definition is_typed_upload (e : Event) : bool :=
  match e with
  | EvSendMedia _ SendAudio _ _ _ | EvSendMedia _ SendVideo _ _ _ => true
  | _ => false
  end.

(** A transmission through [send_document]. *)
Definition is_document_upload (e : Event) : bool :=
  match e with EvSendMedia _ SendDocument _ _ _ => true | _ => false end.

(** From [w] to [w'] the trace grows, by at most [n] events that satisfy
    [p]. *)
Definition at_most (p : Event -> bool) (n : nat) (w w' : World) : Prop :=
  exists evs,
    trace w' = (trace w ++ evs)%list /\ (count_calls p evs <= n)%nat.

Module Uploads.

(** A directory that holds one downloaded file, and no call made yet. *)
Definition downloaded : World :=
  {| user_states := {[ Scenario.chat := "processing" ]};
     temp_dir := Scenario.one_file 5000;
     clock := 1700000000000;
     trace := [];
     spawned := [] |}.

End Uploads.
(** * Properties *)

(** ** Strings *)

Lemma all_chars_filter (p : ascii -> bool) (s : string) :
  all_chars p (filter_chars p s) = true.
Proof.
  induction s as [|c r IH]; simpl; [reflexivity|].
  destruct (p c) eqn:E; simpl; [rewrite E|]; assumption.
Qed.

Lemma all_chars_impl (p q : ascii -> bool) (s : string) :
  (forall c, p c = true -> q c = true) ->
  all_chars p s = true -> all_chars q s = true.
Proof.
  intros Hpq. induction s as [|c r IH]; simpl; [reflexivity|].
  intros [Hc Hr]%andb_true_iff. rewrite (Hpq _ Hc), (IH Hr). reflexivity.
Qed.

Lemma all_chars_filter_mono (p q : ascii -> bool) (s : string) :
  all_chars p s = true -> all_chars p (filter_chars q s) = true.
Proof.
  induction s as [|c r IH]; simpl; [reflexivity|].
  intros [Hc Hr]%andb_true_iff.
  destruct (q c); simpl; [rewrite Hc|]; auto.
Qed.

Lemma all_chars_collapse (p : ascii -> bool) (b : bool) (s : string) :
  p " "%char = true ->
  all_chars p s = true -> all_chars p (collapse_ws b s) = true.
Proof.
  intros Hsp. revert b. induction s as [|c r IH]; intros b; simpl; [reflexivity|].
  intros [Hc Hr]%andb_true_iff.
  destruct (is_space c); [destruct b|]; simpl; rewrite ?Hsp, ?Hc; simpl; auto.
Qed.

Lemma all_chars_lstrip (p : ascii -> bool) (s : string) :
  all_chars p s = true -> all_chars p (lstrip s) = true.
Proof.
  induction s as [|c r IH]; simpl; [reflexivity|].
  intros H. destruct (is_space c); [|exact H].
  apply andb_true_iff in H as [_ Hr]. auto.
Qed.

Lemma all_chars_rstrip (p : ascii -> bool) (s : string) :
  all_chars p s = true -> all_chars p (rstrip s) = true.
Proof.
  induction s as [|c r IH]; simpl; [reflexivity|].
  intros [Hc Hr]%andb_true_iff. specialize (IH Hr).
  destruct (rstrip r) as [|d r'].
  - destruct (is_space c); simpl; rewrite ?Hc; reflexivity.
  - simpl in *. rewrite Hc. exact IH.
Qed.

Lemma all_chars_take (p : ascii -> bool) (n : nat) (s : string) :
  all_chars p s = true -> all_chars p (str_take n s) = true.
Proof.
  revert s. induction n as [|n IH]; intros [|c r]; simpl; try reflexivity.
  intros [Hc Hr]%andb_true_iff. rewrite Hc. simpl. auto.
Qed.

Lemma length_take (n : nat) (s : string) : (String.length (str_take n s) <= n)%nat.
Proof.
  revert s. induction n as [|n IH]; intros [|c r]; simpl; try lia.
  specialize (IH r). lia.
Qed.

Lemma has_ws_run_cons (c : ascii) (r : string) :
  has_ws_run (String c r) = is_space c && starts_with_space r || has_ws_run r.
Proof. destruct r; simpl; [rewrite andb_false_r|]; reflexivity. Qed.

Lemma collapse_true_start (s : string) :
  starts_with_space (collapse_ws true s) = false.
Proof.
  induction s as [|c r IH]; simpl; [reflexivity|].
  destruct (is_space c) eqn:E; simpl; auto.
Qed.

Lemma collapse_no_run (b : bool) (s : string) :
  has_ws_run (collapse_ws b s) = false.
Proof.
  revert b. induction s as [|c r IH]; intros b; [reflexivity|].
  cbn [collapse_ws]. destruct (is_space c) eqn:E.
  - destruct b; [apply IH|].
    rewrite has_ws_run_cons, collapse_true_start, IH, andb_false_r.
    reflexivity.
  - rewrite has_ws_run_cons, E, IH. reflexivity.
Qed.

Lemma lstrip_no_run (s : string) :
  has_ws_run s = false -> has_ws_run (lstrip s) = false.
Proof.
  induction s as [|c r IH]; [reflexivity|].
  intros H. cbn [lstrip]. destruct (is_space c); [|exact H].
  apply IH. rewrite has_ws_run_cons in H.
  apply orb_false_iff in H. tauto.
Qed.

Lemma rstrip_start (s : string) :
  starts_with_space s = false -> starts_with_space (rstrip s) = false.
Proof.
  destruct s as [|c r]; [reflexivity|]. simpl. intros E.
  destruct (rstrip r); [rewrite E|]; simpl; auto.
Qed.

Lemma rstrip_no_run (s : string) :
  has_ws_run s = false -> has_ws_run (rstrip s) = false.
Proof.
  induction s as [|c r IH]; [reflexivity|].
  rewrite has_ws_run_cons. intros [H1 H2]%orb_false_iff.
  specialize (IH H2). cbn [rstrip].
  destruct (rstrip r) as [|d r'] eqn:E.
  - destruct (is_space c); reflexivity.
  - rewrite has_ws_run_cons, IH, orb_false_r.
    apply andb_false_iff in H1 as [H1|H1]; [rewrite H1; reflexivity|].
    apply rstrip_start in H1. rewrite E in H1. rewrite H1.
    apply andb_false_r.
Qed.

Lemma take_start (n : nat) (s : string) :
  starts_with_space s = false -> starts_with_space (str_take n s) = false.
Proof. destruct n, s; simpl; auto. Qed.

Lemma take_no_run (n : nat) (s : string) :
  has_ws_run s = false -> has_ws_run (str_take n s) = false.
Proof.
  revert s. induction n as [|n IH]; intros [|c r]; try reflexivity.
  rewrite has_ws_run_cons. intros [H1 H2]%orb_false_iff.
  cbn [str_take]. rewrite has_ws_run_cons, (IH _ H2), orb_false_r.
  apply andb_false_iff in H1 as [H1|H1]; [rewrite H1; reflexivity|].
  rewrite (take_start _ _ H1). apply andb_false_r.
Qed.

Lemma lstrip_all_space (s : string) :
  all_chars is_space s = true -> lstrip s = EmptyString.
Proof.
  induction s as [|c r IH]; simpl; [reflexivity|].
  intros [Hc Hr]%andb_true_iff. rewrite Hc. auto.
Qed.

Lemma rstrip_nonspace (c : ascii) (s : string) :
  is_space c = false -> rstrip (String c s) = String c (rstrip s).
Proof. intros E. simpl. destruct (rstrip s); [rewrite E|]; reflexivity. Qed.

Lemma rstrip_idem (s : string) : rstrip (rstrip s) = rstrip s.
Proof.
  induction s as [|c r IH]; [reflexivity|]. cbn [rstrip].
  destruct (rstrip r) as [|d r'] eqn:E.
  - destruct (is_space c) eqn:Ec; [reflexivity|]. simpl. rewrite Ec. reflexivity.
  - cbn [rstrip]. cbn [rstrip] in IH. rewrite IH. reflexivity.
Qed.

(** ** sanitize_filename *)

Lemma sanitize_cleaned_props (s : string) :
  let cleaned :=
    strip (collapse_ws false
             (filter_chars (fun c => negb (is_forbidden c)) s)) in
  all_chars (fun c => negb (is_forbidden c)) cleaned = true
  /\ has_ws_run cleaned = false.
Proof.
  cbv zeta. unfold strip. split.
  - apply all_chars_rstrip, all_chars_lstrip, all_chars_collapse;
      [reflexivity | apply all_chars_filter].
  - apply rstrip_no_run, lstrip_no_run, collapse_no_run.
Qed.

Lemma sanitize_junk_cleaned (s : string) :
  all_chars (fun c => is_forbidden c || is_space c) s = true ->
  strip (collapse_ws false
           (filter_chars (fun c => negb (is_forbidden c)) s)) = EmptyString.
Proof.
  intros H. unfold strip. rewrite lstrip_all_space; [reflexivity|].
  apply all_chars_collapse; [reflexivity|].
  induction s as [|c r IH]; simpl in *; [reflexivity|].
  apply andb_true_iff in H as [Hc Hr].
  destruct (is_forbidden c) eqn:E; simpl in *; [auto|].
  rewrite Hc. simpl. auto.
Qed.

(** C10. For every input, [None] and the empty string included,
    [sanitize_filename] returns a non-empty string of at most 100
    characters that contains none of the nine forbidden characters and no
    two adjacent whitespace characters; when the input is [None] or holds
    nothing but forbidden characters and whitespace, the result is
    "media_file". *)
Theorem sanitize_filename_spec (filename : pyval) :
  let r := sanitize_filename filename in
  r <> EmptyString
  /\ (String.length r <= 100)%nat
  /\ all_chars (fun c => negb (is_forbidden c)) r = true
  /\ has_ws_run r = false
  /\ (only_junk filename = true -> r = media_file).
Proof.
  cbv zeta. destruct filename as [|s].
  { repeat split; try reflexivity; try discriminate. simpl. lia. }
  destruct s as [|c0 s0].
  { repeat split; try reflexivity; try discriminate. simpl. lia. }
  unfold sanitize_filename.
  set (s := String c0 s0).
  pose proof (sanitize_cleaned_props s) as [Hforb Hrun]. cbv zeta in Hforb, Hrun.
  pose proof (sanitize_junk_cleaned s) as Hjunk.
  set (cleaned := strip _) in *.
  set (cut := if (100 <? String.length cleaned)%nat then str_take 100 cleaned
              else cleaned).
  assert (Hlen : (String.length cut <= 100)%nat).
  { unfold cut. destruct (100 <? String.length cleaned)%nat eqn:E.
    - apply length_take.
    - apply Nat.ltb_ge in E. exact E. }
  assert (Hforb' : all_chars (fun c => negb (is_forbidden c)) cut = true).
  { unfold cut. destruct (100 <? _)%nat; [apply all_chars_take|]; exact Hforb. }
  assert (Hrun' : has_ws_run cut = false).
  { unfold cut. destruct (100 <? _)%nat; [apply take_no_run|]; exact Hrun. }
  assert (Hjunk' : only_junk (PyStr s) = true -> cut = EmptyString).
  { intros H. unfold cut. rewrite (Hjunk H). reflexivity. }
  clearbody cut. destruct cut as [|c r].
  - repeat split; try reflexivity; try discriminate. simpl. lia.
  - repeat split; try assumption; try discriminate.
    intros H. specialize (Hjunk' H). discriminate.
Qed.

Lemma sanitize_filename_spec_witness :
  only_junk (PyStr "<> ? ") = true
  /\ sanitize_filename (PyStr "<> ? ") = media_file.
Proof.
  split; [reflexivity|].
  apply (sanitize_filename_spec (PyStr "<> ? ")). reflexivity.
Defined.

(** ** is_supported_url *)

Lemma domain_supported_iff (domain : string) :
  domain_supported domain = true
  <-> exists supported,
        In supported supported_domains /\ contains supported domain = true.
Proof. unfold domain_supported. apply existsb_exists. Qed.

Lemma lstrip_nonspace (c : ascii) (s : string) :
  is_space c = false -> lstrip (String c s) = String c s.
Proof. intros E. simpl. rewrite E. reflexivity. Qed.

Lemma strip_https (s : string) :
  strip ("https://" ++ rstrip s) = "https://" ++ rstrip s.
Proof.
  unfold strip.
  change ("https://" ++ rstrip s) with
    (String "h" (String "t" (String "t" (String "p" (String "s"
      (String ":" (String "/" (String "/" (rstrip s))))))))).
  rewrite lstrip_nonspace by reflexivity.
  repeat (rewrite rstrip_nonspace by reflexivity).
  rewrite rstrip_idem. reflexivity.
Qed.

Lemma filter_chars_app (p : ascii -> bool) (a b : string) :
  filter_chars p (a ++ b) = filter_chars p a ++ filter_chars p b.
Proof.
  induction a as [|c a IH]; [reflexivity|].
  change (String c a ++ b) with (String c (a ++ b)). cbn [filter_chars].
  destruct (p c); [|exact IH].
  change (String c (filter_chars p a) ++ filter_chars p b)
    with (String c (filter_chars p a ++ filter_chars p b)).
  rewrite IH. reflexivity.
Qed.

Lemma filter_chars_all (p : ascii -> bool) (s : string) :
  all_chars p s = true -> filter_chars p s = s.
Proof.
  induction s as [|c r IH]; simpl; [reflexivity|].
  intros [Hc Hr]%andb_true_iff. rewrite Hc, IH; auto.
Qed.

Lemma take_while_app (p : ascii -> bool) (a r : string) :
  all_chars p a = true ->
  match r with EmptyString => True | String c _ => p c = false end ->
  take_while p (a ++ r) = a.
Proof.
  intros Ha Hr. induction a as [|c a IH].
  - change (EmptyString ++ r) with r.
    destruct r as [|c r]; simpl; [reflexivity|]. rewrite Hr. reflexivity.
  - change (String c a ++ r) with (String c (a ++ r)).
    simpl in Ha. apply andb_true_iff in Ha as [Hc Ha].
    cbn [take_while]. rewrite Hc, IH by assumption. reflexivity.
Qed.

Lemma netloc_delim_safe (c : ascii) :
  is_netloc_delim c = true -> is_unsafe_url_char c = false.
Proof.
  unfold is_netloc_delim. cbn [existsb]. rewrite !orb_true_iff.
  intros [H|[H|[H|H]]]; try discriminate;
    apply Ascii.eqb_eq in H; subst c; reflexivity.
Qed.

(** The network location that [urlsplit] cuts out of a text in which a
    clean authority is followed by a path, a query, a fragment or
    nothing. *)
Lemma netloc_of_clean (authority rest : string) :
  clean_authority authority = true ->
  starts_path rest = true ->
  take_while (fun c => negb (is_netloc_delim c))
    (filter_chars (fun c => negb (is_unsafe_url_char c)) (authority ++ rest))
  = authority.
Proof.
  intros Ha Hr. rewrite filter_chars_app.
  rewrite (filter_chars_all _ authority)
    by (revert Ha; apply all_chars_impl;
        intros c [_ H]%andb_true_iff; exact H).
  apply take_while_app.
  - revert Ha. apply all_chars_impl. intros c [H _]%andb_true_iff. exact H.
  - destruct rest as [|c r]; [exact I|]. simpl in Hr. cbn [filter_chars].
    rewrite (netloc_delim_safe c Hr). cbn [negb]. rewrite Hr. reflexivity.
Qed.

Lemma prefix_slashes (s : string) :
  String.prefix "//" (String "/" (String "/" s)) = true.
Proof. destruct s; reflexivity. Qed.

(** The validations of [urlsplit] bear on the authority itself. *)
Lemma urlparse_netloc_clean (lib : UrlLib) (scheme authority rest : string) :
  scheme = "https://" \/ scheme = "http://" ->
  clean_authority authority = true ->
  starts_path rest = true ->
  urlparse_netloc lib (scheme ++ authority ++ rest)
  = if xorb (has_char "[" authority) (has_char "]" authority) then None
    else if has_char "[" authority && has_char "]" authority
            && negb (check_bracketed_netloc lib authority)
    then None
    else if negb (all_chars is_ascii_char authority)
            && negb (checknetloc_nfkc lib authority)
    then None
    else Some authority.
Proof.
  intros Hs Ha Hr. pose proof (netloc_of_clean authority rest Ha Hr) as Hn.
  set (f := fun c => negb (is_unsafe_url_char c)) in *.
  unfold urlparse_netloc. fold f.
  assert (E : split_scheme (filter_chars f (lstrip_c0
                (scheme ++ authority ++ rest)))
              = String "/" (String "/"
                  (filter_chars f (authority ++ rest))))
    by (destruct Hs as [-> | ->]; reflexivity).
  cbv zeta. rewrite E, prefix_slashes.
  change (str_drop 2 (String "/" (String "/"
            (filter_chars f (authority ++ rest)))))
    with (filter_chars f (authority ++ rest)).
  rewrite Hn. reflexivity.
Qed.

Lemma urlparse_netloc_plain (lib : UrlLib) (scheme authority rest : string) :
  scheme = "https://" \/ scheme = "http://" ->
  plain_authority authority = true ->
  starts_path rest = true ->
  urlparse_netloc lib (scheme ++ authority ++ rest) = Some authority.
Proof.
  intros Hs Ha Hr. unfold plain_authority in Ha.
  apply andb_true_iff in Ha as [Ha Hrb].
  apply andb_true_iff in Ha as [Ha Hlb].
  apply andb_true_iff in Ha as [Ha Hascii].
  apply negb_true_iff in Hlb, Hrb.
  rewrite (urlparse_netloc_clean lib scheme authority rest Hs Ha Hr).
  rewrite Hlb, Hrb, Hascii. reflexivity.
Qed.

Lemma has_http_scheme_https (s : string) :
  has_http_scheme ("https://" ++ s) = true.
Proof. unfold has_http_scheme. destruct s; reflexivity. Qed.

Lemma has_http_scheme_http (s : string) :
  has_http_scheme ("http://" ++ s) = true.
Proof. unfold has_http_scheme. destruct s; reflexivity. Qed.

(** The text that reaches [urlparse], for a stripped text that is not
    empty. *)
Lemma with_scheme_reads_as (url authority rest : string) :
  reads_as url authority rest ->
  exists scheme,
    (scheme = "https://" \/ scheme = "http://")
    /\ with_scheme url = scheme ++ authority ++ rest.
Proof.
  unfold with_scheme. intros [-> | [-> | [-> H]]].
  - exists "https://". rewrite has_http_scheme_https. auto.
  - exists "http://". rewrite has_http_scheme_http. auto.
  - exists "https://". rewrite H. auto.
Qed.

Lemma append_nil_inv (a b : string) :
  a ++ b = EmptyString -> a = EmptyString.
Proof. destruct a; [reflexivity|discriminate]. Qed.

(** How the body ends for a text of the usual form. *)
Lemma is_supported_url_body_reads_as (lib : UrlLib)
    (raw authority rest : string) :
  reads_as (strip raw) authority rest ->
  is_supported_url lib (PyStr raw)
  = match urlparse_netloc lib (with_scheme (strip raw)) with
    | Some netloc => domain_supported (py_lower netloc)
    | None => false
    end
  \/ (authority = EmptyString /\ is_supported_url lib (PyStr raw) = false).
Proof.
  intros H. unfold is_supported_url, is_supported_url_body.
  destruct (strip raw) as [|c r] eqn:E.
  - right. split; [|reflexivity].
    destruct H as [H | [H | [H _]]]; try discriminate H.
    symmetry in H. eapply append_nil_inv. exact H.
  - left. destruct (urlparse_netloc lib (with_scheme (String c r)));
      reflexivity.
Qed.

(** C7 (amended). [is_supported_url] never raises: it is a total
    function to [bool], which answers [False] for [None], for a text that
    is empty once stripped, and where the parser raises, as it does for
    a network location with one bracket but not the other.  A text that
    lacks the http:// or https:// prefix is handled exactly as the same
    text prefixed with https://.  For a stripped text made of an
    optional http:// or https:// prefix, a network location written in
    ASCII without brackets, and a path, query or fragment, the answer is
    [True] if and only if the network location, user information and
    port included, lowercased, contains one of the twenty listed domains
    as a substring; so 'youtu.be/abc' is accepted and
    'example.com/video' is not. *)
Theorem is_supported_url_spec (lib : UrlLib) :
  is_supported_url lib PyNone = false
  /\ (forall raw,
        strip raw = EmptyString -> is_supported_url lib (PyStr raw) = false)
  /\ (forall raw,
        has_http_scheme (strip raw) = false ->
        is_supported_url lib (PyStr raw)
        = is_supported_url lib (PyStr ("https://" ++ strip raw)))
  /\ (forall raw authority rest,
        reads_as (strip raw) authority rest ->
        plain_authority authority = true ->
        starts_path rest = true ->
        (is_supported_url lib (PyStr raw) = true
         <-> exists supported,
               In supported
                 [ "youtube.com"; "youtu.be"; "music.youtube.com";
                   "instagram.com"; "www.instagram.com";
                   "facebook.com"; "fb.watch"; "www.facebook.com";
                   "tiktok.com"; "vm.tiktok.com"; "www.tiktok.com";
                   "twitter.com"; "x.com"; "www.twitter.com";
                   "soundcloud.com"; "www.soundcloud.com";
                   "vimeo.com"; "www.vimeo.com";
                   "dailymotion.com"; "www.dailymotion.com" ]
               /\ contains supported (py_lower authority) = true))
  /\ (forall raw authority rest,
        reads_as (strip raw) authority rest ->
        clean_authority authority = true ->
        starts_path rest = true ->
        xorb (has_char "[" authority) (has_char "]" authority) = true ->
        is_supported_url lib (PyStr raw) = false)
  /\ is_supported_url lib (PyStr "youtu.be/abc") = true
  /\ is_supported_url lib (PyStr "example.com/video") = false.
Proof.
  split; [reflexivity|].
  split; [|split; [|split; [|split; [|split; reflexivity]]]].
  - intros raw H. unfold is_supported_url, is_supported_url_body.
    rewrite H. reflexivity.
  - intros raw H.
    assert (Hs : strip ("https://" ++ strip raw) = "https://" ++ strip raw)
      by (unfold strip at 2 3; apply strip_https).
    unfold is_supported_url, is_supported_url_body. rewrite Hs.
    destruct (strip raw) as [|c r] eqn:E; [reflexivity|].
    assert (Hw : with_scheme ("https://" ++ String c r)
                 = with_scheme (String c r)).
    { unfold with_scheme at 2. rewrite H. reflexivity. }
    rewrite <- Hw. reflexivity.
  - intros raw authority rest Hform Ha Hr.
    change (exists supported,
               In supported
                 [ "youtube.com"; "youtu.be"; "music.youtube.com";
                   "instagram.com"; "www.instagram.com";
                   "facebook.com"; "fb.watch"; "www.facebook.com";
                   "tiktok.com"; "vm.tiktok.com"; "www.tiktok.com";
                   "twitter.com"; "x.com"; "www.twitter.com";
                   "soundcloud.com"; "www.soundcloud.com";
                   "vimeo.com"; "www.vimeo.com";
                   "dailymotion.com"; "www.dailymotion.com" ]
               /\ contains supported (py_lower authority) = true)
      with (exists supported,
               In supported supported_domains
               /\ contains supported (py_lower authority) = true).
    rewrite <- domain_supported_iff.
    destruct (is_supported_url_body_reads_as lib raw authority rest Hform)
      as [-> | [-> ->]]; [|split; discriminate].
    destruct (with_scheme_reads_as _ _ _ Hform) as (scheme & Hs & ->).
    rewrite (urlparse_netloc_plain lib scheme authority rest Hs Ha Hr).
    reflexivity.
  - intros raw authority rest Hform Ha Hr Hx.
    destruct (is_supported_url_body_reads_as lib raw authority rest Hform)
      as [-> | [_ ->]]; [|reflexivity].
    destruct (with_scheme_reads_as _ _ _ Hform) as (scheme & Hs & ->).
    rewrite (urlparse_netloc_clean lib scheme authority rest Hs Ha Hr), Hx.
    reflexivity.
Qed.

Lemma is_supported_url_spec_witness :
  reads_as (strip " www.YouTube.com:443/watch?v=1 ") "www.YouTube.com:443"
    "/watch?v=1"
  /\ plain_authority "www.YouTube.com:443" = true
  /\ starts_path "/watch?v=1" = true
  /\ (is_supported_url lenient_lib (PyStr " www.YouTube.com:443/watch?v=1 ")
      = true
      <-> exists supported,
            In supported
              [ "youtube.com"; "youtu.be"; "music.youtube.com";
                "instagram.com"; "www.instagram.com";
                "facebook.com"; "fb.watch"; "www.facebook.com";
                "tiktok.com"; "vm.tiktok.com"; "www.tiktok.com";
                "twitter.com"; "x.com"; "www.twitter.com";
                "soundcloud.com"; "www.soundcloud.com";
                "vimeo.com"; "www.vimeo.com";
                "dailymotion.com"; "www.dailymotion.com" ]
            /\ contains supported (py_lower "www.YouTube.com:443") = true).
Proof.
  assert (H1 : reads_as (strip " www.YouTube.com:443/watch?v=1 ")
                 "www.YouTube.com:443" "/watch?v=1")
    by (right; right; split; reflexivity).
  split; [exact H1|]. split; [reflexivity|]. split; [reflexivity|].
  exact (proj1 (proj2 (proj2 (proj2 (is_supported_url_spec lenient_lib))))
           " www.YouTube.com:443/watch?v=1 " "www.YouTube.com:443"
           "/watch?v=1" H1 eq_refl eq_refl).
Defined.

(** The claim speaks of the parsed host; the test is made on the whole
    network location.  This url is accepted although its host is
    evil.example, which contains none of the listed domains:
    'youtube.com' is the user information.  No library check is
    involved, the network location being ASCII without brackets. *)
Lemma is_supported_url_accepts_foreign_host :
  is_supported_url lenient_lib (PyStr "https://youtube.com@evil.example/x")
  = true
  /\ urlparse_netloc lenient_lib "https://youtube.com@evil.example/x"
     = Some "youtube.com@evil.example"
  /\ urlparse_hostname "youtube.com@evil.example" = Some "evil.example"
  /\ domain_supported "evil.example" = false.
Proof. repeat split; reflexivity. Qed.

(** The match is a substring test on the whole netloc, user information
    and port included; the prefix test is case sensitive, the domain
    test is not. *)
Example is_supported_url_examples (lib : UrlLib) :
  is_supported_url lib (PyStr "  https://www.youtube.com/watch?v=1  ") = true
  /\ is_supported_url lib (PyStr "http://vm.tiktok.com/x") = true
  /\ is_supported_url lib (PyStr "https://YouTube.COM/") = true
  /\ is_supported_url lib (PyStr "https://notyoutube.com/") = true
  /\ is_supported_url lib (PyStr "https://x.com@example.org/") = true
  /\ is_supported_url lib (PyStr "https://youtube.com@evil.example/x") = true
  /\ is_supported_url lib (PyStr "https://example.org/?u=youtube.com") = false
  /\ is_supported_url lib (PyStr "HTTPS://youtube.com/") = false
  /\ is_supported_url lib (PyStr "   ") = false
  /\ is_supported_url lib (PyStr "https://[youtube.com/") = false
  /\ is_supported_url lib (PyStr "https://youtube.com[::1]/") = false.
Proof. repeat split; reflexivity. Qed.

(** ** Verification of the discovered files *)

Lemma unlink_quiet_other (n q : string) (fs : gmap string File) :
  q <> n -> unlink_quiet n fs !! q = fs !! q.
Proof.
  intros Hne. unfold unlink_quiet, unlink.
  destruct (fs !! n) as [f|]; [|reflexivity].
  destruct (f_isfile f); [|reflexivity].
  apply lookup_delete_ne. congruence.
Qed.

Lemma unlink_quiet_regular (n : string) (f : File) (fs : gmap string File) :
  fs !! n = Some f -> f_isfile f = true -> unlink_quiet n fs !! n = None.
Proof.
  intros Hf Hreg. unfold unlink_quiet, unlink. rewrite Hf, Hreg.
  apply lookup_delete_eq.
Qed.

Lemma unlink_quiet_sub (n q : string) (g : File) (fs : gmap string File) :
  unlink_quiet n fs !! q = Some g -> fs !! q = Some g.
Proof.
  destruct (decide (q = n)) as [->|Hne].
  - unfold unlink_quiet, unlink.
    destruct (fs !! n) as [f|] eqn:E; [|congruence].
    destruct (f_isfile f); [|congruence].
    rewrite lookup_delete_eq. discriminate.
  - rewrite unlink_quiet_other by assumption. auto.
Qed.

Lemma verify_files_sub (files : list string) (fs : gmap string File) :
  forall q g, (verify_files files fs).2 !! q = Some g -> fs !! q = Some g.
Proof.
  revert fs. induction files as [|h rest IH]; intros fs q g; simpl; [auto|].
  destruct (fs !! h) as [f|] eqn:E; [|apply IH].
  destruct (1024 <? f_size f)%Z; [auto|].
  intros H. apply IH in H. eapply unlink_quiet_sub; eauto.
Qed.

Lemma verify_files_scan (files : list string) (fs : gmap string File) :
  match verify_files files fs with
  | (Some p, fs') =>
      exists pre post f,
        files = (pre ++ p :: post)%list
        /\ fs !! p = Some f /\ (1024 < f_size f)%Z /\ fs' !! p = Some f
        /\ rejected_all pre fs fs'
  | (None, fs') => rejected_all files fs fs'
  end.
Proof.
  revert fs. induction files as [|h rest IH]; intros fs.
  { simpl. split; [intros q g []|reflexivity]. }
  simpl. destruct (fs !! h) as [f|] eqn:E.
  - destruct (1024 <? f_size f)%Z eqn:Hsz.
    + apply Z.ltb_lt in Hsz. exists [], rest, f.
      do 4 (split; [first [reflexivity | assumption]|]).
      split; [intros q g []|reflexivity].
    + apply Z.ltb_ge in Hsz.
      pose proof (verify_files_sub rest (unlink_quiet h fs)) as Hsub.
      specialize (IH (unlink_quiet h fs)).
      destruct (verify_files rest (unlink_quiet h fs)) as [[p|] fs'];
        simpl in Hsub.
      * destruct IH as (pre & post & f' & -> & Hp & Hbig & Hp' & Hrej & Hout).
        exists (h :: pre), post, f'. split; [reflexivity|].
        split; [eapply unlink_quiet_sub; eauto|]. do 2 (split; [assumption|]).
        split.
        -- intros q g [<-|Hin] Hq.
           ++ rewrite E in Hq. injection Hq as <-. split; [assumption|].
              intros Hreg. destruct (fs' !! h) as [g'|] eqn:E'; [|reflexivity].
              apply Hsub in E'.
              rewrite (unlink_quiet_regular _ _ _ E Hreg) in E'. discriminate.
           ++ destruct (decide (q = h)) as [->|Hne].
              ** rewrite E in Hq. injection Hq as <-. split; [assumption|].
                 intros Hreg. destruct (fs' !! h) as [g'|] eqn:E'; [|reflexivity].
                 apply Hsub in E'.
                 rewrite (unlink_quiet_regular _ _ _ E Hreg) in E'. discriminate.
              ** apply Hrej; [assumption|].
                 rewrite unlink_quiet_other by assumption. assumption.
        -- intros q Hnin. rewrite Hout by (intros ?; apply Hnin; right; assumption).
           apply unlink_quiet_other. intros ->. apply Hnin. left. reflexivity.
      * destruct IH as [Hrej Hout]. split.
        -- intros q g Hin Hq. destruct (decide (q = h)) as [->|Hne].
           ++ rewrite E in Hq. injection Hq as <-. split; [assumption|].
              intros Hreg. destruct (fs' !! h) as [g'|] eqn:E'; [|reflexivity].
              apply Hsub in E'.
              rewrite (unlink_quiet_regular _ _ _ E Hreg) in E'. discriminate.
           ++ destruct Hin as [<-|Hin]; [congruence|].
              apply Hrej; [assumption|].
              rewrite unlink_quiet_other by assumption. assumption.
        -- intros q Hnin. rewrite Hout by (intros ?; apply Hnin; right; assumption).
           apply unlink_quiet_other. intros ->. apply Hnin. left. reflexivity.
  - specialize (IH fs). destruct (verify_files rest fs) as [[p|] fs'].
    + destruct IH as (pre & post & f' & -> & Hp & Hbig & Hp' & Hrej & Hout).
      exists (h :: pre), post, f'.
      do 4 (split; [first [reflexivity | assumption]|]). split.
      * intros q g [<-|Hin] Hq; [congruence|]. eapply Hrej; eauto.
      * intros q Hnin. apply Hout. intros ?. apply Hnin. right. assumption.
    + destruct IH as [Hrej Hout]. split.
      * intros q g [<-|Hin] Hq; [congruence|]. eapply Hrej; eauto.
      * intros q Hnin. apply Hout. intros ?. apply Hnin. right. assumption.
Qed.

(** The list that discovery hands to verification is taken as it comes:
    the entry accepted is the first one above the threshold, and nothing
    listed after it is looked at.  Here the thumbnail of ten bytes,
    listed after the accepted video, stays in the directory, and the
    second video, although larger than 1024 bytes, is not the one
    accepted. *)
Lemma verify_files_stops_at_first_accepted :
  let files := discover 5 Scenario.three_files in
  let r := verify_files files Scenario.three_files in
  files = ["download_5_clip.webm"; "download_5_clip.mp4"; "download_5_clip.jpg"]
  /\ r.1 = Some "download_5_clip.webm"
  /\ f_size <$> Scenario.three_files !! "download_5_clip.jpg" = Some 10%Z
  /\ f_size <$> r.2 !! "download_5_clip.jpg" = Some 10%Z
  /\ f_size <$> Scenario.three_files !! "download_5_clip.mp4" = Some 2000%Z
  /\ r.1 <> Some "download_5_clip.mp4".
Proof. vm_compute. repeat split; congruence. Qed.

Lemma verify_files_first_large (pre : list string) (p : string)
    (post : list string) (f : File) (fs : gmap string File) :
  fs !! p = Some f -> (1024 < f_size f)%Z -> ~ In p pre ->
  (forall q g, In q pre -> fs !! q = Some g -> (f_size g <= 1024)%Z) ->
  verify_files (pre ++ p :: post) fs = (Some p, (verify_files pre fs).2).
Proof.
  revert fs. induction pre as [|h t IH]; intros fs Hp Hbig Hnin Hsmall; simpl.
  - rewrite Hp. apply Z.ltb_lt in Hbig. rewrite Hbig. reflexivity.
  - assert (Hne : p <> h) by (intros ->; apply Hnin; left; reflexivity).
    assert (Hnin' : ~ In p t) by (intros ?; apply Hnin; right; assumption).
    destruct (fs !! h) as [g|] eqn:E.
    + assert (Hg : (f_size g <= 1024)%Z) by (eapply Hsmall; [left|]; eauto).
      apply Z.ltb_ge in Hg. rewrite Hg. apply IH; try assumption.
      * rewrite unlink_quiet_other by assumption. assumption.
      * intros q g' Hq Hq'. apply unlink_quiet_sub in Hq'.
        eapply Hsmall; [right|]; eauto.
    + apply IH; try assumption.
      intros q g' Hq Hq'. eapply Hsmall; [right|]; eauto.
Qed.

(** C3 (amended). The verification loop scans the discovered files in
    order and stops at the first entry whose size is strictly greater
    than 1024 bytes, which it accepts and leaves in place.  Every entry
    scanned before it is at most 1024 bytes, is never the accepted one,
    and is deleted when it is a regular file; entries listed after the
    accepted one, and entries outside the list, are untouched.  When no
    entry is accepted, every listed regular file is at most 1024 bytes
    and deleted.  Conversely the first listed entry above 1024 bytes is
    the one accepted.  At the boundary, an entry of exactly 1025 bytes at
    the head of the list is accepted and a regular file of exactly 1024
    bytes is rejected and deleted. *)
Theorem verify_files_spec :
  (forall files fs,
     match verify_files files fs with
     | (Some p, fs') =>
         exists pre post f,
           files = (pre ++ p :: post)%list
           /\ fs !! p = Some f /\ (1024 < f_size f)%Z /\ fs' !! p = Some f
           /\ rejected_all pre fs fs'
     | (None, fs') => rejected_all files fs fs'
     end)
  /\ (forall pre p post f (fs : gmap string File),
        fs !! p = Some f -> (1024 < f_size f)%Z -> ~ In p pre ->
        (forall q g, In q pre -> fs !! q = Some g -> (f_size g <= 1024)%Z) ->
        (verify_files (pre ++ p :: post) fs).1 = Some p)
  /\ (forall p f rest (fs : gmap string File),
        fs !! p = Some f -> f_size f = 1025%Z ->
        verify_files (p :: rest) fs = (Some p, fs))
  /\ (forall p f (fs : gmap string File),
        fs !! p = Some f -> f_size f = 1024%Z -> f_isfile f = true ->
        verify_files [p] fs = (None, delete p fs)).
Proof.
  split; [exact verify_files_scan|]. split; [|split].
  - intros pre p post f fs Hp Hbig Hnin Hsmall.
    rewrite (verify_files_first_large pre p post f fs Hp Hbig Hnin Hsmall).
    reflexivity.
  - intros p f rest fs Hp Hsz. simpl. rewrite Hp, Hsz. reflexivity.
  - intros p f fs Hp Hsz Hreg. simpl. rewrite Hp, Hsz. simpl.
    unfold unlink_quiet, unlink. rewrite Hp, Hreg. reflexivity.
Qed.

Lemma verify_files_spec_witness :
  (Scenario.one_file 1025 !! "download_5_clip.mp4"
   = Some (Scenario.regular 1025 0)
   /\ f_size (Scenario.regular 1025 0) = 1025%Z
   /\ verify_files ["download_5_clip.mp4"] (Scenario.one_file 1025)
      = (Some "download_5_clip.mp4", Scenario.one_file 1025))
  /\ (Scenario.one_file 1024 !! "download_5_clip.mp4"
      = Some (Scenario.regular 1024 0)
      /\ f_size (Scenario.regular 1024 0) = 1024%Z
      /\ f_isfile (Scenario.regular 1024 0) = true
      /\ verify_files ["download_5_clip.mp4"] (Scenario.one_file 1024)
         = (None, delete "download_5_clip.mp4" (Scenario.one_file 1024)))
  /\ (Scenario.three_files !! "download_5_clip.webm"
      = Some (Scenario.regular 3000 0)
      /\ (1024 < f_size (Scenario.regular 3000 0))%Z
      /\ (verify_files
            ([] ++ "download_5_clip.webm"
                :: ["download_5_clip.mp4"; "download_5_clip.jpg"])
            Scenario.three_files).1
         = Some "download_5_clip.webm").
Proof.
  split; [|split].
  - split; [reflexivity|]. split; [reflexivity|].
    exact (proj1 (proj2 (proj2 verify_files_spec)) "download_5_clip.mp4"
             (Scenario.regular 1025 0) [] (Scenario.one_file 1025)
             eq_refl eq_refl).
  - split; [reflexivity|]. split; [reflexivity|]. split; [reflexivity|].
    exact (proj2 (proj2 (proj2 verify_files_spec)) "download_5_clip.mp4"
             (Scenario.regular 1024 0) (Scenario.one_file 1024)
             eq_refl eq_refl eq_refl).
  - split; [reflexivity|]. split; [reflexivity|].
    apply (proj1 (proj2 verify_files_spec) [] "download_5_clip.webm"
             ["download_5_clip.mp4"; "download_5_clip.jpg"]
             (Scenario.regular 3000 0) Scenario.three_files eq_refl eq_refl).
    + intros [].
    + intros q g [].
Defined.

(** ** The retention sweep *)

Lemma elem_of_listdir (fs : gmap string File) (q : string) (g : File) :
  fs !! q = Some g -> In q (listdir fs).
Proof.
  intros H. unfold listdir. apply list_elem_of_In.
  apply list_elem_of_fmap. exists (q, g). split; [reflexivity|].
  apply elem_of_map_to_list. assumption.
Qed.

Lemma sweep_sub (m : pynumber) (t : float) (names : list string) (fs : gmap string File)
    (d : nat) (q : string) (g : File) :
  (sweep m t names fs d).1 !! q = Some g -> fs !! q = Some g.
Proof.
  revert fs d. induction names as [|h rest IH]; intros fs d; simpl; [auto|].
  destruct (fs !! h) as [f|] eqn:E; [|apply IH].
  destruct (f_isfile f && older_than m t f); [|apply IH].
  intros H. apply IH in H.
  destruct (decide (q = h)) as [->|Hne].
  - rewrite lookup_delete_eq in H. discriminate.
  - rewrite lookup_delete_ne in H by congruence. assumption.
Qed.

Lemma sweep_old_gone (m : pynumber) (t : float) (names : list string) (fs : gmap string File)
    (d : nat) (q : string) (g : File) :
  In q names ->
  (sweep m t names fs d).1 !! q = Some g ->
  f_isfile g && older_than m t g = false.
Proof.
  revert fs d. induction names as [|h rest IH]; intros fs d; simpl; [tauto|].
  intros Hin.
  destruct (fs !! h) as [f|] eqn:E.
  - destruct (f_isfile f && older_than m t f) eqn:C.
    + intros H. destruct (decide (q = h)) as [->|Hne].
      * apply sweep_sub in H. rewrite lookup_delete_eq in H. discriminate.
      * destruct Hin as [->|Hin]; [congruence|]. eapply IH; eauto.
    + intros H. destruct Hin as [->|Hin]; [|eapply IH; eauto].
      apply sweep_sub in H. rewrite E in H. injection H as <-. assumption.
  - intros H. destruct Hin as [->|Hin]; [|eapply IH; eauto].
    apply sweep_sub in H. congruence.
Qed.

Lemma sweep_nothing (m : pynumber) (t : float) (names : list string) (fs : gmap string File)
    (d : nat) :
  (forall q g, In q names -> fs !! q = Some g ->
     f_isfile g && older_than m t g = false) ->
  sweep m t names fs d = (fs, d).
Proof.
  induction names as [|h rest IH]; intros H; simpl; [reflexivity|].
  destruct (fs !! h) as [f|] eqn:E.
  - rewrite (H h f) by (simpl; auto). apply IH. intros; eapply H; simpl; eauto.
  - apply IH. intros; eapply H; simpl; eauto.
Qed.

(** C9. The retention sweep is idempotent: whatever the directory, the
    clock and the threshold, a second run of [cleanup_old_files] right
    after the first, with the same threshold and no new file, deletes
    nothing: its counter of deleted files ends at zero and the directory
    is left as the first run left it. *)
Theorem cleanup_old_files_idempotent (max_age_minutes : pynumber)
    (w : World) :
  let '(r1, w1) := cleanup_old_files max_age_minutes w in
  let '(r2, w2) := cleanup_old_files max_age_minutes w1 in
  r2 = Ok 0%nat /\ temp_dir w2 = temp_dir w1.
Proof.
  unfold cleanup_old_files, bind, get_world, set_temp_dir, ret.
  set (t := seconds_of_ms (clock w)).
  destruct (sweep max_age_minutes t (listdir (temp_dir w))
              (temp_dir w) 0) as [fs1 d1] eqn:E1.
  cbn [temp_dir clock]. fold t.
  rewrite sweep_nothing; [cbn [temp_dir]; auto|].
  intros q g Hin Hq.
  assert (Hfs1 : fs1 = (sweep max_age_minutes t
                          (listdir (temp_dir w)) (temp_dir w) 0).1)
    by (rewrite E1; reflexivity).
  eapply (sweep_old_gone _ _ (listdir (temp_dir w)) (temp_dir w) 0 q).
  - rewrite Hfs1 in Hq. apply sweep_sub in Hq. eapply elem_of_listdir; eauto.
  - rewrite <- Hfs1. exact Hq.
Qed.

Example cleanup_old_files_first_run_deletes :
  let w := {| user_states := ∅;
              temp_dir := Scenario.three_files;
              clock := 700000;
              trace := [];
              spawned := [] |} in
  let '(r1, w1) := cleanup_old_files (PyInt 10) w in
  let '(r2, w2) := cleanup_old_files (PyInt 10) w1 in
  r1 = Ok 3%nat /\ temp_dir w1 = ∅ /\ r2 = Ok 0%nat.
Proof. vm_compute. auto. Qed.

(** The age is computed in binary64: a file created 4.001 seconds after
    the epoch is, at 64.001 seconds, 1.0000000000000002 minutes old for
    the program, and a sweep with a threshold of 1 minute removes it. *)
Example cleanup_old_files_rounds :
  let w := {| user_states := ∅;
              temp_dir := {[ "a.mp3" := Scenario.regular 5000 4001 ]};
              clock := 64001;
              trace := [];
              spawned := [] |} in
  (cleanup_old_files (PyInt 1) w).1 = Ok 1%nat
  /\ (cleanup_old_files (PyFloat 1) w).1 = Ok 1%nat
  /\ (cleanup_old_files (PyInt 1)
        {| user_states := ∅;
           temp_dir := {[ "a.mp3" := Scenario.regular 5000 4000 ]};
           clock := 64000;
           trace := [];
           spawned := [] |}).1 = Ok 0%nat.
Proof. vm_compute. auto. Qed.

(** ** Runs of the handlers in concrete environments *)

(** C1. The per-request handler is meant to leave the requester in the
    state 'main', but [show_main_menu] assigns the state only after the
    menu has been sent, inside a block that swallows every exception.
    Here the requester sends a url while the bot waits for one: the state
    becomes 'processing' and the thread is started.  The thread downloads
    and delivers the file; the transport then fails on the one call that
    sends the menu.  The handler returns normally and the requester is
    still 'processing'. *)
Theorem handle_download_process_leaves_processing :
  let env := Scenario.env_outage 9 9 in
  let '(_, w1) :=
    process_url_input env Scenario.chat " https://youtu.be/abc "
      Scenario.waiting in
  let '(r, w2) := run_task env Scenario.task w1 in
  user_states w1 !! Scenario.chat = Some "processing"
  /\ spawned w1 = [Scenario.task]
  /\ r = Ok tt
  /\ In (EvSendMedia Scenario.chat SendAudio Scenario.payload
          (Some "My Song") true)
       (trace w2)
  /\ last (trace w2) = Some (EvSendMessage Scenario.chat MsgMainMenu false)
  /\ user_states w2 !! Scenario.chat = Some "processing".
Proof. vm_compute. repeat split; auto 20. Qed.

(** The search handler has the same weakness, one step earlier: when
    the message that reports the failure of the search raises, the menu
    is not even attempted, the exception leaves the handler, and the
    requester stays in the state in which the query was awaited. *)
Example process_music_search_leaves_waiting :
  let env := Scenario.with_transport Scenario.env_untimed
               (fun _ => Scenario.fails) in
  let '(r, w') :=
    process_music_search env Scenario.chat "a song" Scenario.searching in
  r = Raise (PyException "Connection reset by peer")
  /\ trace w'
     = [EvSendMessage Scenario.chat (MsgSearchingFor "a song") false;
        EvSendMessage Scenario.chat
          (MsgSearchError "Connection reset by peer") false]
  /\ user_states w' !! Scenario.chat = Some "waiting_music_query".
Proof. vm_compute. repeat split; auto. Qed.

(** C2. The payload is meant to be deleted once delivery has been
    attempted, but the cleanup block follows the upload loop inside the
    [try] body instead of sitting in a [finally].  Here the download
    succeeds, the first upload attempt raises, and so does the message
    that announces the retry: the exception leaves the upload loop, the
    cleanup block is skipped, and the payload of 5000 bytes is still in
    the directory when the handler returns. *)
Theorem handle_download_process_leaves_payload :
  let env := Scenario.env_outage 6 7 in
  let '(r, w') :=
    handle_download_process env Scenario.chat Scenario.url "audio" "best"
      Scenario.processing in
  r = Ok tt
  /\ In (EvSendMedia Scenario.chat SendAudio Scenario.payload
          (Some "My Song") false)
       (trace w')
  /\ In (EvSendMessage Scenario.chat (MsgUploadRetrying 2) false) (trace w')
  /\ f_size <$> temp_dir w' !! Scenario.payload = Some 5000%Z
  /\ user_states w' !! Scenario.chat = Some "main".
Proof. vm_compute. repeat split; auto 20. Qed.

(** The same request with a working transport: the payload is gone. *)
Example handle_download_process_success :
  let '(r, w') :=
    handle_download_process Scenario.env_ok Scenario.chat Scenario.url
      "audio" "best" Scenario.processing in
  r = Ok tt
  /\ temp_dir w' = ∅
  /\ user_states w' !! Scenario.chat = Some "main"
  /\ delivered Scenario.chat (trace w')
     = [MsgVerifyingURL; MsgStartingDownloadProcess;
        MsgDownloading "My Song" (Val 200%Z); MsgUploading;
        MsgUploadSuccessful; MsgMainMenu].
Proof. vm_compute. repeat split; auto. Qed.

(** The tokens of one call differ from one attempt to the next: the
    first fetch times out, the retry starts 63 seconds later and reads the
    clock again. *)
Lemma download_media_tokens_differ :
  let '(r, w') :=
    download_media Scenario.env_transient Scenario.chat Scenario.url
      "video" "fast" Scenario.processing in
  probe_tokens (trace w') = [1700000000%Z; 1700000063%Z]
  /\ (exists info, r = Ok (info, "download_1700000063_My Song.mp3"))
  /\ ~ (forall t1 t2,
          In t1 (probe_tokens (trace w')) ->
          In t2 (probe_tokens (trace w')) -> t1 = t2).
Proof.
  vm_compute. split; [reflexivity|]. split; [eauto|].
  intros H. specialize (H 1700000000%Z 1700000063%Z).
  discriminate H; auto.
Qed.

(** C5. An access denial met by the pre-flight probe is meant to be
    terminal at once, as the handler of [DownloadError] makes it for a
    fetch.  The pre-flight block, however, raises every failure again as a
    plain [Exception], which the generic handler retries: for a private
    video the probe is called three times, with two pauses of three
    seconds, before the requester is told that the video is unavailable.
    No fetch is made. *)
Theorem probe_access_denied_is_retried :
  let '(r, w') :=
    handle_download_process Scenario.env_private Scenario.chat Scenario.url
      "video" "best" Scenario.processing in
  r = Ok tt
  /\ count_calls is_probe (trace w') = 3%nat
  /\ count_calls is_fetch (trace w') = 0%nat
  /\ List.filter (fun e => match e with EvSleep _ => true | _ => false end)
       (trace w') = [EvSleep 3; EvSleep 3]
  /\ delivered Scenario.chat (trace w')
     = [MsgVerifyingURL; MsgStartingDownloadProcess; MsgRetryAttempt 2 3;
        MsgRetryAttempt 3 3; MsgVideoUnavailable; MsgMainMenu].
Proof. vm_compute. repeat split; auto. Qed.

(** C6. After a fetch refused with HTTP 403 the loop goes on to the
    next attempt, under the comment "Try different format on retry", but
    the options are computed again from the same profile: the three
    fetches of the call carry the same format directive.  After the third
    refusal the call raises the 'blocked' error. *)
Theorem forbidden_retry_keeps_format :
  let '(r, w') :=
    download_media Scenario.env_forbidden Scenario.chat Scenario.url
      "video" "fast" Scenario.processing in
  r = Raise (PyException
        "Server blocked the request. Please try a different video or try again later.")
  /\ fetch_formats (trace w')
     = [ "best[height<=480]/best[height<=360]/worst";
         "best[height<=480]/best[height<=360]/worst";
         "best[height<=480]/best[height<=360]/worst" ]
  /\ temp_dir w' = ∅.
Proof. vm_compute. repeat split; auto. Qed.

(** An entry without a duration passes the filter and is downloaded. *)
Lemma search_keeps_entry_without_duration :
  let '(r, w') :=
    process_music_search Scenario.env_untimed Scenario.chat "a song"
      Scenario.processing in
  en_duration Scenario.untimed = Missing
  /\ select_entries [Some Scenario.untimed] = Ok [Scenario.untimed]
  /\ r = Ok tt
  /\ count_calls is_fetch (trace w') = 1%nat
  /\ delivered Scenario.chat (trace w')
     = [MsgSearchingFor "a song"; MsgTopResults [(Val "A song", Missing)];
        MsgVerifyingURL; MsgStartingDownloadProcess;
        MsgDownloading "My Song" (Val 200%Z); MsgUploading;
        MsgUploadSuccessful; MsgMainMenu].
Proof. vm_compute. repeat split; auto. Qed.

(** ** The footprint of the handlers

    Whatever a relation [R] with the closure properties of [Footprint]
    is, it relates the world after a download to the world before. *)
Section Footprint.
Variable R : World -> World -> Prop.
Variable P : Event -> Prop.
Variable Tok : gmap string File -> gmap string File -> Prop.
Hypothesis Hfp : Footprint R P Tok.

Lemma R_refl : forall w, R w w.
Proof. apply Hfp. Qed.

Lemma R_trans : forall a b c, R a b -> R b c -> R a c.
Proof. apply Hfp. Qed.

Lemma R_tick : forall el evs w, Forall P evs -> R w (tick el evs w).2.
Proof. apply Hfp. Qed.

Lemma R_fs :
  forall f w, Tok (temp_dir w) (f (temp_dir w)) -> R w (set_temp_dir f w).2.
Proof. apply Hfp. Qed.

Lemma R_us : forall f w, R w (set_user_states f w).2.
Proof. apply Hfp. Qed.

Lemma Tok_refl : forall fs, Tok fs fs.
Proof. apply Hfp. Qed.

Lemma Tok_trans : forall a b c, Tok a b -> Tok b c -> Tok a c.
Proof. apply Hfp. Qed.

Lemma Tok_insert :
  forall fs name f, f_isfile f = true -> Tok fs (<[name := f]> fs).
Proof. apply Hfp. Qed.

Lemma Tok_delete : forall fs name, Tok fs (delete name fs).
Proof. apply Hfp. Qed.

Lemma P_transport : forall e, is_transport_call e = true -> P e.
Proof. apply Hfp. Qed.

Lemma P_sleep : forall n, P (EvSleep n).
Proof. apply Hfp. Qed.

Lemma fp_ret {A} (a : A) : run_rel R (ret a).
Proof. intros w. apply R_refl. Qed.

Lemma fp_raise {A} (e : exn) : run_rel R (@raise A e).
Proof. intros w. apply R_refl. Qed.

Lemma fp_lift_result {A} (r : result A) : run_rel R (lift_result r).
Proof. intros w. apply R_refl. Qed.

Lemma fp_bind {A B} (m : M A) (k : A -> M B) :
  run_rel R m -> (forall a, run_rel R (k a)) -> run_rel R (bind m k).
Proof.
  intros Hm Hk w. unfold bind. specialize (Hm w).
  destruct (m w) as [[a|e] w1]; simpl in *; [|assumption].
  eapply R_trans; [eassumption|]. apply Hk.
Qed.

(** The continuation of [get_world] receives the current world. *)
Lemma fp_get_world_bind {B} (k : World -> M B) :
  (forall w, R w (k w w).2) -> run_rel R (bind get_world k).
Proof. intros H w. apply H. Qed.

Lemma fp_try_except {A} (m : M A) (h : exn -> M A) :
  run_rel R m -> (forall e, run_rel R (h e)) -> run_rel R (try_except m h).
Proof.
  intros Hm Hh w. unfold try_except. specialize (Hm w).
  destruct (m w) as [[a|e] w1]; simpl in *; [assumption|].
  eapply R_trans; [eassumption|]. apply Hh.
Qed.

Lemma fp_try_pass (m : M unit) : run_rel R m -> run_rel R (try_pass m).
Proof. intros Hm. apply fp_try_except; [assumption|]. intros e. apply fp_ret. Qed.

Lemma fp_try_finally {A} (m : M A) (f : M unit) :
  run_rel R m -> run_rel R f -> run_rel R (try_finally m f).
Proof.
  intros Hm Hf w. unfold try_finally. specialize (Hm w).
  destruct (m w) as [r w1]. specialize (Hf w1).
  destruct (f w1) as [[u|e] w2]; simpl in *; eapply R_trans; eassumption.
Qed.

Lemma fp_repeat_m (n : nat) (m : M unit) :
  run_rel R m -> run_rel R (repeat_m n m).
Proof.
  intros Hm. induction n as [|n IH]; simpl; [apply fp_ret|].
  apply fp_bind; auto.
Qed.

Lemma fp_tick (el : N) (evs : list Event) :
  Forall P evs -> run_rel R (tick el evs).
Proof. intros H w. apply R_tick. assumption. Qed.

Lemma fp_set_user_states (f : gmap Z string -> gmap Z string) :
  run_rel R (set_user_states f).
Proof. intros w. apply R_us. Qed.

Lemma fp_time_sleep (n : N) : run_rel R (time_sleep n).
Proof. apply fp_tick. constructor; [apply P_sleep | constructor]. Qed.

Lemma fp_transport_call (env : Env) (ev : bool -> Event) :
  (forall b, is_transport_call (ev b) = true) ->
  run_rel R (transport_call env ev).
Proof.
  intros Hev. unfold transport_call. apply fp_get_world_bind. intros w.
  destruct (tr_error _).
  - apply fp_bind; [|intros; apply fp_raise].
    apply fp_tick. constructor; [|constructor]. apply P_transport, Hev.
  - apply fp_tick. constructor; [|constructor]. apply P_transport, Hev.
Qed.

Lemma fp_bot_send_message (env : Env) (chat_id : Z) (m : Msg) :
  run_rel R (bot_send_message env chat_id m).
Proof. apply fp_transport_call. reflexivity. Qed.

Lemma fp_bot_send_chat_action (env : Env) (chat_id : Z) (a : string) :
  run_rel R (bot_send_chat_action env chat_id a).
Proof. apply fp_transport_call. reflexivity. Qed.

Lemma fp_show_main_menu (env : Env) (chat_id : Z) :
  run_rel R (show_main_menu env chat_id).
Proof.
  unfold show_main_menu. apply fp_try_except; [|intros; apply fp_ret].
  apply fp_bind; [apply fp_bot_send_message|].
  intros. apply fp_set_user_states.
Qed.

Lemma fp_notify_attempt (env : Env) (chat_id : Z) (attempt : nat) :
  run_rel R (notify_attempt env chat_id attempt).
Proof.
  unfold notify_attempt. destruct (0 <? attempt)%nat;
    apply fp_bot_send_message.
Qed.

Lemma Tok_unlink_quiet (name : string) (fs : gmap string File) :
  Tok fs (unlink_quiet name fs).
Proof.
  unfold unlink_quiet, unlink. destruct (fs !! name) as [f|]; [|apply Tok_refl].
  destruct (f_isfile f); [apply Tok_delete | apply Tok_refl].
Qed.

Lemma Tok_unlink_all (names : list string) (fs : gmap string File) :
  Tok fs (unlink_all names fs).
Proof.
  revert fs. induction names as [|h rest IH]; intros fs; simpl; [apply Tok_refl|].
  unfold unlink. destruct (fs !! h) as [f|]; [|apply Tok_refl].
  destruct (f_isfile f); [|apply Tok_refl].
  eapply Tok_trans; [apply Tok_delete | apply IH].
Qed.

Lemma Tok_verify_files (files : list string) (fs : gmap string File) :
  Tok fs (verify_files files fs).2.
Proof.
  revert fs. induction files as [|h rest IH]; intros fs; simpl; [apply Tok_refl|].
  destruct (fs !! h) as [f|]; [|apply IH].
  destruct (1024 <? f_size f)%Z; [apply Tok_refl|].
  eapply Tok_trans; [apply Tok_unlink_quiet | apply IH].
Qed.

Lemma Tok_write (timestamp : Z) (now : N) (files : list (string * Z))
    (fs : gmap string File) :
  Tok fs
    (fold_left
       (fun fs '(suffix, size) =>
          <[ token_prefix timestamp ++ suffix :=
             {| f_size := size; f_ctime := now; f_mtime := now;
                f_isfile := true |} ]> fs)
       files fs).
Proof.
  revert fs. induction files as [|[suffix size] rest IH]; intros fs; simpl;
    [apply Tok_refl|].
  eapply Tok_trans; [|apply IH]. apply Tok_insert. reflexivity.
Qed.

Lemma fp_write_files (timestamp : Z) (files : list (string * Z)) :
  run_rel R (write_files timestamp files).
Proof.
  unfold write_files. apply fp_get_world_bind. intros w.
  apply R_fs. apply Tok_write.
Qed.

Lemma fp_purge_partial (timestamp : option Z) :
  run_rel R (purge_partial timestamp).
Proof.
  destruct timestamp as [ts|]; simpl; [|apply fp_ret].
  intros w. apply R_fs. apply Tok_unlink_all.
Qed.

Section OneCall.
Variables (env : Env) (chat_id : Z) (url : pyval).
Variables (download_type quality : string).

Lemma fp_probe_step (timestamp : Z) :
  P (EvProbe url (ydl_format env download_type quality) timestamp) ->
  run_rel R (probe_step env chat_id url
               (ydl_format env download_type quality) timestamp).
Proof.
  intros HP. unfold probe_step.
  apply fp_try_except; [|intros; apply fp_raise].
  apply fp_bind.
  - unfold engine_probe. apply fp_get_world_bind. intros w.
    apply fp_bind; [|intros; apply fp_ret].
    apply fp_tick. constructor; [assumption|constructor].
  - intros [e| |info]; try apply fp_raise.
    apply fp_bind; [apply fp_bot_send_message|intros; apply fp_ret].
Qed.

Lemma fp_engine_fetch (timestamp : Z) :
  P (EvFetch url (ydl_format env download_type quality) timestamp) ->
  run_rel R (engine_fetch env chat_id url download_type
               (ydl_format env download_type quality) timestamp).
Proof.
  intros HP. unfold engine_fetch. apply fp_get_world_bind. intros w.
  apply fp_bind; [apply fp_tick; constructor; [assumption|constructor]|].
  intros _. apply fp_bind; [apply fp_write_files|].
  intros _. apply fp_bind.
  - apply fp_repeat_m. unfold progress_hook. apply fp_try_pass.
    apply fp_bot_send_chat_action.
  - intros _. destruct (fr_error _); [apply fp_raise | apply fp_ret].
Qed.

Lemma fp_attempt_body (timestamp : Z) :
  P (EvProbe url (ydl_format env download_type quality) timestamp) ->
  P (EvFetch url (ydl_format env download_type quality) timestamp) ->
  run_rel R (attempt_body env chat_id url download_type quality timestamp).
Proof.
  intros HP1 HP2. unfold attempt_body.
  apply fp_bind; [apply fp_probe_step; assumption|]. intros info.
  apply fp_bind; [apply fp_engine_fetch; assumption|]. intros _.
  apply fp_bind; [apply fp_time_sleep|]. intros _.
  apply fp_get_world_bind. intros w.
  pose proof (Tok_verify_files (discover timestamp (temp_dir w))
                (temp_dir w)) as HT.
  destruct (verify_files _ _) as [found fs]. simpl in HT.
  destruct found; exact (R_fs (fun _ => fs) w HT).
Qed.

Lemma fp_on_error {A} (attempt : nat) (timestamp : option Z) (e : exn) :
  run_rel R (@on_error A attempt timestamp e).
Proof.
  destruct e as [error_msg|msg]; simpl.
  - unfold on_download_error.
    apply fp_bind; [apply fp_purge_partial|]. intros _.
    repeat match goal with
           | |- context [if ?c then _ else _] => destruct c
           end;
      try apply fp_ret;
      (apply fp_bind; [apply fp_time_sleep | intros; apply fp_ret]).
  - unfold on_exception.
    apply fp_bind; [apply fp_purge_partial|]. intros _.
    destruct (_ <? _)%nat; [|apply fp_ret].
    apply fp_bind; [apply fp_time_sleep | intros; apply fp_ret].
Qed.

Hypothesis P_probe :
  forall ts, P (EvProbe url (ydl_format env download_type quality) ts).
Hypothesis P_fetch :
  forall ts, P (EvFetch url (ydl_format env download_type quality) ts).

Lemma fp_iteration (attempt : nat) (timestamp : option Z) :
  run_rel R (iteration env chat_id url download_type quality attempt
               timestamp).
Proof.
  intros w. unfold iteration.
  pose proof (fp_notify_attempt env chat_id attempt w) as Hn. destruct (notify_attempt env chat_id attempt w)
    as [[[]|e] w1]; simpl in Hn.
  - pose proof (fp_attempt_body (int_time w1) (P_probe _) (P_fetch _) w1)
      as Hb.
    destruct (attempt_body _ _ _ _ _ _ w1) as [[r|e] w2]; simpl in Hb.
    + simpl. eapply R_trans; eassumption.
    + pose proof (@fp_on_error (Info * string) attempt
                    (Some (int_time w1)) e w2) as He.
      destruct (on_error _ _ _ w2) as [[fl|e'] w3]; simpl in *;
        eauto using R_trans.
  - pose proof (@fp_on_error (Info * string) attempt timestamp e w1) as He.
    destruct (on_error _ _ _ w1) as [[fl|e'] w2]; simpl in *;
      eauto using R_trans.
Qed.

Lemma fp_attempts (todo : list nat) (timestamp : option Z) :
  run_rel R (attempts env chat_id url download_type quality todo
               timestamp).
Proof.
  revert timestamp. induction todo as [|attempt rest IH];
    intros timestamp; simpl; [apply fp_raise|].
  intros w. pose proof (fp_iteration attempt timestamp w) as Hi.
  destruct (iteration _ _ _ _ _ _ _ w) as [[[r| |e] ts'] w1];
    simpl in *; try assumption.
  eapply R_trans; [eassumption|]. apply IH.
Qed.

Lemma fp_download_media :
  run_rel R (download_media env chat_id url download_type quality).
Proof. apply fp_attempts. Qed.
End OneCall.
End Footprint.

(** *** Two instances: the trace, and an invariant of the directory *)

Lemma extends_trace_refl (P : Event -> Prop) (w : World) : extends_trace P w w.
Proof. exists []. split; [symmetry; apply app_nil_r | constructor]. Qed.

Lemma extends_trace_trans (P : Event -> Prop) (a b c : World) :
  extends_trace P a b -> extends_trace P b c -> extends_trace P a c.
Proof.
  intros (e1 & H1 & F1) (e2 & H2 & F2). exists (e1 ++ e2)%list. split.
  - rewrite H2, H1, app_assoc. reflexivity.
  - apply Forall_app; split; assumption.
Qed.

Lemma extends_trace_tick (P : Event -> Prop) (el : N) (evs : list Event)
    (w : World) :
  Forall P evs -> extends_trace P w (tick el evs w).2.
Proof. intros H. exists evs. split; [reflexivity|assumption]. Qed.

Lemma extends_trace_fs (P : Event -> Prop)
    (f : gmap string File -> gmap string File) (w : World) :
  extends_trace P w (set_temp_dir f w).2.
Proof. exists []. split; [symmetry; apply app_nil_r | constructor]. Qed.

Lemma extends_trace_us (P : Event -> Prop)
    (f : gmap Z string -> gmap Z string) (w : World) :
  extends_trace P w (set_user_states f w).2.
Proof. exists []. split; [symmetry; apply app_nil_r | constructor]. Qed.

(** The instance for the trace. *)
Lemma trace_footprint (P : Event -> Prop) :
  (forall e, is_transport_call e = true -> P e) ->
  (forall n, P (EvSleep n)) ->
  Footprint (extends_trace P) P (fun _ _ => True).
Proof.
  intros H1 H2. constructor; auto using extends_trace_refl,
    extends_trace_tick, extends_trace_fs, extends_trace_us.
  apply extends_trace_trans.
Qed.

(** The instance for an invariant [I] of the directory that survives the
    creation of a regular file and the removal of an entry. *)
Lemma dir_footprint (I : gmap string File -> Prop) :
  (forall fs name f, f_isfile f = true -> I fs -> I (<[name := f]> fs)) ->
  (forall fs name, I fs -> I (delete name fs)) ->
  Footprint (fun w w' : World => I (temp_dir w) -> I (temp_dir w'))
    (fun _ => True) (fun fs fs' => I fs -> I fs').
Proof. intros H1 H2. constructor; simpl; auto. Qed.

Lemma token_regular_insert (ts : Z) (fs : gmap string File) (name : string)
    (f : File) :
  f_isfile f = true -> token_regular ts fs -> token_regular ts (<[name := f]> fs).
Proof.
  intros Hreg H n g Hn Hp. destruct (decide (n = name)) as [->|Hne].
  - rewrite lookup_insert_eq in Hn. congruence.
  - rewrite lookup_insert_ne in Hn by congruence. eauto.
Qed.

Lemma token_regular_delete (ts : Z) (fs : gmap string File) (name : string) :
  token_regular ts fs -> token_regular ts (delete name fs).
Proof.
  intros H n g Hn Hp. destruct (decide (n = name)) as [->|Hne].
  - rewrite lookup_delete_eq in Hn. discriminate.
  - rewrite lookup_delete_ne in Hn by congruence. eauto.
Qed.

(** *** The cleanup block *)

Lemma unlink_all_sub (names : list string) (fs : gmap string File)
    (q : string) (g : File) :
  unlink_all names fs !! q = Some g -> fs !! q = Some g.
Proof.
  revert fs. induction names as [|h rest IH]; intros fs; simpl; [auto|].
  unfold unlink. destruct (fs !! h) as [f|] eqn:E; [|auto].
  destruct (f_isfile f); [|auto].
  intros H. apply IH in H. destruct (decide (q = h)) as [->|Hne].
  - rewrite lookup_delete_eq in H. discriminate.
  - rewrite lookup_delete_ne in H by congruence. assumption.
Qed.

Lemma unlink_all_gone (names : list string) (fs : gmap string File)
    (q : string) :
  (forall n, In n names -> exists f, fs !! n = Some f /\ f_isfile f = true) ->
  NoDup names ->
  In q names -> unlink_all names fs !! q = None.
Proof.
  revert fs. induction names as [|h rest IH]; intros fs Hreg Hnd Hin;
    [destruct Hin|].
  simpl. unfold unlink.
  destruct (Hreg h) as (f & Hf & Hfile); [left; reflexivity|].
  rewrite Hf, Hfile. apply NoDup_cons in Hnd as [Hh Hnd'].
  destruct (decide (q = h)) as [->|Hne].
  - destruct (unlink_all rest (delete h fs) !! h) as [g|] eqn:E; [|reflexivity].
    apply unlink_all_sub in E. rewrite lookup_delete_eq in E. discriminate.
  - apply IH; [|assumption|destruct Hin; congruence].
    intros n Hn. destruct (Hreg n) as (g & Hg & Hgf); [right; assumption|].
    exists g. split; [|assumption].
    rewrite lookup_delete_ne; [assumption|].
    intros ->. apply Hh. apply list_elem_of_In. assumption.
Qed.

Lemma purge_token_free (ts : Z) (fs : gmap string File) :
  token_regular ts fs -> token_free ts (unlink_all (glob_token ts fs) fs).
Proof.
  intros Hreg name Hp.
  destruct (fs !! name) as [f|] eqn:E.
  - apply unlink_all_gone.
    + intros n [Hn1 Hn2]%filter_In. unfold listdir in Hn1.
      apply list_elem_of_In, list_elem_of_fmap in Hn1 as ([n' g] & -> & Hg).
      apply elem_of_map_to_list in Hg. simpl in *. eauto.
    + apply NoDup_ListNoDup, List.NoDup_filter, NoDup_ListNoDup.
      apply NoDup_fst_map_to_list.
    + apply filter_In. split; [eapply elem_of_listdir; eauto | assumption].
  - destruct (unlink_all _ fs !! name) as [g|] eqn:E'; [|reflexivity].
    apply unlink_all_sub in E'. congruence.
Qed.

Lemma carries_token_footprint (ts : Z) :
  Footprint (extends_trace (carries_token ts)) (carries_token ts)
    (fun _ _ => True).
Proof.
  apply trace_footprint; [|reflexivity].
  intros []; simpl; auto; discriminate.
Qed.

Lemma token_regular_footprint (ts : Z) :
  Footprint
    (fun w w' : World =>
       token_regular ts (temp_dir w) -> token_regular ts (temp_dir w'))
    (fun _ => True)
    (fun fs fs' => token_regular ts fs -> token_regular ts fs').
Proof.
  apply (dir_footprint (token_regular ts));
    auto using token_regular_insert, token_regular_delete.
Qed.

Lemma on_error_temp_dir {A} (attempt : nat) (ts : Z) (e : exn) (w : World) :
  temp_dir (@on_error A attempt (Some ts) e w).2
  = unlink_all (glob_token ts (temp_dir w)) (temp_dir w).
Proof.
  destruct e as [error_msg|msg]; simpl;
    unfold on_download_error, on_exception, bind; simpl;
    repeat match goal with
           | |- context [if ?c then _ else _] => destruct c
           end; reflexivity.
Qed.

Lemma on_error_flow {A} (attempt : nat) (ts : option Z) (e : exn) (w : World) :
  exists fl : Flow A,
    (@on_error A attempt ts e w).1 = Ok fl /\ forall r, fl <> FReturn r.
Proof.
  destruct e as [error_msg|msg]; simpl;
    unfold on_download_error, on_exception, bind;
    destruct (purge_partial ts w) as [[[]|e'] w'] eqn:Ep;
    try (destruct ts; discriminate Ep);
    repeat match goal with
           | |- context [if ?c then _ else _] => destruct c
           end; simpl; eexists; (split; [reflexivity|discriminate]).
Qed.

(** ** The uniqueness token *)

(** C4 (amended). The token is not shared by the attempts of a call:
    every attempt whose progress message goes through reads the clock
    again and binds [timestamp] to the current second.  That token is the
    one under which the attempt's probe and fetch are issued, and the one
    its cleanup block globs for: when the attempt does not return a file
    (and the entries under that token are regular files), no entry
    carrying the token is left in the directory. *)
Theorem iteration_uses_own_token (env : Env) (chat_id : Z) (url : pyval)
    (download_type quality : string) (attempt : nat) (timestamp : option Z)
    (w w1 : World) :
  notify_attempt env chat_id attempt w = (Ok tt, w1) ->
  token_regular (int_time w1) (temp_dir w) ->
  let r := iteration env chat_id url download_type quality attempt
             timestamp w in
  r.1.2 = Some (int_time w1)
  /\ extends_trace (carries_token (int_time w1)) w r.2
  /\ ((forall v, r.1.1 <> FReturn v) ->
      token_free (int_time w1) (temp_dir r.2)).
Proof.
  intros Hn Hreg. cbv zeta. set (ts := int_time w1).
  pose proof (carries_token_footprint ts) as Ftr.
  pose proof (token_regular_footprint ts) as Fdir.
  assert (Htr1 : extends_trace (carries_token ts) w w1).
  { pose proof (fp_notify_attempt _ _ _ Ftr env chat_id attempt w) as H.
    rewrite Hn in H. exact H. }
  assert (Hreg1 : token_regular ts (temp_dir w1)).
  { pose proof (fp_notify_attempt _ _ _ Fdir env chat_id attempt w) as H.
    rewrite Hn in H. auto. }
  pose proof (fp_attempt_body _ _ _ Ftr env chat_id url download_type
                quality ts eq_refl eq_refl w1) as Htr2.
  pose proof (fp_attempt_body _ _ _ Fdir env chat_id url download_type
                quality ts Logic.I Logic.I w1 Hreg1) as Hreg2.
  unfold iteration. rewrite Hn. fold ts.
  destruct (attempt_body env chat_id url download_type quality ts w1)
    as [[v|e] w2]; simpl in Htr2, Hreg2.
  - simpl. split; [reflexivity|]. split.
    + eapply extends_trace_trans; eassumption.
    + intros H. exfalso. eapply H. reflexivity.
  - pose proof (@on_error_temp_dir (Info * string) attempt ts e w2) as Hfs.
    pose proof (@on_error_flow (Info * string) attempt (Some ts) e w2)
      as (fl & Hfl & Hnr).
    pose proof (fp_on_error _ _ _ Ftr (A := Info * string) attempt (Some ts)
                  e w2) as Htr3.
    destruct (on_error attempt (Some ts) e w2) as [[fl'|e'] w3];
      simpl in *; [|discriminate].
    split; [reflexivity|]. split.
    + eauto using extends_trace_trans.
    + intros _. rewrite Hfs. apply purge_token_free. assumption.
Qed.

Lemma iteration_uses_own_token_witness :
  let w := Scenario.processing in
  let w1 := (notify_attempt Scenario.env_transient Scenario.chat 0 w).2 in
  let r := iteration Scenario.env_transient Scenario.chat Scenario.url
             "video" "fast" 0 None w in
  notify_attempt Scenario.env_transient Scenario.chat 0 w = (Ok tt, w1)
  /\ token_regular (int_time w1) (temp_dir w)
  /\ r.1.2 = Some 1700000000%Z
  /\ extends_trace (carries_token 1700000000) w r.2
  /\ ((forall v, r.1.1 <> FReturn v) ->
      token_free 1700000000 (temp_dir r.2)).
Proof.
  assert (Hreg : token_regular 1700000000 (temp_dir Scenario.processing)).
  { intros name f H. simpl in H. rewrite lookup_empty in H. discriminate. }
  split; [reflexivity|]. split; [exact Hreg|].
  exact (iteration_uses_own_token Scenario.env_transient Scenario.chat
           Scenario.url "video" "fast" 0 None Scenario.processing
           (notify_attempt Scenario.env_transient Scenario.chat 0
              Scenario.processing).2
           eq_refl Hreg).
Defined.

(** Whatever the environment, every probe and every fetch of one call
    asks for the same format, the one of the requested profile. *)
Lemma download_media_single_format (env : Env) (chat_id : Z) (url : pyval)
    (download_type quality : string) (w : World) :
  extends_trace (asks_format (ydl_format env download_type quality)) w
    (download_media env chat_id url download_type quality w).2.
Proof.
  set (F := ydl_format env download_type quality).
  assert (HF : Footprint (extends_trace (asks_format F)) (asks_format F)
                 (fun _ _ => True)).
  { apply trace_footprint; [|reflexivity].
    intros []; simpl; auto; discriminate. }
  apply (fp_download_media _ _ _ HF); reflexivity.
Qed.

(** ** The search adapter *)

Lemma keep_short_candidates (entries : list (option Entry)) :
  no_null_duration entries ->
  keep_short entries = Ok (List.filter is_candidate (omap id entries)).
Proof.
  induction 1 as [|[e|] rest He Hrest IH]; simpl; [reflexivity| |assumption].
  rewrite IH. unfold is_candidate.
  destruct (en_duration e); [reflexivity|congruence|reflexivity].
Qed.

Lemma select_entries_candidates (entries : list (option Entry)) :
  no_null_duration entries -> select_entries entries = Ok (candidates entries).
Proof.
  intros H. unfold select_entries, candidates.
  rewrite (keep_short_candidates _ H). reflexivity.
Qed.

Lemma count_calls_app (p : Event -> bool) (a b : list Event) :
  count_calls p (a ++ b) = (count_calls p a + count_calls p b)%nat.
Proof. unfold count_calls. rewrite List.filter_app, length_app. reflexivity. Qed.

(** With a transport that answers, a message is sent and recorded. *)
Lemma bot_send_message_ok (env : Env) (chat_id : Z) (m : Msg) (w : World) :
  transport_ok env ->
  exists w',
    bot_send_message env chat_id m w = (Ok tt, w')
    /\ trace w' = (trace w ++ [EvSendMessage chat_id m true])%list
    /\ user_states w' = user_states w
    /\ temp_dir w' = temp_dir w.
Proof.
  intros Hok. unfold bot_send_message, transport_call, bind, get_world.
  rewrite Hok. eexists. split; [reflexivity|]. simpl. auto.
Qed.

Lemma show_main_menu_ok (env : Env) (chat_id : Z) (w : World) :
  transport_ok env ->
  exists w',
    show_main_menu env chat_id w = (Ok tt, w')
    /\ trace w' = (trace w ++ [EvSendMessage chat_id MsgMainMenu true])%list
    /\ user_states w' = <[chat_id := "main"]> (user_states w)
    /\ temp_dir w' = temp_dir w.
Proof.
  intros Hok. unfold show_main_menu, try_except, bind.
  destruct (bot_send_message_ok env chat_id MsgMainMenu w Hok)
    as (w1 & -> & Ht & Hu & Hd).
  eexists. split; [reflexivity|]. simpl. rewrite Ht, Hu, Hd. auto.
Qed.

Lemma engine_search_run (env : Env) (search_url : string) (w : World) :
  exists w',
    engine_search env search_url w
    = (Ok (sr_outcome (search env (count_calls is_search (trace w)))), w')
    /\ trace w' = (trace w ++ [EvSearch search_url])%list
    /\ user_states w' = user_states w
    /\ temp_dir w' = temp_dir w.
Proof.
  unfold engine_search, bind, get_world. eexists. split; [reflexivity|].
  simpl. auto.
Qed.

(** C8 (amended). For a query of at least two characters, with a
    transport that answers and a search result in which no duration is
    [None]: the engine is asked for 'ytsearch3:' followed by the query;
    the candidate list holds at most three entries, namely the first
    entries that are not falsy and whose duration, taken as 0 when the
    key is absent, is below 1800 seconds; when that list is empty the
    requester gets a 'no results' message and the menu, and no download
    is started; otherwise the requester gets the list and the handler
    goes on with the download of the first candidate. *)
Theorem process_music_search_spec (env : Env) (chat_id : Z) (text : string)
    (w : World) (entries : list (option Entry)) :
  transport_ok env ->
  (2 <= String.length (strip text))%nat ->
  sr_outcome (search env (count_calls is_search (trace w)))
  = SearchInfo (Val entries) ->
  no_null_duration entries ->
  let query := strip text in
  select_entries entries = Ok (candidates entries)
  /\ (length (candidates entries) <= 3)%nat
  /\ exists w1,
       trace w1
       = (trace w ++ [EvSendMessage chat_id (MsgSearchingFor query) true;
                      EvSearch ("ytsearch3:" ++ query)])%list
       /\ user_states w1 = user_states w
       /\ temp_dir w1 = temp_dir w
       /\ match candidates entries with
          | [] =>
              exists m w',
                (m = MsgNoResultsFound \/ m = MsgNoValidResultsFound)
                /\ process_music_search env chat_id text w = (Ok tt, w')
                /\ trace w'
                   = (trace w1 ++ [EvSendMessage chat_id m true;
                                   EvSendMessage chat_id MsgMainMenu true])%list
                /\ user_states w' = <[chat_id := "main"]> (user_states w)
                /\ temp_dir w' = temp_dir w
          | first_result :: _ =>
              exists w2,
                trace w2
                = (trace w1
                   ++ [EvSendMessage chat_id
                         (MsgTopResults
                            (List.map (fun e => (en_title e, en_duration e))
                               (candidates entries))) true])%list
                /\ user_states w2 = user_states w
                /\ temp_dir w2 = temp_dir w
                /\ process_music_search env chat_id text w
                   = try_except (dispatch_first env chat_id first_result)
                       (search_failed env chat_id) w2
          end.
Proof.
  intros Hok Hlen Hsearch Hnull query.
  pose proof (select_entries_candidates entries Hnull) as Hsel.
  split; [assumption|].
  split; [unfold candidates; rewrite length_firstn; lia|].
  destruct (bot_send_message_ok env chat_id (MsgSearchingFor query) w Hok)
    as (wa & Ha & Hta & Hua & Hda).
  destruct (engine_search_run env ("ytsearch3:" ++ query) wa)
    as (w1 & H1 & Ht1 & Hu1 & Hd1).
  assert (Hidx : count_calls is_search (trace wa)
                 = count_calls is_search (trace w)).
  { rewrite Hta, count_calls_app. unfold count_calls. simpl. lia. }
  rewrite Hidx, Hsearch in H1.
  exists w1. split; [rewrite Ht1, Hta, <- app_assoc; reflexivity|].
  split; [congruence|]. split; [congruence|].
  assert (Hrun : process_music_search env chat_id text w
                 = try_except (search_body env chat_id query)
                     (search_failed env chat_id) w).
  { unfold process_music_search.
    apply Nat.ltb_ge in Hlen. rewrite Hlen. reflexivity. }
  assert (Hbody : forall k : SearchOutcome -> M unit,
            (bot_send_message env chat_id (MsgSearchingFor query) ;;;
             o <- engine_search env ("ytsearch3:" ++ query) ;; k o) w
            = k (SearchInfo (Val entries)) w1).
  { intros k. unfold bind at 1. rewrite Ha. unfold bind at 1. rewrite H1.
    reflexivity. }
  destruct (candidates entries) as [|first_result others] eqn:Hc.
  - destruct entries as [|e0 rest].
    + destruct (bot_send_message_ok env chat_id MsgNoResultsFound w1 Hok)
        as (wb & Hb & Htb & Hub & Hdb).
      destruct (show_main_menu_ok env chat_id wb Hok)
        as (wc & Hcm & Htc & Huc & Hdc).
      exists MsgNoResultsFound, wc. split; [left; reflexivity|].
      split.
      * rewrite Hrun. unfold try_except, search_body. rewrite Hbody.
        unfold bind. rewrite Hb, Hcm. reflexivity.
      * rewrite Htc, Htb, <- app_assoc. split; [reflexivity|].
        split; congruence.
    + destruct (bot_send_message_ok env chat_id MsgNoValidResultsFound w1 Hok)
        as (wb & Hb & Htb & Hub & Hdb).
      destruct (show_main_menu_ok env chat_id wb Hok)
        as (wc & Hcm & Htc & Huc & Hdc).
      exists MsgNoValidResultsFound, wc. split; [right; reflexivity|].
      split.
      * rewrite Hrun. unfold try_except, search_body. rewrite Hbody.
        unfold bind at 1, lift_result. rewrite Hsel.
        unfold bind. rewrite Hb, Hcm. reflexivity.
      * rewrite Htc, Htb, <- app_assoc. split; [reflexivity|].
        split; congruence.
  - destruct entries as [|e0 rest]; [discriminate Hc|].
    destruct (bot_send_message_ok env chat_id
                (MsgTopResults
                   (List.map (fun e => (en_title e, en_duration e))
                      (first_result :: others))) w1 Hok)
      as (wb & Hb & Htb & Hub & Hdb).
    exists wb. split; [assumption|]. split; [congruence|].
    split; [congruence|].
    rewrite Hrun. unfold try_except at 1, search_body. rewrite Hbody.
    unfold bind at 1, lift_result. rewrite Hsel.
    unfold bind at 1. rewrite Hb. reflexivity.
Qed.

Lemma process_music_search_spec_witness :
  transport_ok Scenario.env_untimed
  /\ (2 <= String.length (strip "a song"))%nat
  /\ sr_outcome (search Scenario.env_untimed
                   (count_calls is_search (trace Scenario.processing)))
     = SearchInfo (Val [Some Scenario.untimed])
  /\ no_null_duration [Some Scenario.untimed]
  /\ select_entries [Some Scenario.untimed]
     = Ok (candidates [Some Scenario.untimed])
  /\ (length (candidates [Some Scenario.untimed]) <= 3)%nat.
Proof.
  assert (H1 : transport_ok Scenario.env_untimed) by (intros n; reflexivity).
  assert (H2 : (2 <= String.length (strip "a song"))%nat)
    by (vm_compute; lia).
  assert (H4 : no_null_duration [Some Scenario.untimed])
    by (repeat constructor; discriminate).
  pose proof (process_music_search_spec Scenario.env_untimed Scenario.chat
                "a song" Scenario.processing [Some Scenario.untimed]
                H1 H2 eq_refl H4) as (Hsel & Hlen & _).
  repeat split; try assumption.
Defined.

(** ** What the download returns, and what the handler leaves behind *)

Lemma attempt_body_returns_large (env : Env) (chat_id : Z) (url : pyval)
    (download_type quality : string) (ts : Z) (w w' : World)
    (info : Info) (file_path : string) :
  attempt_body env chat_id url download_type quality ts w
  = (Ok (info, file_path), w') ->
  exists f, temp_dir w' !! file_path = Some f /\ (1024 < f_size f)%Z.
Proof.
  unfold attempt_body, bind.
  destruct (probe_step _ _ _ _ _ w) as [[i|e] w1]; [|discriminate].
  destruct (engine_fetch _ _ _ _ _ _ w1) as [[[]|e] w2]; [|discriminate].
  destruct (time_sleep 2 w2) as [[[]|e] w3] eqn:Es; [|discriminate].
  unfold get_world.
  pose proof (verify_files_scan (discover ts (temp_dir w3)) (temp_dir w3))
    as Hscan.
  destruct (verify_files _ _) as [[p|] fs]; simpl; [|discriminate].
  intros [= <- <- <-]. simpl.
  destruct Hscan as (pre & post & f & _ & _ & Hbig & Hp & _). eauto.
Qed.

Lemma iteration_return (env : Env) (chat_id : Z) (url : pyval)
    (download_type quality : string) (attempt : nat) (ts ts' : option Z)
    (w w' : World) (r : Info * string) :
  iteration env chat_id url download_type quality attempt ts w
  = ((FReturn r, ts'), w') ->
  exists t w1,
    attempt_body env chat_id url download_type quality t w1 = (Ok r, w').
Proof.
  unfold iteration.
  destruct (notify_attempt env chat_id attempt w) as [[[]|e] w1].
  - destruct (attempt_body _ _ _ _ _ _ w1) as [[v|e] w2] eqn:Eb.
    + intros [= <- <- <-]. eauto.
    + destruct (@on_error_flow (Info * string) attempt
                  (Some (int_time w1)) e w2) as (fl & Hfl & Hnr).
      destruct (on_error _ _ _ w2) as [[fl'|e'] w3]; simpl in Hfl;
        [|discriminate].
      injection Hfl as ->. intros [= -> _ _]. exfalso. eapply Hnr. reflexivity.
  - destruct (@on_error_flow (Info * string) attempt ts e w1)
      as (fl & Hfl & Hnr).
    destruct (on_error _ _ _ w1) as [[fl'|e'] w3]; simpl in Hfl;
      [|discriminate].
    injection Hfl as ->. intros [= -> _ _]. exfalso. eapply Hnr. reflexivity.
Qed.

(** The file that [download_media] returns is in the directory and is
    larger than 1024 bytes: nothing smaller reaches delivery. *)
Lemma download_media_returns_large (env : Env) (chat_id : Z) (url : pyval)
    (download_type quality : string) (w w' : World) (info : Info)
    (file_path : string) :
  download_media env chat_id url download_type quality w
  = (Ok (info, file_path), w') ->
  exists f, temp_dir w' !! file_path = Some f /\ (1024 < f_size f)%Z.
Proof.
  unfold download_media. generalize (seq 0 max_retries) (@None Z).
  intros todo. revert w. induction todo as [|attempt rest IH];
    intros w ts; simpl; [discriminate|].
  destruct (iteration _ _ _ _ _ _ _ w) as [[[r| |e] ts'] w1] eqn:Ei.
  - intros [= -> <-]. apply iteration_return in Ei as (t & w0 & Hb).
    eapply attempt_body_returns_large; eauto.
  - apply IH.
  - discriminate.
Qed.

Lemma show_main_menu_run (env : Env) (chat_id : Z) (w : World) :
  exists ok w',
    show_main_menu env chat_id w = (Ok tt, w')
    /\ trace w' = (trace w ++ [EvSendMessage chat_id MsgMainMenu ok])%list
    /\ user_states w'
       = if ok : bool then <[chat_id := "main"]> (user_states w)
         else user_states w.
Proof.
  cbv [show_main_menu try_except bind bot_send_message transport_call
       get_world].
  destruct (tr_error (transport env
              (count_calls is_transport_call (trace w)))).
  - exists false. eexists. split; [reflexivity|]. simpl. auto.
  - exists true. eexists. split; [reflexivity|]. simpl. auto.
Qed.

(** The last thing the handler does is to send the menu; when that send
    goes through, the requester is back in the state 'main'. *)
Lemma handle_download_process_resets_when_menu_sent (env : Env) (chat_id : Z)
    (url : pyval) (download_type quality : string) (w : World) :
  let r := handle_download_process env chat_id url download_type quality w in
  exists ok,
    last (trace r.2) = Some (EvSendMessage chat_id MsgMainMenu ok)
    /\ (ok = true -> user_states r.2 !! chat_id = Some "main").
Proof.
  cbv zeta. unfold handle_download_process, try_finally.
  destruct (try_except _ _ w) as [r w1].
  destruct (show_main_menu_run env chat_id w1) as (ok & w2 & -> & Ht & Hu).
  exists ok. simpl. rewrite Ht, last_snoc. split; [reflexivity|].
  intros ->. rewrite Hu. apply lookup_insert_eq.
Qed.

(** ** A probe that keeps failing *)

Lemma notify_attempt_ok (env : Env) (chat_id : Z) (attempt : nat) (w : World) :
  transport_ok env ->
  exists m w1,
    notify_attempt env chat_id attempt w = (Ok tt, w1)
    /\ trace w1 = (trace w ++ [EvSendMessage chat_id m true])%list
    /\ temp_dir w1 = temp_dir w.
Proof.
  intros Hok. unfold notify_attempt.
  destruct (0 <? attempt)%nat;
    [destruct (bot_send_message_ok env chat_id
                 (MsgRetryAttempt (attempt + 1) max_retries) w Hok)
       as (w1 & H & Ht & _ & Hd)
    |destruct (bot_send_message_ok env chat_id MsgStartingDownloadProcess
                 w Hok) as (w1 & H & Ht & _ & Hd)];
    eauto 10.
Qed.

Lemma probe_step_fails (env : Env) (chat_id : Z) (url : pyval)
    (format : string) (ts : Z) (e : exn) (w : World) :
  pr_outcome (probe env (count_calls is_probe (trace w))) = ProbeError e ->
  exists w',
    probe_step env chat_id url format ts w
    = (Raise (PyException ("Cannot access video: " ++ str_of_exn e)), w')
    /\ trace w' = (trace w ++ [EvProbe url format ts])%list
    /\ temp_dir w' = temp_dir w.
Proof.
  intros He. cbv [probe_step try_except bind engine_probe get_world].
  simpl. rewrite He. eexists. split; [reflexivity|]. simpl. auto.
Qed.

(** One pass of the loop when the probe raises: the message, the probe,
    and then either the pause before the next attempt or, at the last
    attempt, the exception of the pre-flight block. *)
Lemma iteration_probe_fails (env : Env) (chat_id : Z) (url : pyval)
    (download_type quality : string) (attempt : nat) (ts0 : option Z)
    (w : World) :
  transport_ok env ->
  (forall n, exists e, pr_outcome (probe env n) = ProbeError e) ->
  exists m ts e w',
    let format := ydl_format env download_type quality in
    let failure :=
      PyException ("Cannot access video: " ++ str_of_exn e) in
    iteration env chat_id url download_type quality attempt ts0 w
    = ((if (attempt <? max_retries - 1)%nat then FContinue
        else FRaise failure, Some ts), w')
    /\ trace w'
       = (trace w
          ++ [EvSendMessage chat_id m true; EvProbe url format ts]
          ++ (if (attempt <? max_retries - 1)%nat then [EvSleep 3] else []))%list.
Proof.
  intros Hok Hprobe. unfold iteration.
  destruct (notify_attempt_ok env chat_id attempt w Hok)
    as (m & w1 & -> & Ht1 & Hd1).
  destruct (Hprobe (count_calls is_probe (trace w1))) as [e He].
  destruct (probe_step_fails env chat_id url
              (ydl_format env download_type quality) (int_time w1) e w1 He)
    as (w2 & Hp & Ht2 & Hd2).
  exists m, (int_time w1), e.
  unfold attempt_body, bind at 1. rewrite Hp.
  cbv [on_error on_exception bind purge_partial set_temp_dir].
  destruct (attempt <? max_retries - 1)%nat; eexists;
    (split; [reflexivity|]); simpl; rewrite Ht2, Ht1, <- ?app_assoc;
    reflexivity.
Qed.

(** Whatever error the probe raises, an access denial included, and
    whatever the profile: with a transport that answers, a call whose
    probes all fail makes three probes, no fetch, and ends with the
    exception of the pre-flight block. *)
Lemma download_media_probe_fails (env : Env) (chat_id : Z) (url : pyval)
    (download_type quality : string) (w : World) :
  transport_ok env ->
  (forall n, exists e, pr_outcome (probe env n) = ProbeError e) ->
  let r := download_media env chat_id url download_type quality w in
  (exists e,
     r.1 = Raise (PyException ("Cannot access video: " ++ str_of_exn e)))
  /\ count_calls is_probe (trace r.2)
     = (count_calls is_probe (trace w) + 3)%nat
  /\ count_calls is_fetch (trace r.2) = count_calls is_fetch (trace w).
Proof.
  intros Hok Hprobe. cbv zeta. unfold download_media. simpl.
  destruct (iteration_probe_fails env chat_id url download_type quality 0
              None w Hok Hprobe) as (m0 & t0 & e0 & w1 & -> & Ht1).
  simpl in Ht1 |- *.
  destruct (iteration_probe_fails env chat_id url download_type quality 1
              (Some t0) w1 Hok Hprobe) as (m1 & t1 & e1 & w2 & -> & Ht2).
  simpl in Ht2 |- *.
  destruct (iteration_probe_fails env chat_id url download_type quality 2
              (Some t1) w2 Hok Hprobe) as (m2 & t2 & e2 & w3 & -> & Ht3).
  simpl in Ht3 |- *.
  split; [eauto|].
  rewrite Ht3, Ht2, Ht1, !count_calls_app. unfold count_calls. simpl.
  split; lia.
Qed.

(** * Further properties of the source

    ** sanitize_filename and is_supported_url *)

Lemma collapse_plain (b : bool) (s : string) :
  all_chars plain_space_or_other (collapse_ws b s) = true.
Proof.
  revert b. induction s as [|c r IH]; intros b; simpl; [reflexivity|].
  destruct (is_space c) eqn:E.
  - destruct b; [apply IH|]. simpl. apply IH.
  - simpl. unfold plain_space_or_other at 1. rewrite E. simpl. apply IH.
Qed.

Lemma lstrip_start (s : string) : starts_with_space (lstrip s) = false.
Proof.
  induction s as [|c r IH]; simpl; [reflexivity|].
  destruct (is_space c) eqn:E; [assumption|]. simpl. assumption.
Qed.

Lemma rstrip_end (s : string) : ends_with_space (rstrip s) = false.
Proof.
  induction s as [|c r IH]; [reflexivity|]. cbn [rstrip].
  destruct (rstrip r) as [|d r'] eqn:E.
  - destruct (is_space c) eqn:Ec; [reflexivity|]. simpl. assumption.
  - cbn [ends_with_space]. exact IH.
Qed.

Lemma lstrip_id (s : string) : starts_with_space s = false -> lstrip s = s.
Proof. destruct s as [|c r]; simpl; [reflexivity|]. intros ->. reflexivity. Qed.

Lemma strip_idem (s : string) : strip (strip s) = strip s.
Proof.
  unfold strip.
  rewrite (lstrip_id (rstrip (lstrip s)))
    by (apply rstrip_start, lstrip_start).
  apply rstrip_idem.
Qed.

Lemma length_take_exact (n : nat) (s : string) :
  (n <= String.length s)%nat -> String.length (str_take n s) = n.
Proof.
  revert s. induction n as [|n IH]; intros [|c r]; simpl; try lia.
  intros H. rewrite IH; lia.
Qed.

Lemma filter_chars_id (p : ascii -> bool) (s : string) :
  all_chars p s = true -> filter_chars p s = s.
Proof.
  induction s as [|c r IH]; simpl; [reflexivity|].
  intros [Hc Hr]%andb_true_iff. rewrite Hc, IH; auto.
Qed.

Lemma collapse_id (b : bool) (s : string) :
  all_chars plain_space_or_other s = true ->
  has_ws_run s = false ->
  (b = true -> starts_with_space s = false) ->
  collapse_ws b s = s.
Proof.
  revert b. induction s as [|c r IH]; intros b Hp Hrun Hb; [reflexivity|].
  rewrite has_ws_run_cons in Hrun. apply orb_false_iff in Hrun as [H1 H2].
  simpl in Hp. apply andb_true_iff in Hp as [Hc Hr].
  cbn [collapse_ws]. destruct (is_space c) eqn:E.
  - simpl in H1. destruct b; [specialize (Hb eq_refl); simpl in Hb; congruence|].
    unfold plain_space_or_other in Hc. rewrite E in Hc. simpl in Hc.
    apply Ascii.eqb_eq in Hc. subst c. f_equal. apply IH; auto.
  - f_equal. apply IH; auto. discriminate.
Qed.

(** The cleaned name before the cut at 100 characters. *)
Lemma sanitize_cleaned_shape (s : string) :
  let cleaned :=
    strip (collapse_ws false
             (filter_chars (fun c => negb (is_forbidden c)) s)) in
  starts_with_space cleaned = false
  /\ ends_with_space cleaned = false
  /\ all_chars plain_space_or_other cleaned = true.
Proof.
  cbv zeta. unfold strip. repeat split.
  - apply rstrip_start, lstrip_start.
  - apply rstrip_end.
  - apply all_chars_rstrip, all_chars_lstrip, collapse_plain.
Qed.

Lemma sanitize_filename_cases (filename : pyval) :
  sanitize_filename filename = media_file
  \/ exists s,
       let cleaned :=
         strip (collapse_ws false
                  (filter_chars (fun c => negb (is_forbidden c)) s)) in
       cleaned <> EmptyString
       /\ ((String.length cleaned <= 100)%nat
           /\ sanitize_filename filename = cleaned
           \/ (100 < String.length cleaned)%nat
              /\ sanitize_filename filename = str_take 100 cleaned).
Proof.
  destruct filename as [|[|c0 s0]]; [left; reflexivity..|].
  unfold sanitize_filename. set (s := String c0 s0).
  set (cleaned := strip _).
  destruct (100 <? String.length cleaned)%nat eqn:E.
  - apply Nat.ltb_lt in E. right. exists s. fold cleaned. cbv zeta.
    assert (Hne : cleaned <> EmptyString)
      by (intros H; rewrite H in E; simpl in E; lia).
    split; [assumption|]. right. split; [assumption|].
    destruct cleaned as [|c r]; [congruence|]. reflexivity.
  - apply Nat.ltb_ge in E. destruct cleaned as [|c r] eqn:Ec.
    + left. reflexivity.
    + right. exists s. fold cleaned. rewrite Ec. cbv zeta.
      split; [discriminate|]. left. split; [assumption|reflexivity].
Qed.

(** X1. Whatever the input, the name that [sanitize_filename] returns
    does not start with whitespace, and the only whitespace it contains
    is the plain space: tabs, line breaks and the like have been folded.
    When the name is shorter than 100 characters it does not end with
    whitespace either; a name cut at 100 characters may. *)
Theorem sanitize_filename_shape (filename : pyval) :
  let r := sanitize_filename filename in
  starts_with_space r = false
  /\ all_chars plain_space_or_other r = true
  /\ ((String.length r < 100)%nat -> ends_with_space r = false).
Proof.
  cbv zeta. destruct (sanitize_filename_cases filename) as [->|(s & H)].
  { repeat split; reflexivity. }
  cbv zeta in H. pose proof (sanitize_cleaned_shape s) as (Hs & He & Hp).
  cbv zeta in Hs, He, Hp. set (cleaned := strip _) in *.
  destruct H as (Hne & [[Hlen ->]|[Hlen ->]]).
  - repeat split; auto.
  - split; [apply take_start; assumption|].
    split; [apply all_chars_take; assumption|].
    rewrite length_take_exact by lia. lia.
Qed.

Lemma sanitize_filename_shape_witness :
  (String.length (sanitize_filename (PyStr "  a  b<>  c  ")) < 100)%nat
  /\ ends_with_space (sanitize_filename (PyStr "  a  b<>  c  ")) = false.
Proof.
  assert (H : (String.length (sanitize_filename (PyStr "  a  b<>  c  "))
               < 100)%nat) by (vm_compute; lia).
  split; [exact H|].
  exact (proj2 (proj2 (sanitize_filename_shape (PyStr "  a  b<>  c  "))) H).
Defined.

(** X2. A name shorter than 100 characters is a fixed point: cleaning
    it again changes nothing. *)
Theorem sanitize_filename_idempotent (filename : pyval) :
  (String.length (sanitize_filename filename) < 100)%nat ->
  sanitize_filename (PyStr (sanitize_filename filename))
  = sanitize_filename filename.
Proof.
  destruct (sanitize_filename_cases filename) as [->|(s & H)];
    [reflexivity|].
  cbv zeta in H. pose proof (sanitize_cleaned_shape s) as (Hs & He & Hp).
  pose proof (sanitize_cleaned_props s) as (Hf & Hr).
  cbv zeta in Hs, He, Hp, Hf, Hr. set (cleaned := strip _) in *.
  destruct H as (Hne & [[Hlen ->]|[Hlen ->]]).
  - intros _.
    assert (Hst : strip cleaned = cleaned) by apply strip_idem.
    clearbody cleaned. destruct cleaned as [|c r]; [congruence|].
    set (t := String c r) in *.
    change (sanitize_filename (PyStr t))
      with (let f := filter_chars (fun c => negb (is_forbidden c)) t in
            let f := strip (collapse_ws false f) in
            let f := if (100 <? String.length f)%nat then str_take 100 f
                     else f in
            match f with EmptyString => media_file | _ => f end).
    cbv zeta. rewrite (filter_chars_id _ _ Hf).
    rewrite (collapse_id false t Hp Hr) by discriminate.
    rewrite Hst.
    replace (100 <? String.length t)%nat with false
      by (symmetry; apply Nat.ltb_ge; assumption).
    reflexivity.
  - rewrite length_take_exact by lia. lia.
Qed.

Lemma sanitize_filename_idempotent_witness :
  (String.length (sanitize_filename (PyStr " My: <Song>  (live) ")) < 100)%nat
  /\ sanitize_filename
       (PyStr (sanitize_filename (PyStr " My: <Song>  (live) ")))
     = sanitize_filename (PyStr " My: <Song>  (live) ").
Proof.
  assert (H : (String.length
                 (sanitize_filename (PyStr " My: <Song>  (live) ")) < 100)%nat)
    by (vm_compute; lia).
  split; [exact H|].
  exact (sanitize_filename_idempotent (PyStr " My: <Song>  (live) ") H).
Defined.

(** X3. [is_supported_url] does not see the whitespace around its
    argument: a text and its stripped form get the same verdict. *)
Theorem is_supported_url_strip (lib : UrlLib) (raw : string) :
  is_supported_url lib (PyStr (strip raw)) = is_supported_url lib (PyStr raw).
Proof.
  unfold is_supported_url, is_supported_url_body.
  rewrite strip_idem. reflexivity.
Qed.

(** ** format_duration *)

Lemma pretty_N_char_digit (x : N) : is_digit (pretty_N_char x) = true.
Proof.
  destruct x as [|p]; [reflexivity|].
  do 4 (try destruct p as [p|p|]); reflexivity.
Qed.

Lemma pretty_N_go_digits (x : N) (s : string) :
  all_chars is_digit s = true -> all_chars is_digit (pretty_N_go x s) = true.
Proof.
  revert s. induction (N.lt_wf_0 x) as [x _ IH]; intros s Hs.
  destruct (decide (x = 0)%N) as [->|Hx]; [rewrite pretty_N_go_0; assumption|].
  rewrite pretty_N_go_step by lia. apply IH.
  - apply N.div_lt; lia.
  - simpl. rewrite pretty_N_char_digit. assumption.
Qed.

Lemma pretty_Z_digits (z : Z) :
  (0 <= z)%Z -> all_chars is_digit (pretty z) = true.
Proof.
  intros Hz. destruct z as [|p|p]; [reflexivity| |lia].
  unfold pretty, pretty_Z, pretty, pretty_positive, pretty, pretty_N.
  destruct (decide (N.pos p = 0)%N); [reflexivity|].
  apply pretty_N_go_digits. reflexivity.
Qed.

Lemma digits_colon_split (a a' b b' : string) :
  all_chars is_digit a = true -> all_chars is_digit a' = true ->
  a ++ String ":" b = a' ++ String ":" b' -> a = a' /\ b = b'.
Proof.
  revert a'. induction a as [|c r IH]; intros [|c' r'] Ha Ha' H; simpl in *.
  - injection H as <-. auto.
  - injection H as <- _. apply andb_true_iff in Ha' as [Hc _]. discriminate.
  - injection H as -> _. apply andb_true_iff in Ha as [Hc _]. discriminate.
  - injection H as -> H. apply andb_true_iff in Ha as [_ Ha].
    apply andb_true_iff in Ha' as [_ Ha'].
    destruct (IH r' Ha Ha' H) as [-> ->]. auto.
Qed.

(** Below 60 the padded form is exactly two digits that read back as the
    number. *)
Lemma pad2_value (n : Z) :
  (0 <= n < 60)%Z -> two_digits_value (pad2 n) = Some n.
Proof.
  intros Hn.
  assert (Hall : forallb (fun k => match two_digits_value (pad2 (Z.of_nat k))
                                   with
                                   | Some v => (v =? Z.of_nat k)%Z
                                   | None => false
                                   end) (seq 0 60) = true)
    by (vm_compute; reflexivity).
  rewrite forallb_forall in Hall.
  specialize (Hall (Z.to_nat n)).
  rewrite Z2Nat.id in Hall by lia.
  assert (Hin : In (Z.to_nat n) (seq 0 60)) by (apply in_seq; lia).
  specialize (Hall Hin).
  destruct (two_digits_value (pad2 n)) as [v|]; [|discriminate].
  apply Z.eqb_eq in Hall. congruence.
Qed.

Lemma pad2_shape (n : Z) :
  (0 <= n < 60)%Z ->
  exists d1 d2,
    pad2 n = String d1 (String d2 EmptyString)
    /\ is_digit d1 = true /\ is_digit d2 = true.
Proof.
  intros Hn. pose proof (pad2_value n Hn) as H.
  unfold two_digits_value in H.
  destruct (pad2 n) as [|d1 [|d2 [|]]]; try discriminate.
  destruct (is_digit d1) eqn:E1, (is_digit d2) eqn:E2; try discriminate.
  eauto.
Qed.

Lemma pad2_inj (a b : Z) :
  (0 <= a < 60)%Z -> (0 <= b < 60)%Z -> pad2 a = pad2 b -> a = b.
Proof.
  intros Ha Hb H. pose proof (pad2_value a Ha) as Va.
  rewrite H, (pad2_value b Hb) in Va. congruence.
Qed.

Lemma format_duration_whole (int_of_text : string -> option Z)
    (seconds : duration_value) (n : Z) :
  py_int int_of_text seconds = Some n ->
  format_duration int_of_text seconds
  = format_duration int_of_text (DurNumber (PyInt n)).
Proof. intros H. unfold format_duration. rewrite H. reflexivity. Qed.

Lemma format_duration_int_inj (int_of_text : string -> option Z) (a b : Z) :
  (0 <= a)%Z -> (0 <= b)%Z ->
  format_duration int_of_text (DurNumber (PyInt a))
  = format_duration int_of_text (DurNumber (PyInt b)) ->
  a = b.
Proof.
  intros Ha Hb. unfold format_duration. cbn [py_int].
  set (ha := (a / 3600)%Z). set (ma := ((a mod 3600) / 60)%Z).
  set (sa := (a mod 60)%Z).
  set (hb := (b / 3600)%Z). set (mb := ((b mod 3600) / 60)%Z).
  set (sb := (b mod 60)%Z).
  assert (Hra : (0 <= ha /\ 0 <= ma < 60 /\ 0 <= sa < 60
                 /\ a = 3600 * ha + 60 * ma + sa)%Z)
    by (subst ha ma sa; Z.to_euclidean_division_equations; lia).
  assert (Hrb : (0 <= hb /\ 0 <= mb < 60 /\ 0 <= sb < 60
                 /\ b = 3600 * hb + 60 * mb + sb)%Z)
    by (subst hb mb sb; Z.to_euclidean_division_equations; lia).
  destruct Hra as (Hha & Hma & Hsa & Ea). destruct Hrb as (Hhb & Hmb & Hsb & Eb).
  clearbody ha ma sa hb mb sb.
  destruct (pad2_shape ma Hma) as (x1 & x2 & Pma & Dx1 & Dx2).
  destruct (pad2_shape mb Hmb) as (y1 & y2 & Pmb & Dy1 & Dy2).
  destruct (pad2_shape sa Hsa) as (u1 & u2 & Psa & Du1 & Du2).
  destruct (pad2_shape sb Hsb) as (v1 & v2 & Psb & Dv1 & Dv2).
  destruct (0 <? ha)%Z eqn:Ca, (0 <? hb)%Z eqn:Cb; intros H.
  - apply digits_colon_split in H as [Hh H];
      try (apply pretty_Z_digits; lia).
    apply (inj pretty) in Hh.
    apply digits_colon_split in H as [Hm Hs];
      try (rewrite ?Pma, ?Pmb; simpl; rewrite ?Dx1, ?Dx2, ?Dy1, ?Dy2;
           reflexivity).
    apply pad2_inj in Hm; [|assumption..].
    apply pad2_inj in Hs; [|assumption..]. lia.
  - apply digits_colon_split in H as [_ H];
      try (apply pretty_Z_digits; lia).
    rewrite Pma, Psa, Psb in H. discriminate H.
  - apply digits_colon_split in H as [_ H];
      try (apply pretty_Z_digits; lia).
    rewrite Pmb, Psa, Psb in H. discriminate H.
  - apply Z.ltb_ge in Ca, Cb.
    apply digits_colon_split in H as [Hm Hs];
      try (apply pretty_Z_digits; lia).
    apply (inj pretty) in Hm.
    apply pad2_inj in Hs; [|assumption..]. lia.
Qed.

(** X4. The text depends on the whole seconds only, and on them
    faithfully: two values that [int] turns into whole numbers of zero
    seconds or more are shown as the same text only when these whole
    numbers are equal.  The fraction of a float is cut off before, so
    1 and 1.5 are both shown as 0:01. *)
Theorem format_duration_inj (int_of_text : string -> option Z)
    (v1 v2 : duration_value) (a b : Z) :
  py_int int_of_text v1 = Some a ->
  py_int int_of_text v2 = Some b ->
  (0 <= a)%Z -> (0 <= b)%Z ->
  format_duration int_of_text v1 = format_duration int_of_text v2 ->
  a = b.
Proof.
  intros H1 H2 Ha Hb H.
  rewrite (format_duration_whole _ _ _ H1),
    (format_duration_whole _ _ _ H2) in H.
  eapply format_duration_int_inj; eassumption.
Qed.

Lemma format_duration_inj_witness :
  py_int (fun _ => None) (DurNumber (PyFloat 1.5)) = Some 1%Z
  /\ py_int (fun _ => None) (DurNumber (PyInt 1)) = Some 1%Z
  /\ format_duration (fun _ => None) (DurNumber (PyFloat 1.5))
     = format_duration (fun _ => None) (DurNumber (PyInt 1))
  /\ 1%Z = 1%Z.
Proof.
  assert (H1 : py_int (fun _ => None) (DurNumber (PyFloat 1.5)) = Some 1%Z)
    by reflexivity.
  assert (H2 : py_int (fun _ => None) (DurNumber (PyInt 1)) = Some 1%Z)
    by reflexivity.
  assert (H : format_duration (fun _ => None) (DurNumber (PyFloat 1.5))
              = format_duration (fun _ => None) (DurNumber (PyInt 1)))
    by reflexivity.
  assert (H0 : (0 <= 1)%Z) by lia.
  split; [exact H1|]. split; [exact H2|]. split; [exact H|].
  exact (format_duration_inj (fun _ => None) _ _ 1 1 H1 H2 H0 H0 H).
Defined.

(** X5. Below zero the hours are dropped: a value that [int] turns into
    a negative whole number of seconds is shown as the time below one
    hour that this number is congruent to, so that -1 reads as 59:59.
    [int] cuts towards zero, so -0.5 is not negative for this purpose
    and reads as 0:00. *)
Theorem format_duration_negative (int_of_text : string -> option Z)
    (v : duration_value) (s : Z) :
  py_int int_of_text v = Some s ->
  (s < 0)%Z ->
  format_duration int_of_text v
  = format_duration int_of_text (DurNumber (PyInt (s mod 3600))).
Proof.
  intros Hv Hs. rewrite (format_duration_whole _ _ _ Hv).
  unfold format_duration. cbn [py_int].
  replace (0 <? s / 3600)%Z with false
    by (symmetry; apply Z.ltb_ge; Z.to_euclidean_division_equations; lia).
  replace (0 <? s mod 3600 / 3600)%Z with false
    by (symmetry; apply Z.ltb_ge; Z.to_euclidean_division_equations; lia).
  replace ((s mod 3600) mod 3600)%Z with (s mod 3600)%Z
    by (Z.to_euclidean_division_equations; lia).
  replace ((s mod 3600) mod 60)%Z with (s mod 60)%Z
    by (Z.to_euclidean_division_equations; lia).
  reflexivity.
Qed.

Lemma format_duration_negative_witness :
  py_int (fun _ => None) (DurNumber (PyFloat (-1.5))) = Some (-1)%Z
  /\ (-1 < 0)%Z
  /\ format_duration (fun _ => None) (DurNumber (PyFloat (-1.5)))
     = format_duration (fun _ => None) (DurNumber (PyInt (-1 mod 3600))).
Proof.
  assert (H1 : py_int (fun _ => None) (DurNumber (PyFloat (-1.5)))
               = Some (-1)%Z) by reflexivity.
  assert (H : (-1 < 0)%Z) by lia.
  split; [exact H1|]. split; [exact H|].
  exact (format_duration_negative (fun _ => None) _ (-1) H1 H).
Defined.

Example format_duration_examples (int_of_text : string -> option Z) :
  format_duration int_of_text (DurNumber (PyInt 0)) = "0:00"
  /\ format_duration int_of_text (DurNumber (PyInt 75)) = "1:15"
  /\ format_duration int_of_text (DurNumber (PyInt 3725)) = "1:02:05"
  /\ format_duration int_of_text (DurNumber (PyInt (-1))) = "59:59"
  /\ format_duration int_of_text (DurNumber (PyFloat 1.5)) = "0:01"
  /\ format_duration int_of_text (DurNumber (PyFloat (-0.5))) = "0:00"
  /\ format_duration int_of_text (DurNumber (PyFloat 3599.5)) = "59:59"
  /\ format_duration int_of_text (DurNumber (PyFloat PrimFloat.nan))
     = "Unknown"
  /\ format_duration int_of_text (DurNumber (PyFloat PrimFloat.infinity))
     = "Unknown"
  /\ format_duration int_of_text DurNone = "Unknown".
Proof. repeat split; reflexivity. Qed.

(** ** CleanupManager.cleanup_old_files *)

Lemma sweep_keeps (m : pynumber) (t : float) (names : list string) (fs : gmap string File)
    (d : nat) (q : string) (f : File) :
  fs !! q = Some f ->
  f_isfile f && older_than m t f = false ->
  (sweep m t names fs d).1 !! q = Some f.
Proof.
  revert fs d. induction names as [|h rest IH]; intros fs d Hq Hc; simpl;
    [assumption|].
  destruct (fs !! h) as [g|] eqn:E; [|apply IH; assumption].
  destruct (f_isfile g && older_than m t g) eqn:C; [|apply IH; assumption].
  apply IH; [|assumption].
  rewrite lookup_delete_ne; [assumption|]. intros ->. congruence.
Qed.

Lemma sweep_size (m : pynumber) (t : float) (names : list string) (fs : gmap string File)
    (d : nat) :
  let r := sweep m t names fs d in
  (size r.1 + r.2 = size fs + d)%nat.
Proof.
  cbv zeta. revert fs d. induction names as [|h rest IH]; intros fs d; simpl;
    [reflexivity|].
  destruct (fs !! h) as [g|] eqn:E; [|apply IH].
  destruct (f_isfile g && older_than m t g); [|apply IH].
  rewrite IH, map_size_delete, E. simpl.
  assert (size fs <> 0%nat)
    by (apply map_size_non_empty_iff; intros ->;
        rewrite lookup_empty in E; discriminate).
  lia.
Qed.

Lemma sweep_lookup (m : pynumber) (t : float) (fs : gmap string File) (name : string) :
  (sweep m t (listdir fs) fs 0).1 !! name
  = match fs !! name with
    | Some f => if f_isfile f && older_than m t f then None else Some f
    | None => None
    end.
Proof.
  set (fs' := (sweep m t (listdir fs) fs 0).1).
  assert (Hfs : fs' = (sweep m t (listdir fs) fs 0).1) by reflexivity.
  clearbody fs'.
  destruct (fs !! name) as [f|] eqn:En.
  - destruct (f_isfile f && older_than m t f) eqn:C.
    + destruct (fs' !! name) as [g|] eqn:Eg; [|reflexivity].
      rewrite Hfs in Eg. pose proof Eg as Eg'. apply sweep_sub in Eg'.
      apply sweep_old_gone in Eg; [|eapply elem_of_listdir; eauto].
      congruence.
    + rewrite Hfs. apply sweep_keeps; assumption.
  - destruct (fs' !! name) as [g|] eqn:Eg; [|reflexivity].
    rewrite Hfs in Eg. apply sweep_sub in Eg. congruence.
Qed.

Lemma cleanup_old_files_temp_dir (max_age_minutes : pynumber) (w : World) :
  temp_dir (cleanup_old_files max_age_minutes w).2
  = (sweep max_age_minutes (seconds_of_ms (clock w)) (listdir (temp_dir w))
       (temp_dir w) 0).1.
Proof.
  unfold cleanup_old_files, bind, get_world, set_temp_dir, ret.
  destruct (sweep _ _ _ _ _) as [fs' d]. reflexivity.
Qed.

(** X6. One run of the sweep never raises and removes exactly the
    regular files whose age, computed in binary64 from the reading of
    the clock taken when the sweep starts, is greater than the
    threshold: a directory is never removed, a file whose age is not
    greater stays as it is, and the sweep neither touches the
    conversation map nor calls the transport or the engine. *)
Theorem cleanup_old_files_effect (max_age_minutes : pynumber) (w : World)
    (name : string) :
  let '(r, w') := cleanup_old_files max_age_minutes w in
  (exists n, r = Ok n)
  /\ temp_dir w' !! name
     = match temp_dir w !! name with
       | Some f =>
           if f_isfile f
              && float_gt
                   (PrimFloat.div
                      (PrimFloat.sub (seconds_of_ms (clock w))
                         (seconds_of_ms (f_ctime f)))
                      (float_of_Z 60))
                   max_age_minutes
           then None else Some f
       | None => None
       end
  /\ user_states w' = user_states w
  /\ trace w' = trace w.
Proof.
  pose proof (cleanup_old_files_temp_dir max_age_minutes w) as Hd.
  pose proof (sweep_lookup max_age_minutes (seconds_of_ms (clock w))
                (temp_dir w) name) as Hl.
  rewrite <- Hd in Hl. clear Hd. revert Hl.
  unfold cleanup_old_files, bind, get_world, set_temp_dir, ret.
  destruct (sweep _ _ _ _ _) as [fs' d]. cbn [snd temp_dir user_states trace].
  intros Hl. split; [eauto|]. split; [exact Hl|]. auto.
Qed.

(** X7. The counter that the sweep writes to the log is the number of
    entries it removed. *)
Theorem cleanup_old_files_count (max_age_minutes : pynumber) (w : World) :
  let '(r, w') := cleanup_old_files max_age_minutes w in
  exists deleted_files,
    r = Ok deleted_files
    /\ size (temp_dir w) = (size (temp_dir w') + deleted_files)%nat.
Proof.
  unfold cleanup_old_files, bind, get_world, set_temp_dir, ret.
  pose proof (sweep_size max_age_minutes (seconds_of_ms (clock w))
                (listdir (temp_dir w)) (temp_dir w) 0) as H.
  cbv zeta in H.
  destruct (sweep _ _ _ _ _) as [fs' d]. cbn [fst snd temp_dir] in *.
  exists d. split; [reflexivity|]. lia.
Qed.

(** ** Discovery *)





(** ** Frames of the handlers *)

Section Frame.
Variable chat_id : Z.
Variable R : World -> World -> Prop.
Variable P : Event -> Prop.
Hypothesis Hfr : Frame chat_id R P.
Variable env : Env.

Lemma fr_refl : forall w, R w w.
Proof. apply Hfr. Qed.

Lemma fr_trans : forall a b c, R a b -> R b c -> R a c.
Proof. apply Hfr. Qed.

Lemma fr_ret {A} (a : A) : run_rel R (ret a).
Proof. intros w. apply fr_refl. Qed.

Lemma fr_raise {A} (e : exn) : run_rel R (@raise A e).
Proof. intros w. apply fr_refl. Qed.

Lemma fr_lift_result {A} (r : result A) : run_rel R (lift_result r).
Proof. intros w. apply fr_refl. Qed.

Lemma fr_bind {A B} (m : M A) (k : A -> M B) :
  run_rel R m -> (forall a, run_rel R (k a)) -> run_rel R (bind m k).
Proof.
  intros Hm Hk w. unfold bind. specialize (Hm w).
  destruct (m w) as [[a|e] w1]; simpl in *; [|assumption].
  eapply fr_trans; [eassumption|]. apply Hk.
Qed.

Lemma fr_get_world_bind {B} (k : World -> M B) :
  (forall w, R w (k w w).2) -> run_rel R (bind get_world k).
Proof. intros H w. apply H. Qed.

Lemma fr_try_except {A} (m : M A) (h : exn -> M A) :
  run_rel R m -> (forall e, run_rel R (h e)) -> run_rel R (try_except m h).
Proof.
  intros Hm Hh w. unfold try_except. specialize (Hm w).
  destruct (m w) as [[a|e] w1]; simpl in *; [assumption|].
  eapply fr_trans; [eassumption|]. apply Hh.
Qed.

Lemma fr_try_finally {A} (m : M A) (f : M unit) :
  run_rel R m -> run_rel R f -> run_rel R (try_finally m f).
Proof.
  intros Hm Hf w. unfold try_finally. specialize (Hm w).
  destruct (m w) as [r w1]. specialize (Hf w1).
  destruct (f w1) as [[u|e] w2]; simpl in *; eapply fr_trans; eassumption.
Qed.

Lemma fr_repeat_m (n : nat) (m : M unit) :
  run_rel R m -> run_rel R (repeat_m n m).
Proof.
  intros Hm. induction n as [|n IH]; simpl; [apply fr_ret|].
  apply fr_bind; auto.
Qed.

Lemma fr_tick (el : N) (e : Event) : P e -> run_rel R (tick el [e]).
Proof.
  intros H w. apply (frr_tick _ _ _ Hfr). constructor; [assumption|constructor].
Qed.

Lemma fr_set_temp_dir (f : gmap string File -> gmap string File) :
  run_rel R (set_temp_dir f).
Proof. intros w. apply (frr_fs _ _ _ Hfr). Qed.

Lemma fr_time_sleep (n : N) : run_rel R (time_sleep n).
Proof. apply fr_tick. apply (frp_sleep _ _ _ Hfr). Qed.

Lemma fr_transport_call (ev : bool -> Event) :
  (forall b, P (ev b)) -> run_rel R (transport_call env ev).
Proof.
  intros Hev. unfold transport_call. apply fr_get_world_bind. intros w.
  destruct (tr_error _).
  - apply fr_bind; [|intros; apply fr_raise]. apply fr_tick, Hev.
  - apply fr_tick, Hev.
Qed.

Lemma fr_bot_send_message (m : Msg) :
  run_rel R (bot_send_message env chat_id m).
Proof. apply fr_transport_call. apply (frp_message _ _ _ Hfr). Qed.

Lemma fr_bot_send_chat_action (a : string) :
  run_rel R (bot_send_chat_action env chat_id a).
Proof. apply fr_transport_call. apply (frp_action _ _ _ Hfr). Qed.

Lemma fr_send_file (k : MediaKind) (file_path : string)
    (title : option string) :
  run_rel R (send_file env chat_id k file_path title).
Proof.
  unfold send_file. apply fr_get_world_bind. intros w.
  destruct (temp_dir w !! file_path) as [f|]; [|apply fr_raise].
  destruct (f_isfile f); [|apply fr_raise].
  apply fr_transport_call. apply (frp_media _ _ _ Hfr).
Qed.

Lemma fr_show_main_menu : run_rel R (show_main_menu env chat_id).
Proof.
  unfold show_main_menu. apply fr_try_except; [|intros; apply fr_ret].
  apply fr_bind; [apply fr_bot_send_message|].
  intros _ w. apply (frr_main _ _ _ Hfr).
Qed.

Lemma fr_notify_attempt (attempt : nat) :
  run_rel R (notify_attempt env chat_id attempt).
Proof.
  unfold notify_attempt. destruct (0 <? attempt)%nat;
    apply fr_bot_send_message.
Qed.

Lemma fr_write_files (timestamp : Z) (files : list (string * Z)) :
  run_rel R (write_files timestamp files).
Proof.
  unfold write_files. apply fr_get_world_bind. intros w.
  apply fr_set_temp_dir.
Qed.

Lemma fr_purge_partial (timestamp : option Z) :
  run_rel R (purge_partial timestamp).
Proof.
  destruct timestamp as [ts|]; simpl; [apply fr_set_temp_dir | apply fr_ret].
Qed.

(** The pre-flight block after the probe has answered. *)
Lemma fr_probe_answered (o : ProbeOutcome) :
  run_rel R
    (match o with
     | ProbeError e => raise e
     | ProbeFalsy => raise (PyException "Could not extract video information")
     | ProbeInfo info =>
         let title :=
           sanitize_filename (get_str (info_title info) "Unknown") in
         bot_send_message env chat_id
           (MsgDownloading title (info_duration info)) ;;;
         ret info
     end).
Proof.
  destruct o as [e| |info]; try apply fr_raise.
  apply fr_bind; [apply fr_bot_send_message | intros; apply fr_ret].
Qed.

(** The fetch after the engine has been called. *)
Lemma fr_fetch_answered (download_type : string) (timestamp : Z)
    (resp : FetchResp) :
  run_rel R
    (write_files timestamp (fr_files resp) ;;;
     repeat_m (fr_hook_actions resp)
       (progress_hook env chat_id download_type) ;;;
     match fr_error resp with
     | Some e => raise e
     | None => ret tt
     end).
Proof.
  apply fr_bind; [apply fr_write_files|].
  intros _. apply fr_bind.
  - apply fr_repeat_m. unfold progress_hook, try_pass.
    apply fr_try_except; [|intros; apply fr_ret].
    apply fr_bot_send_chat_action.
  - intros _. destruct (fr_error _); [apply fr_raise | apply fr_ret].
Qed.

(** Discovery and verification. *)
Lemma fr_verification (info : Info) (timestamp : Z) :
  run_rel R
    (w <- get_world ;;
     let files := discover timestamp (temp_dir w) in
     let '(downloaded_file_path, fs) := verify_files files (temp_dir w) in
     set_temp_dir (fun _ => fs) ;;;
     match downloaded_file_path with
     | Some file_path => ret (info, file_path)
     | None =>
         raise (PyException "Download completed but no valid file found")
     end).
Proof.
  apply fr_get_world_bind. intros w. cbv zeta.
  destruct (verify_files (discover timestamp (temp_dir w)) (temp_dir w))
    as [found fs].
  destruct found; exact (fr_set_temp_dir (fun _ => fs) w).
Qed.

Lemma fr_on_error {A} (attempt : nat) (timestamp : option Z) (e : exn) :
  run_rel R (@on_error A attempt timestamp e).
Proof.
  destruct e as [error_msg|msg]; simpl.
  - unfold on_download_error.
    apply fr_bind; [apply fr_purge_partial|]. intros _.
    repeat match goal with
           | |- context [if ?c then _ else _] => destruct c
           end;
      try apply fr_ret;
      (apply fr_bind; [apply fr_time_sleep | intros; apply fr_ret]).
  - unfold on_exception.
    apply fr_bind; [apply fr_purge_partial|]. intros _.
    destruct (_ <? _)%nat; [|apply fr_ret].
    apply fr_bind; [apply fr_time_sleep | intros; apply fr_ret].
Qed.

Lemma fr_upload_loop (download_type file_path title : string)
    (todo : list nat) :
  run_rel R (upload_loop env chat_id download_type file_path title todo).
Proof.
  induction todo as [|upload_attempt rest IH]; simpl; [apply fr_ret|].
  apply fr_bind; [|intros [|]; [apply fr_ret | apply IH]].
  apply fr_try_except.
  - apply fr_bind;
      [destruct (String.eqb download_type "audio"); apply fr_send_file|].
    intros _.
    apply fr_bind; [apply fr_bot_send_message | intros; apply fr_ret].
  - intros upload_error. destruct (_ <? _)%nat.
    + apply fr_bind; [apply fr_bot_send_message|]. intros _.
      apply fr_bind; [apply fr_time_sleep | intros; apply fr_ret].
    + apply fr_bind; [|intros; apply fr_ret].
      apply fr_try_except; [|intros; apply fr_bot_send_message].
      apply fr_bind; [apply fr_send_file|]. intros _.
      apply fr_bot_send_message.
Qed.

(** The handler after [download_media] has returned. *)
Lemma fr_downloaded (download_type : string) (r : Info * string) :
  run_rel R
    (let '(info, file_path) := r in
     w <- get_world ;;
     match temp_dir w !! file_path with
     | None =>
         bot_send_message env chat_id MsgDownloadedFileNotFound ;;;
         show_main_menu env chat_id
     | Some f =>
         if (f_size f <? 1024)%Z then
           bot_send_message env chat_id MsgFileEmptyOrTooSmall ;;;
           set_temp_dir (unlink_quiet file_path) ;;;
           show_main_menu env chat_id
         else
           let title :=
             sanitize_filename (get_str (info_title info) "Unknown") in
           bot_send_message env chat_id MsgUploading ;;;
           bot_send_chat_action env chat_id "upload_document" ;;;
           upload_loop env chat_id download_type file_path title
             (seq 0 max_upload_attempts) ;;;
           cleanup_payload file_path
     end).
Proof.
  destruct r as [info file_path]. apply fr_get_world_bind. intros w.
  destruct (temp_dir w !! file_path) as [f|].
  - destruct (f_size f <? 1024)%Z.
    + apply fr_bind; [apply fr_bot_send_message|]. intros _.
      apply fr_bind; [apply fr_set_temp_dir|]. intros _.
      apply fr_show_main_menu.
    + apply fr_bind; [apply fr_bot_send_message|]. intros _.
      apply fr_bind; [apply fr_bot_send_chat_action|]. intros _.
      apply fr_bind; [apply fr_upload_loop|]. intros _.
      apply fr_set_temp_dir.
  - apply fr_bind; [apply fr_bot_send_message|]. intros _.
    apply fr_show_main_menu.
Qed.

Lemma fr_report_error (e : exn) : run_rel R (report_error env chat_id e).
Proof.
  unfold report_error.
  repeat match goal with
         | |- context [if ?c then _ else _] => destruct c
         end; apply fr_bot_send_message.
Qed.

(** The search after the engine has answered. *)
Lemma fr_search_answered (o : SearchOutcome) :
  (forall url download_type quality,
      run_rel R
        (handle_download_process env chat_id url download_type quality)) ->
  run_rel R
    (match o with
     | SearchError e => raise e
     | SearchFalsy | SearchInfo Missing | SearchInfo Null
     | SearchInfo (Val []) =>
         bot_send_message env chat_id MsgNoResultsFound ;;;
         show_main_menu env chat_id
     | SearchInfo (Val all_entries) =>
         entries <- lift_result (select_entries all_entries) ;;
         match entries with
         | [] =>
             bot_send_message env chat_id MsgNoValidResultsFound ;;;
             show_main_menu env chat_id
         | first_result :: _ =>
             bot_send_message env chat_id
               (MsgTopResults
                  (List.map (fun e => (en_title e, en_duration e)) entries)) ;;;
             dispatch_first env chat_id first_result
         end
     end).
Proof.
  intros Hh.
  assert (Hnone : run_rel R
            (bot_send_message env chat_id MsgNoResultsFound ;;;
             show_main_menu env chat_id)).
  { apply fr_bind; [apply fr_bot_send_message|]. intros _.
    apply fr_show_main_menu. }
  destruct o as [e| |[| |[|a all_entries]]]; try exact Hnone;
    [apply fr_raise|].
  apply fr_bind; [apply fr_lift_result|]. intros [|first_result rest].
  - apply fr_bind; [apply fr_bot_send_message|]. intros _.
    apply fr_show_main_menu.
  - apply fr_bind; [apply fr_bot_send_message|]. intros _.
    unfold dispatch_first. destruct (en_url first_result);
      [apply fr_raise | apply Hh | apply Hh].
Qed.

Lemma fr_search_failed (e : exn) : run_rel R (search_failed env chat_id e).
Proof.
  unfold search_failed. apply fr_bind; [apply fr_bot_send_message|].
  intros _. apply fr_show_main_menu.
Qed.

Hypothesis P_probe : forall url format ts, P (EvProbe url format ts).
Hypothesis P_fetch : forall url format ts, P (EvFetch url format ts).

Lemma fr_probe_step (url : pyval) (format : string) (timestamp : Z) :
  run_rel R (probe_step env chat_id url format timestamp).
Proof.
  unfold probe_step.
  apply fr_try_except; [|intros; apply fr_raise].
  apply fr_bind; [|apply fr_probe_answered].
  unfold engine_probe. apply fr_get_world_bind. intros w.
  apply fr_bind; [|intros; apply fr_ret].
  apply fr_tick. apply P_probe.
Qed.

Lemma fr_engine_fetch (url : pyval) (download_type format : string)
    (timestamp : Z) :
  run_rel R (engine_fetch env chat_id url download_type format timestamp).
Proof.
  unfold engine_fetch. apply fr_get_world_bind. intros w.
  apply fr_bind; [apply fr_tick, P_fetch|].
  intros _. apply fr_fetch_answered.
Qed.

Lemma fr_attempt_body (url : pyval) (download_type quality : string)
    (timestamp : Z) :
  run_rel R (attempt_body env chat_id url download_type quality timestamp).
Proof.
  unfold attempt_body.
  apply fr_bind; [apply fr_probe_step|]. intros info.
  apply fr_bind; [apply fr_engine_fetch|]. intros _.
  apply fr_bind; [apply fr_time_sleep|]. intros _.
  apply fr_verification.
Qed.

Lemma fr_iteration (url : pyval) (download_type quality : string)
    (attempt : nat) (timestamp : option Z) :
  run_rel R (iteration env chat_id url download_type quality attempt
               timestamp).
Proof.
  intros w. unfold iteration.
  pose proof (fr_notify_attempt attempt w) as Hn.
  destruct (notify_attempt env chat_id attempt w)
    as [[[]|e] w1]; simpl in Hn.
  - pose proof (fr_attempt_body url download_type quality (int_time w1) w1)
      as Hb.
    destruct (attempt_body _ _ _ _ _ _ w1) as [[r|e] w2]; simpl in Hb.
    + simpl. eapply fr_trans; eassumption.
    + pose proof (@fr_on_error (Info * string) attempt
                    (Some (int_time w1)) e w2) as He.
      destruct (on_error _ _ _ w2) as [[fl|e'] w3]; simpl in *;
        eauto using fr_trans.
  - pose proof (@fr_on_error (Info * string) attempt timestamp e w1) as He.
    destruct (on_error _ _ _ w1) as [[fl|e'] w2]; simpl in *;
      eauto using fr_trans.
Qed.

Lemma fr_attempts (url : pyval) (download_type quality : string)
    (todo : list nat) (timestamp : option Z) :
  run_rel R (attempts env chat_id url download_type quality todo
               timestamp).
Proof.
  revert timestamp. induction todo as [|attempt rest IH];
    intros timestamp; simpl; [apply fr_raise|].
  intros w.
  pose proof (fr_iteration url download_type quality attempt timestamp w)
    as Hi.
  destruct (iteration _ _ _ _ _ _ _ w) as [[[r| |e] ts'] w1];
    simpl in *; try assumption.
  eapply fr_trans; [eassumption|]. apply IH.
Qed.

Lemma fr_handle_download_process (url : pyval)
    (download_type quality : string) :
  run_rel R (handle_download_process env chat_id url download_type quality).
Proof.
  unfold handle_download_process.
  apply fr_try_finally; [|apply fr_show_main_menu].
  apply fr_try_except; [|apply fr_report_error].
  unfold handle_download_body. destruct (negb _).
  - apply fr_bind; [apply fr_bot_send_message|]. intros _.
    apply fr_show_main_menu.
  - apply fr_bind; [apply fr_bot_send_message|]. intros _.
    apply fr_bind; [apply fr_attempts | apply fr_downloaded].
Qed.

Hypothesis P_search : forall search_url, P (EvSearch search_url).

Lemma fr_process_music_search (text : string) :
  run_rel R (process_music_search env chat_id text).
Proof.
  unfold process_music_search. destruct (_ <? _)%nat.
  - apply fr_bind; [apply fr_bot_send_message|]. intros _.
    apply fr_show_main_menu.
  - apply fr_try_except; [|apply fr_search_failed].
    unfold search_body.
    apply fr_bind; [apply fr_bot_send_message|]. intros _.
    apply fr_bind.
    + unfold engine_search. apply fr_get_world_bind. intros w.
      apply fr_bind; [apply fr_tick, P_search | intros; apply fr_ret].
    + intros o. apply fr_search_answered.
      apply fr_handle_download_process.
Qed.
End Frame.

Lemma confined_frame (chat_id : Z) (P : Event -> Prop) :
  (forall e, addressed_to chat_id e -> P e) ->
  Frame chat_id (confined chat_id P) P.
Proof.
  intros HP. constructor.
  - intros w. split; [apply extends_trace_refl|]. auto.
  - intros a b c (T1 & U1 & S1) (T2 & U2 & S2).
    split; [eapply extends_trace_trans; eassumption|].
    split; [|congruence].
    destruct U1 as [U1|U1], U2 as [U2|U2]; rewrite U2, U1; auto.
    right. apply insert_insert_eq.
  - intros el evs w H. split; [apply extends_trace_tick; assumption|].
    simpl. auto.
  - intros f w. split; [apply extends_trace_fs|]. simpl. auto.
  - intros w. split; [apply extends_trace_us|]. simpl. auto.
  - intros. apply HP. reflexivity.
  - intros. apply HP. reflexivity.
  - intros. apply HP. reflexivity.
  - intros. apply HP. exact I.
Qed.

(** X10. Whatever the transport and the engine answer, a run of the
    download handler for a requester records only transport calls
    addressed to that requester, probes, fetches and pauses: no message
    goes to another chat and no search is made.  The conversation map is
    left as it was or differs by the requester's own state being
    'main'; no thread is started. *)
Theorem handle_download_process_confined (env : Env) (chat_id : Z)
    (url : pyval) (download_type quality : string) (w : World) :
  confined chat_id (addressed_to chat_id) w
    (handle_download_process env chat_id url download_type quality w).2.
Proof.
  apply (fr_handle_download_process chat_id _ _
           (confined_frame chat_id _ (fun e H => H))); intros; exact I.
Qed.

(** X11. The same for the search handler, which may also call the
    engine's search: every recorded transport call is addressed to the
    requester, the conversation map changes at most by the requester's
    own state being 'main', and no thread is started. *)
Theorem process_music_search_confined (env : Env) (chat_id : Z)
    (text : string) (w : World) :
  confined chat_id (addressed_or_search chat_id) w
    (process_music_search env chat_id text w).2.
Proof.
  assert (H : forall e, addressed_to chat_id e ->
                        addressed_or_search chat_id e).
  { intros []; simpl; auto. }
  apply (fr_process_music_search chat_id _ _
           (confined_frame chat_id _ H)); intros; exact I.
Qed.

(** ** How many calls to the engine a handler makes *)

Lemma quiet_frame (chat_id : Z) :
  Frame chat_id (extends_trace no_engine_call) no_engine_call.
Proof.
  constructor; auto using extends_trace_refl, extends_trace_tick,
    extends_trace_fs, extends_trace_us; try (repeat split; reflexivity).
  apply extends_trace_trans.
Qed.

Lemma count_calls_none (p : Event -> bool) (evs : list Event) :
  Forall (fun e => p e = false) evs -> count_calls p evs = 0%nat.
Proof.
  unfold count_calls. induction 1 as [|e evs He _ IH]; simpl; [reflexivity|].
  rewrite He. assumption.
Qed.

Lemma new_calls_quiet (a b c : nat) (w w' : World) :
  extends_trace no_engine_call w w' -> new_calls a b c w w'.
Proof.
  intros (evs & Ht & Hq). exists evs. split; [assumption|].
  rewrite !count_calls_none;
    [lia| | |]; eapply Forall_impl; try eassumption;
    unfold no_engine_call; tauto.
Qed.

Lemma new_calls_trans (a b c a' b' c' : nat) (w1 w2 w3 : World) :
  new_calls a b c w1 w2 -> new_calls a' b' c' w2 w3 ->
  new_calls (a + a') (b + b') (c + c') w1 w3.
Proof.
  intros (e1 & H1 & A1 & B1 & C1) (e2 & H2 & A2 & B2 & C2).
  exists (e1 ++ e2)%list. split; [rewrite H2, H1, app_assoc; reflexivity|].
  rewrite !count_calls_app. lia.
Qed.

Lemma new_calls_mono (a b c a' b' c' : nat) (w w' : World) :
  (a <= a')%nat -> (b <= b')%nat -> (c <= c')%nat ->
  new_calls a b c w w' -> new_calls a' b' c' w w'.
Proof.
  intros Ha Hb Hc (evs & H & A & B & C). exists evs.
  split; [assumption|]. lia.
Qed.

Section Calls.
Variables (env : Env) (chat_id : Z).

Lemma nc_quiet {A} (a b c : nat) (m : M A) :
  run_rel (extends_trace no_engine_call) m -> run_rel (new_calls a b c) m.
Proof. intros H w. apply new_calls_quiet, H. Qed.

Lemma nc_bind {A B} (a b c a' b' c' : nat) (m : M A) (k : A -> M B) :
  run_rel (new_calls a b c) m ->
  (forall x, run_rel (new_calls a' b' c') (k x)) ->
  run_rel (new_calls (a + a') (b + b') (c + c')) (bind m k).
Proof.
  intros Hm Hk w. unfold bind. specialize (Hm w).
  destruct (m w) as [[x|e] w1]; simpl in *.
  - eapply new_calls_trans; [eassumption | apply Hk].
  - eapply new_calls_mono; [| | |eassumption]; lia.
Qed.

Lemma nc_try_except {A} (a b c a' b' c' : nat) (m : M A) (h : exn -> M A) :
  run_rel (new_calls a b c) m ->
  (forall e, run_rel (new_calls a' b' c') (h e)) ->
  run_rel (new_calls (a + a') (b + b') (c + c')) (try_except m h).
Proof.
  intros Hm Hh w. unfold try_except. specialize (Hm w).
  destruct (m w) as [[x|e] w1]; simpl in *.
  - eapply new_calls_mono; [| | |eassumption]; lia.
  - eapply new_calls_trans; [eassumption | apply Hh].
Qed.

Lemma nc_try_finally {A} (a b c a' b' c' : nat) (m : M A) (f : M unit) :
  run_rel (new_calls a b c) m ->
  run_rel (new_calls a' b' c') f ->
  run_rel (new_calls (a + a') (b + b') (c + c')) (try_finally m f).
Proof.
  intros Hm Hf w. unfold try_finally. specialize (Hm w).
  destruct (m w) as [r w1]. specialize (Hf w1).
  destruct (f w1) as [[u|e] w2]; simpl in *;
    eapply new_calls_trans; eassumption.
Qed.

Lemma nc_tick (el : N) (e : Event) :
  run_rel
    (new_calls (count_calls is_probe [e]) (count_calls is_fetch [e])
       (count_calls is_search [e]))
    (tick el [e]).
Proof. intros w. exists [e]. split; [reflexivity|]. lia. Qed.

Lemma nc_probe_step (url : pyval) (format : string) (timestamp : Z) :
  run_rel (new_calls 1 0 0) (probe_step env chat_id url format timestamp).
Proof.
  unfold probe_step. apply (nc_try_except 1 0 0 0 0 0).
  - apply (nc_bind 1 0 0 0 0 0).
    + unfold engine_probe. intros w.
      apply (nc_bind 1 0 0 0 0 0
               (tick _ [EvProbe url format timestamp])).
      * apply nc_tick.
      * intros _. apply nc_quiet, (fr_ret _ _ _ (quiet_frame chat_id)).
    + intros o. apply nc_quiet.
      apply (fr_probe_answered _ _ _ (quiet_frame chat_id)).
  - intros e. apply nc_quiet, (fr_raise _ _ _ (quiet_frame chat_id)).
Qed.

Lemma nc_engine_fetch (url : pyval) (download_type format : string)
    (timestamp : Z) :
  run_rel (new_calls 0 1 0)
    (engine_fetch env chat_id url download_type format timestamp).
Proof.
  unfold engine_fetch. intros w.
  apply (nc_bind 0 1 0 0 0 0 (tick _ [EvFetch url format timestamp])).
  - apply nc_tick.
  - intros _. apply nc_quiet.
    apply (fr_fetch_answered _ _ _ (quiet_frame chat_id)).
Qed.

Lemma nc_attempt_body (url : pyval) (download_type quality : string)
    (timestamp : Z) :
  run_rel (new_calls 1 1 0)
    (attempt_body env chat_id url download_type quality timestamp).
Proof.
  unfold attempt_body.
  apply (nc_bind 1 0 0 0 1 0); [apply nc_probe_step|]. intros info.
  apply (nc_bind 0 1 0 0 0 0); [apply nc_engine_fetch|]. intros _.
  apply nc_quiet.
  apply (fr_bind _ _ _ (quiet_frame chat_id));
    [apply (fr_time_sleep _ _ _ (quiet_frame chat_id))|].
  intros _. apply (fr_verification _ _ _ (quiet_frame chat_id)).
Qed.

Lemma nc_iteration (url : pyval) (download_type quality : string)
    (attempt : nat) (timestamp : option Z) :
  run_rel (new_calls 1 1 0)
    (iteration env chat_id url download_type quality attempt timestamp).
Proof.
  intros w. unfold iteration.
  pose proof (nc_quiet 0 0 0 _
                (fr_notify_attempt _ _ _ (quiet_frame chat_id) env attempt) w)
    as Hn.
  destruct (notify_attempt env chat_id attempt w)
    as [[[]|e] w1]; simpl in Hn.
  - pose proof (nc_attempt_body url download_type quality (int_time w1) w1)
      as Hb.
    destruct (attempt_body _ _ _ _ _ _ w1) as [[r|e] w2]; simpl in Hb.
    + simpl. exact (new_calls_trans _ _ _ _ _ _ _ _ _ Hn Hb).
    + pose proof (nc_quiet 0 0 0 _
                    (@fr_on_error _ _ _ (quiet_frame chat_id)
                       (Info * string) attempt (Some (int_time w1)) e) w2)
        as He.
      pose proof (new_calls_trans _ _ _ _ _ _ _ _ _ Hn Hb) as H1.
      destruct (on_error _ _ _ w2) as [[fl|e'] w3]; simpl in *;
        exact (new_calls_trans _ _ _ _ _ _ _ _ _ H1 He).
  - pose proof (nc_quiet 1 1 0 _
                  (@fr_on_error _ _ _ (quiet_frame chat_id)
                     (Info * string) attempt timestamp e) w1) as He.
    destruct (on_error _ _ _ w1) as [[fl|e'] w2]; simpl in *;
      exact (new_calls_trans _ _ _ _ _ _ _ _ _ Hn He).
Qed.

Lemma nc_attempts (url : pyval) (download_type quality : string)
    (todo : list nat) (timestamp : option Z) :
  run_rel (new_calls (length todo) (length todo) 0)
    (attempts env chat_id url download_type quality todo timestamp).
Proof.
  revert timestamp. induction todo as [|attempt rest IH];
    intros timestamp; simpl.
  - apply nc_quiet, (fr_raise _ _ _ (quiet_frame chat_id)).
  - intros w.
    pose proof (nc_iteration url download_type quality attempt timestamp w)
      as Hi.
    destruct (iteration _ _ _ _ _ _ _ w) as [[[r| |e] ts'] w1];
      simpl in *.
    + eapply new_calls_mono; [| | |eassumption]; lia.
    + exact (new_calls_trans _ _ _ _ _ _ _ _ _ Hi (IH ts' w1)).
    + eapply new_calls_mono; [| | |eassumption]; lia.
Qed.

Lemma nc_handle_download_process (url : pyval)
    (download_type quality : string) :
  run_rel (new_calls 3 3 0)
    (handle_download_process env chat_id url download_type quality).
Proof.
  unfold handle_download_process.
  apply (nc_try_finally 3 3 0 0 0 0);
    [|apply nc_quiet, (fr_show_main_menu _ _ _ (quiet_frame chat_id))].
  apply (nc_try_except 3 3 0 0 0 0);
    [|intros e; apply nc_quiet,
        (fr_report_error _ _ _ (quiet_frame chat_id))].
  unfold handle_download_body. destruct (negb _).
  - apply nc_quiet. apply (fr_bind _ _ _ (quiet_frame chat_id)).
    + apply (fr_bot_send_message _ _ _ (quiet_frame chat_id)).
    + intros _. apply (fr_show_main_menu _ _ _ (quiet_frame chat_id)).
  - apply (nc_bind 0 0 0 3 3 0).
    + apply nc_quiet, (fr_bot_send_message _ _ _ (quiet_frame chat_id)).
    + intros _. apply (nc_bind 3 3 0 0 0 0).
      * apply (nc_attempts url download_type quality (seq 0 max_retries)).
      * intros r. apply nc_quiet.
        apply (fr_downloaded _ _ _ (quiet_frame chat_id)).
Qed.

Lemma nc_process_music_search (text : string) :
  run_rel (new_calls 3 3 1) (process_music_search env chat_id text).
Proof.
  assert (Hsm : forall m,
             run_rel (extends_trace no_engine_call)
               (bot_send_message env chat_id m ;;;
                show_main_menu env chat_id)).
  { intros m. apply (fr_bind _ _ _ (quiet_frame chat_id)).
    - apply (fr_bot_send_message _ _ _ (quiet_frame chat_id)).
    - intros _. apply (fr_show_main_menu _ _ _ (quiet_frame chat_id)). }
  unfold process_music_search. destruct (_ <? _)%nat;
    [apply nc_quiet, Hsm|].
  apply (nc_try_except 3 3 1 0 0 0);
    [|intros e; apply nc_quiet,
        (fr_search_failed _ _ _ (quiet_frame chat_id))].
  unfold search_body. apply (nc_bind 0 0 0 3 3 1).
  { apply nc_quiet, (fr_bot_send_message _ _ _ (quiet_frame chat_id)). }
  intros _. apply (nc_bind 0 0 1 3 3 0).
  { unfold engine_search. intros w.
    apply (nc_bind 0 0 1 0 0 0 (tick _ [EvSearch _])); [apply nc_tick|].
    intros _. apply nc_quiet, (fr_ret _ _ _ (quiet_frame chat_id)). }
  intros [e| |[| |[|a all_entries]]]; try apply nc_quiet, Hsm.
  { apply nc_quiet, (fr_raise _ _ _ (quiet_frame chat_id)). }
  apply (nc_bind 0 0 0 3 3 0).
  { apply nc_quiet, (fr_lift_result _ _ _ (quiet_frame chat_id)). }
  intros [|first_result rest]; [apply nc_quiet, Hsm|].
  apply (nc_bind 0 0 0 3 3 0).
  { apply nc_quiet, (fr_bot_send_message _ _ _ (quiet_frame chat_id)). }
  intros _. unfold dispatch_first. destruct (en_url first_result).
  - apply nc_quiet, (fr_raise _ _ _ (quiet_frame chat_id)).
  - apply nc_handle_download_process.
  - apply nc_handle_download_process.
Qed.
End Calls.

(** X12. Whatever the transport and the engine answer, one run of the
    download handler calls the engine's probe at most 3 times and its
    fetch at most 3 times, and never its search. *)
Theorem handle_download_process_call_bound (env : Env) (chat_id : Z)
    (url : pyval) (download_type quality : string) (w : World) :
  let w' :=
    (handle_download_process env chat_id url download_type quality w).2 in
  (count_calls is_probe (trace w') <= count_calls is_probe (trace w) + 3)%nat
  /\ (count_calls is_fetch (trace w')
      <= count_calls is_fetch (trace w) + 3)%nat
  /\ count_calls is_search (trace w') = count_calls is_search (trace w).
Proof.
  destruct (nc_handle_download_process env chat_id url download_type
              quality w) as (evs & Ht & A & B & C).
  cbv zeta. rewrite Ht, !count_calls_app. lia.
Qed.

(** X13. Whatever the transport and the engine answer, one run of the
    search handler calls the engine's search at most once, its probe at
    most 3 times and its fetch at most 3 times. *)
Theorem process_music_search_call_bound (env : Env) (chat_id : Z)
    (text : string) (w : World) :
  let w' := (process_music_search env chat_id text w).2 in
  (count_calls is_search (trace w')
   <= count_calls is_search (trace w) + 1)%nat
  /\ (count_calls is_probe (trace w')
      <= count_calls is_probe (trace w) + 3)%nat
  /\ (count_calls is_fetch (trace w')
      <= count_calls is_fetch (trace w) + 3)%nat.
Proof.
  destruct (nc_process_music_search env chat_id text w)
    as (evs & Ht & A & B & C).
  cbv zeta. rewrite Ht, !count_calls_app. lia.
Qed.

(** ** Runs with a transport that answers *)

Lemma bind_ok {A B} (m : M A) (k : A -> M B) (w w1 : World) (a : A) :
  m w = (Ok a, w1) -> bind m k w = k a w1.
Proof. intros H. unfold bind. rewrite H. reflexivity. Qed.

Lemma bind_raise {A B} (m : M A) (k : A -> M B) (w w1 : World) (e : exn) :
  m w = (Raise e, w1) -> bind m k w = (Raise e, w1).
Proof. intros H. unfold bind. rewrite H. reflexivity. Qed.

Lemma bot_send_chat_action_ok (env : Env) (chat_id : Z) (a : string)
    (w : World) :
  transport_ok env ->
  exists w',
    bot_send_chat_action env chat_id a w = (Ok tt, w')
    /\ trace w' = (trace w ++ [EvChatAction chat_id a true])%list
    /\ user_states w' = user_states w
    /\ temp_dir w' = temp_dir w.
Proof.
  intros Hok. unfold bot_send_chat_action, transport_call, bind, get_world.
  rewrite Hok. eexists. split; [reflexivity|]. simpl. auto.
Qed.

Lemma typed_upload_eq (env : Env) (chat_id : Z)
    (download_type file_path title : string) :
  (if String.eqb download_type "audio"
   then send_file env chat_id SendAudio file_path (Some (str_take 64 title))
   else send_file env chat_id SendVideo file_path None)
  = send_file env chat_id (media_kind download_type) file_path
      (media_title download_type title).
Proof.
  unfold media_kind, media_title.
  destruct (String.eqb download_type "audio"); reflexivity.
Qed.

Lemma send_file_ok (env : Env) (chat_id : Z) (k : MediaKind)
    (file_path : string) (title : option string) (f : File) (w : World) :
  transport_ok env ->
  temp_dir w !! file_path = Some f -> f_isfile f = true ->
  exists w',
    send_file env chat_id k file_path title w = (Ok tt, w')
    /\ trace w'
       = (trace w ++ [EvSendMedia chat_id k file_path title true])%list
    /\ user_states w' = user_states w
    /\ temp_dir w' = temp_dir w.
Proof.
  intros Hok Hf Hreg. unfold send_file, bind, get_world.
  rewrite Hf, Hreg. unfold transport_call, bind, get_world.
  rewrite Hok. eexists. split; [reflexivity|]. simpl. auto.
Qed.

Lemma upload_loop_ok (env : Env) (chat_id : Z)
    (download_type file_path title : string) (f : File) (w : World) :
  transport_ok env ->
  temp_dir w !! file_path = Some f -> f_isfile f = true ->
  exists w',
    upload_loop env chat_id download_type file_path title
      (seq 0 max_upload_attempts) w = (Ok tt, w')
    /\ trace w'
       = (trace w
          ++ [EvSendMedia chat_id (media_kind download_type) file_path
                (media_title download_type title) true;
              EvSendMessage chat_id MsgUploadSuccessful true])%list
    /\ user_states w' = user_states w
    /\ temp_dir w' = temp_dir w.
Proof.
  intros Hok Hf Hreg.
  change (seq 0 max_upload_attempts) with [0; 1]%nat. cbn [upload_loop].
  rewrite !typed_upload_eq.
  destruct (send_file_ok env chat_id (media_kind download_type) file_path
              (media_title download_type title) f w Hok Hf Hreg)
    as (w1 & E1 & T1 & U1 & D1).
  destruct (bot_send_message_ok env chat_id MsgUploadSuccessful w1 Hok)
    as (w2 & E2 & T2 & U2 & D2).
  unfold bind at 1, try_except.
  rewrite (bind_ok _ _ _ _ _ E1), (bind_ok _ _ _ _ _ E2).
  exists w2. split; [reflexivity|].
  rewrite T2, T1, U2, U1, D2, D1, <- app_assoc. auto.
Qed.

(** X14. A request for a url that is not supported never reaches the
    engine: with a transport that answers, the requester gets the
    'Unsupported URL' message and then the main menu twice, once from
    the early return and once from the finally block; the requester's
    state is 'main' and the directory is untouched. *)
Theorem handle_download_process_unsupported (env : Env) (chat_id : Z)
    (url : pyval) (download_type quality : string) (w : World) :
  transport_ok env ->
  is_supported_url (url_lib env) url = false ->
  exists w',
    handle_download_process env chat_id url download_type quality w
    = (Ok tt, w')
    /\ trace w'
       = (trace w
          ++ [EvSendMessage chat_id MsgUnsupportedURL true;
              EvSendMessage chat_id MsgMainMenu true;
              EvSendMessage chat_id MsgMainMenu true])%list
    /\ user_states w' = <[chat_id := "main"]> (user_states w)
    /\ temp_dir w' = temp_dir w.
Proof.
  intros Hok Hsup.
  destruct (bot_send_message_ok env chat_id MsgUnsupportedURL w Hok)
    as (w1 & E1 & T1 & U1 & D1).
  destruct (show_main_menu_ok env chat_id w1 Hok) as (w2 & E2 & T2 & U2 & D2).
  destruct (show_main_menu_ok env chat_id w2 Hok) as (w3 & E3 & T3 & U3 & D3).
  exists w3. split.
  - unfold handle_download_process, try_finally, try_except,
      handle_download_body.
    rewrite Hsup. cbn [negb].
    rewrite (bind_ok _ _ _ _ _ E1), E2, E3. reflexivity.
  - rewrite T3, T2, T1, U3, U2, U1, D3, D2, D1, <- !app_assoc.
    rewrite insert_insert_eq. auto.
Qed.

Lemma handle_download_process_unsupported_witness :
  transport_ok Scenario.env_ok
  /\ is_supported_url (url_lib Scenario.env_ok)
       (PyStr "https://example.com/clip") = false
  /\ exists w',
       handle_download_process Scenario.env_ok Scenario.chat
         (PyStr "https://example.com/clip") "video" "best"
         Scenario.processing = (Ok tt, w')
       /\ user_states w' = <[Scenario.chat := "main"]>
                             (user_states Scenario.processing).
Proof.
  assert (H1 : transport_ok Scenario.env_ok) by (intros n; reflexivity).
  assert (H2 : is_supported_url (url_lib Scenario.env_ok)
                 (PyStr "https://example.com/clip") = false)
    by (vm_compute; reflexivity).
  split; [exact H1|]. split; [exact H2|].
  destruct (handle_download_process_unsupported Scenario.env_ok Scenario.chat
              (PyStr "https://example.com/clip") "video" "best"
              Scenario.processing H1 H2) as (w' & E & _ & U & _).
  exists w'. split; assumption.
Defined.

(** X15. Delivery.  With a transport that answers and a supported url,
    when [download_media] returns a path that is a regular file, the
    handler announces the upload, sends the file once through the
    channel of the requested type, confirms, deletes the file and shows
    the menu: the requester's state is 'main' and the file is gone.
    An audio upload carries the first 64 characters of the sanitized
    title as its title; a video upload carries no title. *)
Theorem handle_download_process_delivers (env : Env) (chat_id : Z)
    (url : pyval) (download_type quality : string) (w w0 w1 : World)
    (info : Info) (file_path : string) (f : File) :
  transport_ok env ->
  is_supported_url (url_lib env) url = true ->
  bot_send_message env chat_id MsgVerifyingURL w = (Ok tt, w0) ->
  download_media env chat_id url download_type quality w0
  = (Ok (info, file_path), w1) ->
  temp_dir w1 !! file_path = Some f ->
  f_isfile f = true ->
  exists w',
    handle_download_process env chat_id url download_type quality w
    = (Ok tt, w')
    /\ trace w'
       = (trace w1
          ++ [EvSendMessage chat_id MsgUploading true;
              EvChatAction chat_id "upload_document" true;
              EvSendMedia chat_id (media_kind download_type) file_path
                (media_title download_type
                   (sanitize_filename (get_str (info_title info) "Unknown")))
                true;
              EvSendMessage chat_id MsgUploadSuccessful true;
              EvSendMessage chat_id MsgMainMenu true])%list
    /\ user_states w' = <[chat_id := "main"]> (user_states w1)
    /\ temp_dir w' = delete file_path (temp_dir w1).
Proof.
  intros Hok Hsup E0 Edm Hf Hreg.
  destruct (download_media_returns_large _ _ _ _ _ _ _ _ _ Edm)
    as (f' & Hf' & Hbig).
  assert (f' = f) by congruence. subst f'.
  assert (Hsize : (f_size f <? 1024)%Z = false) by (apply Z.ltb_ge; lia).
  destruct (bot_send_message_ok env chat_id MsgUploading w1 Hok)
    as (w2 & E2 & T2 & U2 & D2).
  destruct (bot_send_chat_action_ok env chat_id "upload_document" w2 Hok)
    as (w3 & E3 & T3 & U3 & D3).
  assert (Hf3 : temp_dir w3 !! file_path = Some f)
    by (rewrite D3, D2; assumption).
  destruct (upload_loop_ok env chat_id download_type file_path
              (sanitize_filename (get_str (info_title info) "Unknown"))
              f w3 Hok Hf3 Hreg) as (w4 & E4 & T4 & U4 & D4).
  destruct (set_temp_dir (unlink_quiet file_path) w4) as [r5 w5] eqn:E5.
  assert (H5 : r5 = Ok tt /\ trace w5 = trace w4
               /\ user_states w5 = user_states w4
               /\ temp_dir w5 = unlink_quiet file_path (temp_dir w4)).
  { unfold set_temp_dir in E5. injection E5 as <- <-. simpl. auto. }
  destruct H5 as (-> & T5 & U5 & D5).
  destruct (show_main_menu_ok env chat_id w5 Hok) as (w6 & E6 & T6 & U6 & D6).
  exists w6. split.
  - unfold handle_download_process, try_finally, try_except,
      handle_download_body.
    rewrite Hsup. cbn [negb].
    rewrite (bind_ok _ _ _ _ _ E0), (bind_ok _ _ _ _ _ Edm).
    unfold bind at 1, get_world. rewrite Hf, Hsize.
    rewrite (bind_ok _ _ _ _ _ E2), (bind_ok _ _ _ _ _ E3),
      (bind_ok _ _ _ _ _ E4).
    unfold cleanup_payload. rewrite E5, E6. reflexivity.
  - rewrite T6, T5, T4, T3, T2, U6, U5, U4, U3, U2, D6, D5, D4, D3, D2,
      <- !app_assoc.
    split; [reflexivity|]. split; [reflexivity|].
    unfold unlink_quiet, unlink. rewrite Hf, Hreg. reflexivity.
Qed.

Lemma handle_download_process_delivers_witness :
  exists w',
    handle_download_process Scenario.env_ok Scenario.chat Scenario.url
      "audio" "best" Scenario.processing = (Ok tt, w')
    /\ temp_dir w' = ∅
    /\ In (EvSendMedia Scenario.chat SendAudio Scenario.payload
             (Some "My Song") true) (trace w').
Proof.
  assert (H1 : transport_ok Scenario.env_ok) by (intros n; reflexivity).
  assert (H2 : is_supported_url (url_lib Scenario.env_ok) Scenario.url = true)
    by (vm_compute; reflexivity).
  set (w0 := (bot_send_message Scenario.env_ok Scenario.chat MsgVerifyingURL
                Scenario.processing).2).
  assert (H3 : bot_send_message Scenario.env_ok Scenario.chat MsgVerifyingURL
                 Scenario.processing = (Ok tt, w0)) by reflexivity.
  set (w1 := (download_media Scenario.env_ok Scenario.chat Scenario.url
                "audio" "best" w0).2).
  assert (H4 : download_media Scenario.env_ok Scenario.chat Scenario.url
                 "audio" "best" w0
               = (Ok (Scenario.song, Scenario.payload), w1))
    by (vm_compute; reflexivity).
  assert (H5 : temp_dir w1 !! Scenario.payload
               = Some (Scenario.regular 5000 1700000005130))
    by (vm_compute; reflexivity).
  destruct (handle_download_process_delivers Scenario.env_ok Scenario.chat
              Scenario.url "audio" "best" Scenario.processing w0 w1
              Scenario.song Scenario.payload _ H1 H2 H3 H4 H5 eq_refl)
    as (w' & E & T & _ & D).
  exists w'. split; [exact E|]. split; [rewrite D; vm_compute; reflexivity|].
  rewrite T. apply in_or_app. right. right. right. left. reflexivity.
Defined.

(** The title of an upload: 64 characters at most for an audio file,
    none for a video. *)
Example media_title_examples :
  media_title "audio"
    "0123456789012345678901234567890123456789012345678901234567890123456789"
  = Some "0123456789012345678901234567890123456789012345678901234567890123"
  /\ media_title "video" "My Song" = None
  /\ media_title "audio" "My Song" = Some "My Song".
Proof. repeat split; reflexivity. Qed.

(** ** process_url_input *)

Lemma append_snoc (a : string) (c : ascii) (r : string) :
  (a ++ String c EmptyString) ++ r = a ++ String c r.
Proof.
  induction a as [|d a IH]; [reflexivity|].
  change (String d ((a ++ String c EmptyString) ++ r)
          = String d (a ++ String c r)).
  rewrite IH. reflexivity.
Qed.

Lemma append_empty (a : string) : a ++ EmptyString = a.
Proof.
  induction a as [|d a IH]; [reflexivity|].
  change (String d (a ++ EmptyString) = String d a). rewrite IH. reflexivity.
Qed.

Lemma split_underscore_plain (cur s : string) :
  has_char "_" s = false -> split_underscore cur s = [cur ++ s].
Proof.
  revert cur. induction s as [|c r IH]; intros cur H.
  - cbn [split_underscore]. rewrite append_empty. reflexivity.
  - change (Ascii.eqb "_" c || has_char "_" r = false) in H.
    apply orb_false_iff in H as [Hc Hr].
    cbn [split_underscore]. rewrite Ascii.eqb_sym, Hc, IH by assumption.
    rewrite append_snoc. reflexivity.
Qed.

Lemma split_underscore_segment (cur s rest : string) :
  has_char "_" s = false ->
  split_underscore cur (s ++ String "_" rest)
  = (cur ++ s) :: split_underscore EmptyString rest.
Proof.
  revert cur. induction s as [|c r IH]; intros cur H.
  - change (EmptyString ++ String "_" rest) with (String "_" rest).
    cbn [split_underscore]. rewrite append_empty. reflexivity.
  - change (Ascii.eqb "_" c || has_char "_" r = false) in H.
    apply orb_false_iff in H as [Hc Hr].
    change (String c r ++ String "_" rest)
      with (String c (r ++ String "_" rest)).
    cbn [split_underscore]. rewrite Ascii.eqb_sym, Hc, IH by assumption.
    rewrite append_snoc. reflexivity.
Qed.

Lemma split_waiting_state (download_type quality : string) :
  has_char "_" download_type = false ->
  has_char "_" quality = false ->
  split_underscore EmptyString (waiting_state download_type quality)
  = ["waiting"; "url"; download_type; quality].
Proof.
  intros Ht Hq. unfold waiting_state.
  change ("waiting_url_" ++ download_type ++ "_" ++ quality)
    with ("waiting"
          ++ String "_" ("url" ++ String "_"
                           (download_type ++ String "_" quality))).
  rewrite (split_underscore_segment EmptyString "waiting") by reflexivity.
  rewrite (split_underscore_segment EmptyString "url") by reflexivity.
  rewrite (split_underscore_segment EmptyString download_type) by assumption.
  rewrite split_underscore_plain by assumption. reflexivity.
Qed.

Lemma prefix_waiting_state (download_type quality : string) :
  String.prefix "waiting_url_" (waiting_state download_type quality) = true.
Proof.
  unfold waiting_state.
  generalize (download_type ++ "_" ++ quality). intros rest.
  change (String.prefix EmptyString rest = true).
  destruct rest; reflexivity.
Qed.

(** X16. The state written by the selection handler,
    'waiting_url_' + type + '_' + quality, is decoded by the url handler
    into the same type and quality when neither holds an underscore, as
    is the case for the three profiles of the menu.  Whatever the
    transport answers, the requester is then in state 'processing' and
    exactly one thread has been started, for the stripped text and that
    type and quality; the only recorded call is the message that
    follows. *)
Theorem process_url_input_decodes (env : Env) (chat_id : Z) (text : string)
    (download_type quality : string) (w : World) :
  user_states w !! chat_id = Some (waiting_state download_type quality) ->
  has_char "_" download_type = false ->
  has_char "_" quality = false ->
  let w' := (process_url_input env chat_id text w).2 in
  user_states w' = <[chat_id := "processing"]> (user_states w)
  /\ spawned w'
     = (spawned w
        ++ [{| task_chat_id := chat_id; task_url := PyStr (strip text);
               task_download_type := download_type;
               task_quality := quality |}])%list
  /\ (exists ok,
        trace w'
        = (trace w
           ++ [EvSendMessage chat_id MsgStartingVerifiedDownload ok])%list)
  /\ temp_dir w' = temp_dir w.
Proof.
  intros Hst Ht Hq. cbv zeta.
  assert (E : process_url_input env chat_id text w
              = (set_user_states (fun st => <[chat_id := "processing"]> st) ;;;
                 thread_start
                   {| task_chat_id := chat_id; task_url := PyStr (strip text);
                      task_download_type := download_type;
                      task_quality := quality |} ;;;
                 bot_send_message env chat_id MsgStartingVerifiedDownload) w).
  { unfold process_url_input, bind at 1, get_world. rewrite Hst.
    change (default EmptyString (Some (waiting_state download_type quality)))
      with (waiting_state download_type quality).
    rewrite split_waiting_state by assumption.
    rewrite prefix_waiting_state. reflexivity. }
  rewrite E.
  cbv [bind set_user_states thread_start bot_send_message transport_call
       get_world tick raise].
  destruct (tr_error _); simpl; eauto 10.
Qed.

Lemma process_url_input_decodes_witness :
  Forall (fun c => has_char "_" c.1 = false /\ has_char "_" c.2 = false)
    configs
  /\ spawned (process_url_input Scenario.env_ok Scenario.chat
                " https://youtu.be/abc " Scenario.waiting).2
     = [Scenario.task].
Proof.
  split; [repeat constructor|].
  exact (proj1 (proj2
           (process_url_input_decodes Scenario.env_ok Scenario.chat
              " https://youtu.be/abc " "audio" "best" Scenario.waiting
              eq_refl eq_refl eq_refl))).
Defined.

(** ** process_music_search: the paths that start no download *)

(** X17. A query of fewer than two characters after stripping, for
    instance one made of whitespace only, never reaches the engine,
    whatever the transport answers: no search, probe or fetch is
    recorded.  With a transport that answers, the requester gets the
    'at least 2 characters' message and the menu, and is in state
    'main'. *)
Theorem process_music_search_short_query (env : Env) (chat_id : Z)
    (text : string) (w : World) :
  (String.length (strip text) < 2)%nat ->
  let r := process_music_search env chat_id text w in
  new_calls 0 0 0 w r.2
  /\ (transport_ok env ->
      r.1 = Ok tt
      /\ trace r.2
         = (trace w
            ++ [EvSendMessage chat_id MsgEnterAtLeast2Characters true;
                EvSendMessage chat_id MsgMainMenu true])%list
      /\ user_states r.2 = <[chat_id := "main"]> (user_states w)).
Proof.
  intros Hlen. cbv zeta. unfold process_music_search.
  apply Nat.ltb_lt in Hlen. rewrite Hlen. split.
  - apply new_calls_quiet.
    apply (fr_bind _ _ _ (quiet_frame chat_id)).
    + apply (fr_bot_send_message _ _ _ (quiet_frame chat_id)).
    + intros _. apply (fr_show_main_menu _ _ _ (quiet_frame chat_id)).
  - intros Hok.
    destruct (bot_send_message_ok env chat_id MsgEnterAtLeast2Characters w
                Hok) as (w1 & E1 & T1 & U1 & D1).
    destruct (show_main_menu_ok env chat_id w1 Hok)
      as (w2 & E2 & T2 & U2 & D2).
    rewrite (bind_ok _ _ _ _ _ E1), E2. simpl.
    rewrite T2, T1, U2, U1, <- app_assoc. auto.
Qed.

Lemma process_music_search_short_query_witness :
  (String.length (strip "  a  ") < 2)%nat
  /\ new_calls 0 0 0 Scenario.searching
       (process_music_search Scenario.env_untimed Scenario.chat "  a  "
          Scenario.searching).2.
Proof.
  assert (H : (String.length (strip "  a  ") < 2)%nat) by (vm_compute; lia).
  split; [exact H|].
  exact (proj1 (process_music_search_short_query Scenario.env_untimed
                  Scenario.chat "  a  " Scenario.searching H)).
Defined.

Lemma keep_short_null (entries : list (option Entry)) (e : Entry) :
  In (Some e) entries -> en_duration e = Null ->
  keep_short entries
  = Raise (PyException
      "'<' not supported between instances of 'NoneType' and 'int'").
Proof.
  intros Hin Hnull. induction entries as [|[a|] rest IH]; simpl.
  - destruct Hin.
  - destruct Hin as [[= ->]|Hin].
    + rewrite Hnull. reflexivity.
    + destruct (dict_get (en_duration a) (Some 0%Z)); [|reflexivity].
      rewrite IH by assumption. reflexivity.
  - destruct Hin as [[=]|Hin]. auto.
Qed.

(** X18. One search result whose duration is present but None, anywhere
    in the list, makes the whole search fail: with a transport that
    answers, the requester gets the 'Searching' message, then a 'Search
    error' message carrying the text of the TypeError, then the menu; no
    result list is shown and no download is started, even when the other
    results are valid. *)
Theorem process_music_search_null_duration (env : Env) (chat_id : Z)
    (text : string) (w : World) (entries : list (option Entry))
    (e : Entry) :
  transport_ok env ->
  (2 <= String.length (strip text))%nat ->
  sr_outcome (search env (count_calls is_search (trace w)))
  = SearchInfo (Val entries) ->
  In (Some e) entries ->
  en_duration e = Null ->
  exists w',
    process_music_search env chat_id text w = (Ok tt, w')
    /\ trace w'
       = (trace w
          ++ [EvSendMessage chat_id (MsgSearchingFor (strip text)) true;
              EvSearch ("ytsearch3:" ++ strip text);
              EvSendMessage chat_id
                (MsgSearchError
                   "'<' not supported between instances of 'NoneType' and 'int'")
                true;
              EvSendMessage chat_id MsgMainMenu true])%list
    /\ user_states w' = <[chat_id := "main"]> (user_states w).
Proof.
  intros Hok Hlen Hout Hin Hnull.
  set (query := strip text) in *.
  destruct (bot_send_message_ok env chat_id (MsgSearchingFor query) w Hok)
    as (w1 & E1 & T1 & U1 & D1).
  destruct (engine_search_run env ("ytsearch3:" ++ query) w1)
    as (w2 & E2 & T2 & U2 & D2).
  assert (Hidx : count_calls is_search (trace w1)
                 = count_calls is_search (trace w)).
  { rewrite T1, count_calls_app. unfold count_calls. simpl. lia. }
  rewrite Hidx, Hout in E2.
  destruct (bot_send_message_ok env chat_id
              (MsgSearchError
                 "'<' not supported between instances of 'NoneType' and 'int'")
              w2 Hok) as (w3 & E3 & T3 & U3 & D3).
  destruct (show_main_menu_ok env chat_id w3 Hok) as (w4 & E4 & T4 & U4 & D4).
  exists w4. split.
  - unfold process_music_search. fold query.
    apply Nat.ltb_ge in Hlen. rewrite Hlen.
    unfold try_except, search_body.
    rewrite (bind_ok _ _ _ _ _ E1), (bind_ok _ _ _ _ _ E2).
    destruct entries as [|a rest]; [destruct Hin|].
    unfold bind at 1, lift_result, select_entries.
    rewrite (keep_short_null _ _ Hin Hnull).
    unfold search_failed.
    change (str_take 100 (str_of_exn _))
      with "'<' not supported between instances of 'NoneType' and 'int'".
    rewrite (bind_ok _ _ _ _ _ E3), E4. reflexivity.
  - rewrite T4, T3, T2, T1, U4, U3, U2, U1, <- !app_assoc. auto.
Qed.

Lemma process_music_search_null_duration_witness :
  exists w',
    process_music_search Cases.env_live Scenario.chat "a song"
      Scenario.searching = (Ok tt, w')
    /\ count_calls is_probe (trace w') = 0%nat.
Proof.
  assert (H1 : transport_ok Cases.env_live) by (intros n; reflexivity).
  assert (H2 : (2 <= String.length (strip "a song"))%nat)
    by (vm_compute; lia).
  assert (H4 : In (Some Cases.live) [Some Scenario.untimed; Some Cases.live])
    by (right; left; reflexivity).
  destruct (process_music_search_null_duration Cases.env_live Scenario.chat
              "a song" Scenario.searching
              [Some Scenario.untimed; Some Cases.live] Cases.live
              H1 H2 eq_refl H4 eq_refl) as (w' & E & T & _).
  exists w'. split; [exact E|]. rewrite T. reflexivity.
Defined.

(** ** download_media: a fetch that is refused for good *)

Lemma engine_probe_run (env : Env) (url : pyval) (format : string) (ts : Z)
    (w : World) :
  exists w',
    engine_probe env url format ts w
    = (Ok (pr_outcome (probe env (count_calls is_probe (trace w)))), w')
    /\ trace w' = (trace w ++ [EvProbe url format ts])%list
    /\ temp_dir w' = temp_dir w.
Proof.
  unfold engine_probe, bind, get_world. eexists. split; [reflexivity|].
  simpl. auto.
Qed.

Lemma probe_step_ok (env : Env) (chat_id : Z) (url : pyval)
    (format : string) (ts : Z) (info : Info) (w : World) :
  transport_ok env ->
  pr_outcome (probe env (count_calls is_probe (trace w))) = ProbeInfo info ->
  exists w',
    probe_step env chat_id url format ts w = (Ok info, w')
    /\ trace w'
       = (trace w
          ++ [EvProbe url format ts;
              EvSendMessage chat_id
                (MsgDownloading
                   (sanitize_filename (get_str (info_title info) "Unknown"))
                   (info_duration info)) true])%list
    /\ temp_dir w' = temp_dir w.
Proof.
  intros Hok He.
  destruct (engine_probe_run env url format ts w) as (w0 & E0 & T0 & D0).
  rewrite He in E0.
  destruct (bot_send_message_ok env chat_id
              (MsgDownloading
                 (sanitize_filename (get_str (info_title info) "Unknown"))
                 (info_duration info)) w0 Hok) as (w1 & E1 & T1 & U1 & D1).
  exists w1. split.
  - unfold probe_step, try_except.
    rewrite (bind_ok _ _ _ _ _ E0). cbv beta iota zeta.
    rewrite (bind_ok _ _ _ _ _ E1). reflexivity.
  - rewrite T1, T0, D1, D0, <- app_assoc. auto.
Qed.

Lemma progress_hooks_ok (env : Env) (chat_id : Z) (download_type : string)
    (n : nat) (w : World) :
  transport_ok env ->
  exists w',
    repeat_m n (progress_hook env chat_id download_type) w = (Ok tt, w')
    /\ trace w'
       = (trace w
          ++ repeat (EvChatAction chat_id (hook_action download_type) true)
               n)%list
    /\ temp_dir w' = temp_dir w.
Proof.
  intros Hok. revert w. induction n as [|n IH]; intros w.
  - exists w. split; [reflexivity|]. simpl. rewrite app_nil_r. auto.
  - destruct (bot_send_chat_action_ok env chat_id
                (hook_action download_type) w Hok)
      as (w1 & E1 & T1 & U1 & D1).
    destruct (IH w1) as (w2 & E2 & T2 & D2).
    exists w2. split.
    + cbn [repeat_m]. unfold bind, progress_hook, try_pass, try_except.
      unfold hook_action in E1. rewrite E1. exact E2.
    + rewrite T2, T1, D2, D1, <- app_assoc. auto.
Qed.

Lemma engine_fetch_raises (env : Env) (chat_id : Z) (url : pyval)
    (download_type format : string) (ts : Z) (e : exn) (w : World) :
  transport_ok env ->
  fr_error (fetch env (count_calls is_fetch (trace w))) = Some e ->
  exists w',
    engine_fetch env chat_id url download_type format ts w = (Raise e, w')
    /\ trace w'
       = (trace w
          ++ EvFetch url format ts
             :: repeat (EvChatAction chat_id (hook_action download_type) true)
                  (fr_hook_actions
                     (fetch env (count_calls is_fetch (trace w)))))%list.
Proof.
  intros Hok He.
  set (resp := fetch env (count_calls is_fetch (trace w))) in *.
  set (wt := (tick (fr_elapsed resp) [EvFetch url format ts] w).2).
  set (ww := (write_files ts (fr_files resp) wt).2).
  destruct (progress_hooks_ok env chat_id download_type
              (fr_hook_actions resp) ww Hok) as (w1 & E1 & T1 & D1).
  exists w1. split.
  - change (engine_fetch env chat_id url download_type format ts w)
      with ((tick (fr_elapsed resp) [EvFetch url format ts] ;;;
             write_files ts (fr_files resp) ;;;
             repeat_m (fr_hook_actions resp)
               (progress_hook env chat_id download_type) ;;;
             match fr_error resp with
             | Some e => raise e
             | None => ret tt
             end) w).
    rewrite (bind_ok _ _ w wt tt) by reflexivity.
    rewrite (bind_ok _ _ wt ww tt) by reflexivity.
    rewrite (bind_ok _ _ _ _ _ E1), He. reflexivity.
  - rewrite T1. subst ww wt. simpl. rewrite <- app_assoc. reflexivity.
Qed.

Lemma count_calls_snoc_message (p : Event -> bool) (t : list Event)
    (chat_id : Z) (m : Msg) (ok : bool) :
  p (EvSendMessage chat_id m ok) = false ->
  count_calls p (t ++ [EvSendMessage chat_id m ok]) = count_calls p t.
Proof.
  intros H. rewrite count_calls_app. unfold count_calls. simpl.
  rewrite H. simpl. lia.
Qed.

(** X19. A fetch that the engine refuses with 'Video unavailable' or
    'Private video' (and no mention of HTTP 403) ends the call at the
    first attempt: with a transport that answers and a probe that
    returns metadata, [download_media] raises 'Video is unavailable,
    private, or restricted.' after one probe and one fetch, without
    pause or retry. *)
Theorem download_media_unavailable_is_terminal (env : Env) (chat_id : Z)
    (url : pyval) (download_type quality : string) (w : World)
    (info : Info) (error_msg : string) :
  transport_ok env ->
  pr_outcome (probe env (count_calls is_probe (trace w))) = ProbeInfo info ->
  fr_error (fetch env (count_calls is_fetch (trace w)))
  = Some (DownloadError error_msg) ->
  contains "HTTP Error 403" error_msg = false ->
  contains "Forbidden" error_msg = false ->
  contains "Video unavailable" error_msg
  || contains "Private video" error_msg = true ->
  exists ts w',
    let format := ydl_format env download_type quality in
    download_media env chat_id url download_type quality w
    = (Raise (PyException "Video is unavailable, private, or restricted."),
       w')
    /\ trace w'
       = (trace w
          ++ [EvSendMessage chat_id MsgStartingDownloadProcess true;
              EvProbe url format ts;
              EvSendMessage chat_id
                (MsgDownloading
                   (sanitize_filename (get_str (info_title info) "Unknown"))
                   (info_duration info)) true;
              EvFetch url format ts]
          ++ repeat (EvChatAction chat_id (hook_action download_type) true)
               (fr_hook_actions
                  (fetch env (count_calls is_fetch (trace w)))))%list.
Proof.
  intros Hok Hprobe Hfetch H403 Hforb Hun.
  set (format := ydl_format env download_type quality).
  destruct (bot_send_message_ok env chat_id MsgStartingDownloadProcess w Hok)
    as (w1 & E1 & T1 & U1 & D1).
  assert (Hp1 : count_calls is_probe (trace w1)
                = count_calls is_probe (trace w))
    by (rewrite T1; apply count_calls_snoc_message; reflexivity).
  rewrite <- Hp1 in Hprobe.
  destruct (probe_step_ok env chat_id url format (int_time w1) info w1 Hok
              Hprobe) as (w2 & E2 & T2 & D2).
  assert (Hf2 : count_calls is_fetch (trace w2)
                = count_calls is_fetch (trace w)).
  { rewrite T2, T1, !count_calls_app. unfold count_calls. simpl. lia. }
  rewrite <- Hf2 in Hfetch.
  destruct (engine_fetch_raises env chat_id url download_type format
              (int_time w1) _ w2 Hok Hfetch) as (w3 & E3 & T3).
  exists (int_time w1),
    (set_temp_dir
       (fun fs => unlink_all (glob_token (int_time w1) fs) fs) w3).2.
  cbv zeta. split.
  - unfold download_media.
    change (seq 0 max_retries) with [0; 1; 2]%nat. cbn [attempts].
    unfold iteration.
    change (notify_attempt env chat_id 0)
      with (bot_send_message env chat_id MsgStartingDownloadProcess).
    rewrite E1. unfold attempt_body. fold format.
    rewrite (bind_ok _ _ _ _ _ E2), (bind_raise _ _ _ _ _ E3).
    cbn [on_error]. unfold on_download_error, purge_partial.
    unfold bind at 1. unfold set_temp_dir at 1.
    rewrite H403, Hforb, Hun. cbn [orb]. unfold ret. reflexivity.
  - unfold set_temp_dir. cbn [snd trace].
    rewrite T3, Hf2, T2, T1, <- !app_assoc. reflexivity.
Qed.

Lemma download_media_unavailable_is_terminal_witness :
  exists ts w',
    download_media Cases.env_unavailable Scenario.chat Scenario.url "video"
      "best" Scenario.processing
    = (Raise (PyException "Video is unavailable, private, or restricted."),
       w')
    /\ fetch_formats (trace w')
       = [ydl_format Cases.env_unavailable "video" "best"]
    /\ probe_tokens (trace w') = [ts].
Proof.
  assert (H1 : transport_ok Cases.env_unavailable) by (intros n; reflexivity).
  destruct (download_media_unavailable_is_terminal Cases.env_unavailable
              Scenario.chat Scenario.url "video" "best" Scenario.processing
              Scenario.song _ H1 eq_refl eq_refl eq_refl eq_refl eq_refl)
    as (ts & w' & E & T).
  exists ts, w'. split; [exact E|]. rewrite T. split; reflexivity.
Defined.

(** ** download_media: what every call keeps *)

(** X20. Whatever [download_media] returns is deliverable: the path it
    returns names an entry of the directory that is larger than 1024
    bytes. *)
Theorem download_media_returns_payload (env : Env) (chat_id : Z)
    (url : pyval) (download_type quality : string) (w w' : World)
    (info : Info) (file_path : string) :
  download_media env chat_id url download_type quality w
  = (Ok (info, file_path), w') ->
  exists f, temp_dir w' !! file_path = Some f /\ (1024 < f_size f)%Z.
Proof. apply download_media_returns_large. Qed.

Lemma download_media_returns_payload_witness :
  exists f,
    temp_dir (download_media Scenario.env_ok Scenario.chat Scenario.url
                "audio" "best" Scenario.processing).2 !! Scenario.payload
    = Some f
    /\ (1024 < f_size f)%Z.
Proof.
  assert (H : download_media Scenario.env_ok Scenario.chat Scenario.url
                "audio" "best" Scenario.processing
              = (Ok (Scenario.song, Scenario.payload),
                 (download_media Scenario.env_ok Scenario.chat Scenario.url
                    "audio" "best" Scenario.processing).2))
    by (vm_compute; reflexivity).
  exact (download_media_returns_payload _ _ _ _ _ _ _ _ _ H).
Defined.

(** X21. Within one call, every probe and every fetch is issued for the
    url of the call and under one and the same format directive, the one
    that the options give for the requested type and quality: no attempt
    changes the url or the format. *)
Theorem download_media_same_request (env : Env) (chat_id : Z) (url : pyval)
    (download_type quality : string) (w : World) :
  extends_trace (asks url (ydl_format env download_type quality)) w
    (download_media env chat_id url download_type quality w).2.
Proof.
  set (F := ydl_format env download_type quality).
  assert (HF : Footprint (extends_trace (asks url F)) (asks url F)
                 (fun _ _ => True)).
  { apply trace_footprint; [|reflexivity].
    intros []; simpl; auto; discriminate. }
  apply (fp_download_media _ _ _ HF); intros; split; reflexivity.
Qed.

(** One pass of the loop when the probe raises [e]: the message, the
    probe, and then either the pause before the next attempt or, at the
    last attempt, the exception of the pre-flight block with the text of
    [e]. *)
Lemma iteration_probe_fails_with (env : Env) (chat_id : Z) (url : pyval)
    (download_type quality : string) (attempt : nat) (ts0 : option Z)
    (w : World) (e : exn) :
  transport_ok env ->
  pr_outcome (probe env (count_calls is_probe (trace w))) = ProbeError e ->
  exists ts w',
    iteration env chat_id url download_type quality attempt ts0 w
    = ((if (attempt <? max_retries - 1)%nat then FContinue
        else FRaise (PyException
                       ("Cannot access video: " ++ str_of_exn e)),
        Some ts), w')
    /\ count_calls is_probe (trace w')
       = (count_calls is_probe (trace w) + 1)%nat
    /\ count_calls is_fetch (trace w') = count_calls is_fetch (trace w).
Proof.
  intros Hok He. unfold iteration.
  destruct (notify_attempt_ok env chat_id attempt w Hok)
    as (m & w1 & -> & Ht1 & Hd1).
  assert (Hp1 : count_calls is_probe (trace w1)
                = count_calls is_probe (trace w))
    by (rewrite Ht1; apply count_calls_snoc_message; reflexivity).
  rewrite <- Hp1 in He.
  destruct (probe_step_fails env chat_id url
              (ydl_format env download_type quality) (int_time w1) e w1 He)
    as (w2 & Hp & Ht2 & Hd2).
  exists (int_time w1).
  unfold attempt_body, bind at 1. rewrite Hp.
  cbv [on_error on_exception bind purge_partial set_temp_dir].
  destruct (attempt <? max_retries - 1)%nat; eexists;
    (split; [reflexivity|]); simpl; rewrite Ht2, Ht1, !count_calls_app;
    unfold count_calls; simpl; lia.
Qed.

(** X22. A probe that keeps failing is retried to the end: with a
    transport that answers, when the next three probes raise, whatever
    their errors, an access denial included, the call makes exactly
    these three probes and no fetch, and raises 'Cannot access video: '
    followed by the text of the error of the third probe. *)
Theorem download_media_failing_probe (env : Env) (chat_id : Z) (url : pyval)
    (download_type quality : string) (w : World) (e0 e1 e2 : exn) :
  transport_ok env ->
  pr_outcome (probe env (count_calls is_probe (trace w))) = ProbeError e0 ->
  pr_outcome (probe env (count_calls is_probe (trace w) + 1))
  = ProbeError e1 ->
  pr_outcome (probe env (count_calls is_probe (trace w) + 2))
  = ProbeError e2 ->
  let r := download_media env chat_id url download_type quality w in
  r.1 = Raise (PyException ("Cannot access video: " ++ str_of_exn e2))
  /\ count_calls is_probe (trace r.2)
     = (count_calls is_probe (trace w) + 3)%nat
  /\ count_calls is_fetch (trace r.2) = count_calls is_fetch (trace w).
Proof.
  intros Hok H0 H1 H2. cbv zeta. unfold download_media.
  change (seq 0 max_retries) with [0; 1; 2]%nat. cbn [attempts].
  destruct (iteration_probe_fails_with env chat_id url download_type quality
              0 None w e0 Hok H0) as (t0 & w1 & -> & P1 & F1).
  cbn [Nat.ltb Nat.leb max_retries Nat.sub].
  rewrite <- P1 in H1.
  destruct (iteration_probe_fails_with env chat_id url download_type quality
              1 (Some t0) w1 e1 Hok H1) as (t1 & w2 & -> & P2 & F2).
  cbn [Nat.ltb Nat.leb max_retries Nat.sub].
  replace (count_calls is_probe (trace w) + 2)%nat
    with (count_calls is_probe (trace w2)) in H2 by lia.
  destruct (iteration_probe_fails_with env chat_id url download_type quality
              2 (Some t1) w2 e2 Hok H2) as (t2 & w3 & -> & P3 & F3).
  cbn [Nat.ltb Nat.leb max_retries Nat.sub fst snd].
  split; [reflexivity|]. split; lia.
Qed.

Lemma download_media_failing_probe_witness :
  (download_media Scenario.env_private Scenario.chat Scenario.url
     "video" "best" Scenario.processing).1
  = Raise (PyException
      "Cannot access video: ERROR: [youtube] abc: Private video. Sign in if you've been granted access to this video")
  /\ count_calls is_probe
       (trace (download_media Scenario.env_private Scenario.chat
                 Scenario.url "video" "best" Scenario.processing).2)
     = 3%nat.
Proof.
  assert (H1 : transport_ok Scenario.env_private) by (intros n; reflexivity).
  pose proof (download_media_failing_probe Scenario.env_private
                Scenario.chat Scenario.url "video" "best"
                Scenario.processing _ _ _ H1 eq_refl eq_refl eq_refl)
    as (Hr & Hp & _).
  split; [exact Hr | exact Hp].
Defined.

(** X23. The last call of every run of the download handler is the send
    of the main menu to the requester (the finally block); when that
    send goes through, the requester's state is 'main', whatever
    happened before. *)
Theorem handle_download_process_ends_with_menu (env : Env) (chat_id : Z)
    (url : pyval) (download_type quality : string) (w : World) :
  let r := handle_download_process env chat_id url download_type quality w in
  exists ok,
    last (trace r.2) = Some (EvSendMessage chat_id MsgMainMenu ok)
    /\ (ok = true -> user_states r.2 !! chat_id = Some "main").
Proof. apply handle_download_process_resets_when_menu_sent. Qed.

(** ** The upload loop *)

Section AtMost.
Variable p : Event -> bool.
Variable env : Env.

Lemma am_trans (n m : nat) (w1 w2 w3 : World) :
  at_most p n w1 w2 -> at_most p m w2 w3 -> at_most p (n + m) w1 w3.
Proof.
  intros (e1 & H1 & A1) (e2 & H2 & A2). exists (e1 ++ e2)%list.
  split; [rewrite H2, H1, app_assoc; reflexivity|].
  rewrite count_calls_app. lia.
Qed.

Lemma am_mono (n m : nat) (w w' : World) :
  (n <= m)%nat -> at_most p n w w' -> at_most p m w w'.
Proof. intros Hn (evs & H & A). exists evs. split; [assumption|lia]. Qed.

Lemma am_weaken {A} (n m : nat) (c : M A) :
  (n <= m)%nat -> run_rel (at_most p n) c -> run_rel (at_most p m) c.
Proof. intros Hn Hc w. eapply am_mono; [eassumption | apply Hc]. Qed.

Lemma am_ret {A} (a : A) : run_rel (at_most p 0) (ret a).
Proof. intros w. exists []. split; [symmetry; apply app_nil_r|]. reflexivity. Qed.

Lemma am_raise {A} (e : exn) : run_rel (at_most p 0) (@raise A e).
Proof. intros w. exists []. split; [symmetry; apply app_nil_r|]. reflexivity. Qed.

Lemma am_bind {A B} (n m : nat) (c : M A) (k : A -> M B) :
  run_rel (at_most p n) c -> (forall x, run_rel (at_most p m) (k x)) ->
  run_rel (at_most p (n + m)) (bind c k).
Proof.
  intros Hc Hk w. unfold bind. specialize (Hc w).
  destruct (c w) as [[x|e] w1]; simpl in *.
  - eapply am_trans; [eassumption | apply Hk].
  - eapply am_mono; [|eassumption]. lia.
Qed.

Lemma am_try_except {A} (n m : nat) (c : M A) (h : exn -> M A) :
  run_rel (at_most p n) c -> (forall e, run_rel (at_most p m) (h e)) ->
  run_rel (at_most p (n + m)) (try_except c h).
Proof.
  intros Hc Hh w. unfold try_except. specialize (Hc w).
  destruct (c w) as [[x|e] w1]; simpl in *.
  - eapply am_mono; [|eassumption]. lia.
  - eapply am_trans; [eassumption | apply Hh].
Qed.

Lemma am_tick (el : N) (e : Event) :
  run_rel (at_most p (count_calls p [e])) (tick el [e]).
Proof. intros w. exists [e]. split; reflexivity. Qed.

Lemma am_transport_call (n : nat) (ev : bool -> Event) :
  (forall b, (count_calls p [ev b] <= n)%nat) ->
  run_rel (at_most p n) (transport_call env ev).
Proof.
  intros Hev w. unfold transport_call, bind, get_world.
  destruct (tr_error _); simpl.
  - exists [ev false]. split; [reflexivity | apply Hev].
  - exists [ev true]. split; [reflexivity | apply Hev].
Qed.
End AtMost.

Lemma am_send_file (p : Event -> bool) (n : nat) (env : Env) (chat_id : Z)
    (k : MediaKind) (file_path : string) (title : option string) :
  (forall b,
     (count_calls p [EvSendMedia chat_id k file_path title b] <= n)%nat) ->
  run_rel (at_most p n) (send_file env chat_id k file_path title).
Proof.
  intros Hp w. unfold send_file, bind, get_world.
  assert (Hr : forall e, at_most p n w (@raise unit e w).2).
  { intros e. apply (am_mono p 0 n); [lia|]. apply (am_raise p). }
  destruct (temp_dir w !! file_path) as [f|]; [|apply Hr].
  destruct (f_isfile f); [|apply Hr].
  apply am_transport_call. exact Hp.
Qed.

Lemma am_bot_send_message (p : Event -> bool) (env : Env) (chat_id : Z)
    (m : Msg) :
  (forall m b, p (EvSendMessage chat_id m b) = false) ->
  run_rel (at_most p 0) (bot_send_message env chat_id m).
Proof.
  intros Hp. apply am_transport_call. intros b.
  unfold count_calls. simpl. rewrite Hp. reflexivity.
Qed.

(** The loop makes at most two uploads of the requested type, which
    count [a] each, and one upload as a document, which counts [d]. *)
Lemma am_upload_loop (p : Event -> bool) (a d : nat) (env : Env)
    (chat_id : Z) (download_type file_path title : string) :
  (forall t b,
     (count_calls p
        [EvSendMedia chat_id (media_kind download_type) file_path t b]
      <= a)%nat) ->
  (forall t b,
     (count_calls p [EvSendMedia chat_id SendDocument file_path t b]
      <= d)%nat) ->
  (forall m b, p (EvSendMessage chat_id m b) = false) ->
  p (EvSleep 2) = false ->
  run_rel (at_most p (a + (a + d)))
    (upload_loop env chat_id download_type file_path title
       (seq 0 max_upload_attempts)).
Proof.
  intros Ha Hd Hm Hs.
  assert (Htyped : run_rel (at_most p a)
            (send_file env chat_id (media_kind download_type) file_path
               (media_title download_type title) ;;;
             bot_send_message env chat_id MsgUploadSuccessful ;;; ret true)).
  { apply (am_weaken p (a + 0) a); [lia|].
    apply (am_bind p a 0); [apply am_send_file; intros; apply Ha|].
    intros _. apply (am_bind p 0 0); [apply am_bot_send_message, Hm|].
    intros _. apply am_ret. }
  change (seq 0 max_upload_attempts) with [0; 1]%nat. cbn [upload_loop].
  rewrite !typed_upload_eq.
  apply (am_bind p a (a + d)).
  - apply (am_weaken p (a + 0) a); [lia|].
    apply (am_try_except p a 0); [exact Htyped|].
    intros e. cbn [Nat.ltb Nat.leb max_upload_attempts Nat.sub].
    apply (am_bind p 0 0); [apply am_bot_send_message, Hm|].
    intros _. apply (am_bind p 0 0); [|intros; apply am_ret].
    intros w. exists [EvSleep 2]. split; [reflexivity|].
    unfold count_calls. simpl. rewrite Hs. reflexivity.
  - intros [|]; [apply (am_weaken p 0 (a + d)); [lia | apply am_ret]|].
    apply (am_weaken p (a + d + 0) (a + d)); [lia|].
    apply (am_bind p (a + d) 0); [|intros [|]; apply am_ret].
    apply (am_try_except p a d); [exact Htyped|].
    intros e. cbn [Nat.ltb Nat.leb max_upload_attempts Nat.sub].
    apply (am_weaken p (d + 0) d); [lia|].
    apply (am_bind p d 0); [|intros; apply am_ret].
    apply (am_weaken p (d + 0) d); [lia|].
    apply (am_try_except p d 0).
    + apply (am_weaken p (d + 0) d); [lia|].
      apply (am_bind p d 0); [apply am_send_file; intros; apply Hd|].
      intros _. apply am_bot_send_message, Hm.
    + intros e'. apply am_bot_send_message, Hm.
Qed.

Lemma media_kind_typed (download_type : string) :
  media_kind download_type = SendAudio
  \/ media_kind download_type = SendVideo.
Proof.
  unfold media_kind. destruct (String.eqb download_type "audio"); auto.
Qed.

(** X24. Whatever the transport answers and whatever the directory
    holds, the upload loop transmits the file at most twice through the
    channel of the requested type ([send_audio] or [send_video]) and at
    most once as a document, hence at most three times. *)
Theorem upload_loop_call_bound (env : Env) (chat_id : Z)
    (download_type file_path title : string) (w : World) :
  let w' :=
    (upload_loop env chat_id download_type file_path title
       (seq 0 max_upload_attempts) w).2 in
  (count_calls is_typed_upload (trace w')
   <= count_calls is_typed_upload (trace w) + 2)%nat
  /\ (count_calls is_document_upload (trace w')
      <= count_calls is_document_upload (trace w) + 1)%nat
  /\ (count_calls is_upload (trace w')
      <= count_calls is_upload (trace w) + 3)%nat.
Proof.
  cbv zeta.
  destruct (am_upload_loop is_typed_upload 1 0 env chat_id download_type
              file_path title) with (w := w) as (e1 & T1 & C1);
    try reflexivity.
  { intros t b. unfold count_calls. simpl.
    destruct (media_kind download_type); simpl; lia. }
  destruct (am_upload_loop is_document_upload 0 1 env chat_id download_type
              file_path title) with (w := w) as (e2 & T2 & C2);
    try reflexivity.
  { intros t b. unfold count_calls. simpl.
    destruct (media_kind_typed download_type) as [-> | ->]; reflexivity. }
  destruct (am_upload_loop is_upload 1 1 env chat_id download_type
              file_path title) with (w := w) as (e3 & T3 & C3);
    try reflexivity.
  split; [rewrite T1, count_calls_app; lia|].
  split; [rewrite T2, count_calls_app; lia|].
  rewrite T3, count_calls_app. lia.
Qed.

Lemma transport_call_returns (env : Env) (ev : bool -> Event) (w : World) :
  tr_error (transport env (count_calls is_transport_call (trace w))) = None ->
  exists w',
    transport_call env ev w = (Ok tt, w')
    /\ trace w' = (trace w ++ [ev true])%list
    /\ temp_dir w' = temp_dir w.
Proof.
  intros H. unfold transport_call, bind, get_world. rewrite H.
  eexists. split; [reflexivity|]. simpl. auto.
Qed.

Lemma transport_call_raises (env : Env) (ev : bool -> Event) (w : World)
    (err : string) :
  tr_error (transport env (count_calls is_transport_call (trace w)))
  = Some err ->
  exists w',
    transport_call env ev w = (Raise (PyException err), w')
    /\ trace w' = (trace w ++ [ev false])%list
    /\ temp_dir w' = temp_dir w.
Proof.
  intros H. unfold transport_call, bind, get_world. rewrite H.
  eexists. split; [reflexivity|]. simpl. auto.
Qed.

Lemma bot_send_message_returns (env : Env) (chat_id : Z) (m : Msg)
    (w : World) :
  tr_error (transport env (count_calls is_transport_call (trace w))) = None ->
  exists w',
    bot_send_message env chat_id m w = (Ok tt, w')
    /\ trace w' = (trace w ++ [EvSendMessage chat_id m true])%list
    /\ temp_dir w' = temp_dir w.
Proof. apply transport_call_returns. Qed.

Lemma bot_send_message_raises (env : Env) (chat_id : Z) (m : Msg)
    (w : World) (err : string) :
  tr_error (transport env (count_calls is_transport_call (trace w)))
  = Some err ->
  exists w',
    bot_send_message env chat_id m w = (Raise (PyException err), w')
    /\ trace w' = (trace w ++ [EvSendMessage chat_id m false])%list
    /\ temp_dir w' = temp_dir w.
Proof. apply transport_call_raises. Qed.

Lemma send_file_returns (env : Env) (chat_id : Z) (k : MediaKind)
    (file_path : string) (title : option string) (f : File) (w : World) :
  temp_dir w !! file_path = Some f -> f_isfile f = true ->
  tr_error (transport env (count_calls is_transport_call (trace w))) = None ->
  exists w',
    send_file env chat_id k file_path title w = (Ok tt, w')
    /\ trace w'
       = (trace w ++ [EvSendMedia chat_id k file_path title true])%list
    /\ temp_dir w' = temp_dir w.
Proof.
  intros Hf Hreg H. unfold send_file, bind, get_world. rewrite Hf, Hreg.
  apply transport_call_returns. assumption.
Qed.

(** X25. The confirmation message is sent inside the same try block as
    the upload: when the upload goes through but the 'Upload successful'
    message raises, the loop takes the upload for failed, tells the
    requester that it retries, pauses 2 seconds and transmits the file a
    second time. *)
Theorem upload_loop_repeats_delivered_upload (env : Env) (chat_id : Z)
    (download_type file_path title : string) (f : File) (w : World)
    (err : string) :
  let k := count_calls is_transport_call (trace w) in
  temp_dir w !! file_path = Some f ->
  f_isfile f = true ->
  tr_error (transport env k) = None ->
  tr_error (transport env (k + 1)) = Some err ->
  (forall n, (k + 2 <= n)%nat -> tr_error (transport env n) = None) ->
  exists w',
    upload_loop env chat_id download_type file_path title
      (seq 0 max_upload_attempts) w = (Ok tt, w')
    /\ trace w'
       = (trace w
          ++ [EvSendMedia chat_id (media_kind download_type) file_path
                (media_title download_type title) true;
              EvSendMessage chat_id MsgUploadSuccessful false;
              EvSendMessage chat_id (MsgUploadRetrying 2) true;
              EvSleep 2;
              EvSendMedia chat_id (media_kind download_type) file_path
                (media_title download_type title) true;
              EvSendMessage chat_id MsgUploadSuccessful true])%list.
Proof.
  intros k Hf Hreg H0 H1 Hrest.
  set (kind := media_kind download_type).
  set (sent := media_title download_type title).
  destruct (send_file_returns env chat_id kind file_path sent f w Hf Hreg
              H0) as (w1 & E1 & T1 & D1).
  assert (K1 : count_calls is_transport_call (trace w1) = (k + 1)%nat).
  { rewrite T1, count_calls_app. reflexivity. }
  rewrite <- K1 in H1.
  destruct (bot_send_message_raises env chat_id MsgUploadSuccessful w1 err
              H1) as (w2 & E2 & T2 & D2).
  assert (K2 : count_calls is_transport_call (trace w2) = (k + 2)%nat).
  { rewrite T2, count_calls_app, K1. unfold count_calls. simpl. lia. }
  destruct (bot_send_message_returns env chat_id (MsgUploadRetrying 2) w2)
    as (w3 & E3 & T3 & D3); [apply Hrest; lia|].
  assert (K3 : count_calls is_transport_call (trace w3) = (k + 3)%nat).
  { rewrite T3, count_calls_app, K2. unfold count_calls. simpl. lia. }
  set (w4 := (time_sleep 2 w3).2).
  assert (E4 : time_sleep 2 w3 = (Ok tt, w4)) by reflexivity.
  assert (T4 : trace w4 = (trace w3 ++ [EvSleep 2])%list) by reflexivity.
  assert (D4 : temp_dir w4 = temp_dir w3) by reflexivity.
  clearbody w4.
  assert (K4 : count_calls is_transport_call (trace w4) = (k + 3)%nat).
  { rewrite T4, count_calls_app, K3. unfold count_calls. simpl. lia. }
  assert (Hf4 : temp_dir w4 !! file_path = Some f).
  { rewrite D4, D3, D2, D1. assumption. }
  destruct (send_file_returns env chat_id kind file_path sent f w4 Hf4 Hreg)
    as (w5 & E5 & T5 & D5); [apply Hrest; lia|].
  assert (K5 : count_calls is_transport_call (trace w5) = (k + 4)%nat).
  { rewrite T5, count_calls_app, K4. unfold count_calls. simpl. lia. }
  destruct (bot_send_message_returns env chat_id MsgUploadSuccessful w5)
    as (w6 & E6 & T6 & D6); [apply Hrest; lia|].
  exists w6. split.
  - change (seq 0 max_upload_attempts) with [0; 1]%nat. cbn [upload_loop].
    rewrite !typed_upload_eq. fold kind. fold sent.
    assert (Efirst :
      try_except
        (send_file env chat_id kind file_path sent ;;;
         bot_send_message env chat_id MsgUploadSuccessful ;;; ret true)
        (fun upload_error =>
           if (0 <? max_upload_attempts - 1)%nat then
             bot_send_message env chat_id (MsgUploadRetrying (0 + 2)) ;;;
             time_sleep 2 ;;; ret false
           else
             try_except
               (send_file env chat_id SendDocument file_path None ;;;
                bot_send_message env chat_id MsgUploadCompletedAsDocument)
               (fun doc_error =>
                  bot_send_message env chat_id
                    (MsgUploadFailed
                       (str_take 100 (str_of_exn upload_error)))) ;;;
             ret false) w
      = (Ok false, w4)).
    { unfold try_except.
      rewrite (bind_ok _ _ _ _ _ E1), (bind_raise _ _ _ _ _ E2).
      change (0 <? max_upload_attempts - 1)%nat with true. cbv iota.
      change (0 + 2)%nat with 2%nat.
      rewrite (bind_ok _ _ _ _ _ E3), (bind_ok _ _ _ _ _ E4). reflexivity. }
    rewrite (bind_ok _ _ _ _ _ Efirst). cbv iota.
    unfold bind at 1, try_except at 1.
    rewrite (bind_ok _ _ _ _ _ E5), (bind_ok _ _ _ _ _ E6). reflexivity.
  - rewrite T6, T5, T4, T3, T2, T1, <- !app_assoc. reflexivity.
Qed.

Lemma upload_loop_repeats_delivered_upload_witness :
  exists w',
    upload_loop (Scenario.env_outage 1 1) Scenario.chat "video"
      "download_5_clip.mp4" "clip" (seq 0 max_upload_attempts)
      Uploads.downloaded = (Ok tt, w')
    /\ count_calls is_upload (trace w') = 2%nat.
Proof.
  assert (Hrest : forall n, (0 + 2 <= n)%nat ->
            tr_error (transport (Scenario.env_outage 1 1) n) = None).
  { intros n Hn. unfold Scenario.env_outage, Scenario.with_transport.
    cbn [transport]. destruct (Nat.leb_spec n 1) as [H|H]; [lia|].
    rewrite andb_false_r. reflexivity. }
  destruct (upload_loop_repeats_delivered_upload (Scenario.env_outage 1 1)
              Scenario.chat "video" "download_5_clip.mp4" "clip"
              (Scenario.regular 5000 0) Uploads.downloaded
              "Connection reset by peer" eq_refl eq_refl eq_refl eq_refl
              Hrest) as (w' & E & T).
  exists w'. split; [exact E|]. rewrite T. reflexivity.
Defined.
